(** * Staff-line detection pipeline (linesegmentation.detection.lineDetection)

    A shallow embedding of [LineDetection] from
    [src/linesegmentation/detection/lineDetection.py] and of [PCPredictor]
    from [src/linesegmentation/pixelclassifier/predictor.py].

    The methods are Python procedures that call helper stages in sequence,
    may raise, and (for [detect_basic]/[detect_advanced]) are generators.
    They are embedded in a small monad that records which stage or
    collaborator was entered and whether an exception was raised. *)

From Stdlib Require Import ZArith List Bool Lia String QArith.
Import ListNotations.

Set Implicit Arguments.
Open Scope Z_scope.

(** ** Data model *)

(** A point is the Python pair [[y, x]]: row first, column second. *)
Definition Point : Type := (Z * Z)%type.
Definition row (p : Point) : Z := fst p.
Definition column (p : Point) : Z := snd p.

(** [List[List[int]]], [List[List[List[int]]]] and the returned
    [List[List[List[List[int]]]]] of the type annotations. *)
Definition Line : Type := list Point.
Definition System : Type := list Line.
Definition StaffList : Type := list System.

(** ** Stages, collaborators and exceptions *)

(** The stage methods that [detect_staff_lines] calls on [self], and the
    three stage functions it imports. *)
Inductive Stage : Type :=
| ExtractCC            (* extract_connected_components *)
| NormalizeCC          (* normalize_connected_components *)
| ConnectCC            (* connect_connected_components_to_line *)
| PruneSmallLines      (* prune_small_lines *)
| OrganizeLines        (* organize_lines_in_systems *)
| PruneLowestIntensity (* prune_lines_in_system_with_lowest_intensity *)
| NormalizeLines       (* normalize_lines_in_system *)
| PostProcess          (* postprocess_staff_systems *)
| SmoothLines          (* smooth_lines *)
| SmoothLinesAdvanced  (* smooth_lines_advanced *)
| LineFitting.         (* line_fitting *)

(** Image-level helpers used around the stages. *)
Inductive Collaborator : Type :=
| Binarize | Enhance | VerticalRuns | HorizontalRuns | CreateData | Predict.

Inductive Exn : Type :=
| IndexError                       (* l[-1], l[0], data[i] out of range *)
| ValueError                       (* zip( *staff) on an empty staff,
                                      Pool with no process *)
| StageError (s : Stage)           (* a stage raised *)
| CollaboratorError (c : Collaborator).

Inductive Event : Type :=
| Enter (s : Stage)
| Use (c : Collaborator).

Inductive Result (A : Type) : Type :=
| Ok (a : A)
| Raise (e : Exn).
Arguments Raise {A} e.

Definition stage_eq_dec (a b : Stage) : {a = b} + {a <> b}.
Proof. decide equality. Defined.

(** ** The effect monad: a log of events and a result or an exception *)

Definition M (A : Type) : Type := (list Event * Result A)%type.

Definition ret {A} (a : A) : M A := ([], Ok a).

Definition bind {A B} (m : M A) (k : A -> M B) : M B :=
  match m with
  | (t, Ok a) => let '(t', r) := k a in (t ++ t', r)
  | (t, Raise e) => (t, Raise e)
  end.

Definition raise {A} (e : Exn) : M A := ([], Raise e).

(** Entering a stage logs it; the stage returns a value or raises. *)
Definition enter {A} (s : Stage) (o : option A) : M A :=
  ([Enter s], match o with Some a => Ok a | None => Raise (StageError s) end).

Definition use {A} (c : Collaborator) (o : option A) : M A :=
  ([Use c],
   match o with Some a => Ok a | None => Raise (CollaboratorError c) end).

Definition trace {A} (m : M A) : list Event := fst m.
Definition outcome {A} (m : M A) : Result A := snd m.

Declare Scope monad_scope.
Delimit Scope monad_scope with monad.
Notation "x <- c ;; k" := (bind c (fun x => k))
  (at level 61, c at next level, right associativity) : monad_scope.
Notation "c ;;; k" := (bind c (fun _ => k))
  (at level 61, right associativity) : monad_scope.
Open Scope monad_scope.

(** [for x in xs: body x] *)
Fixpoint for_each {A} (xs : list A) (body : A -> M unit) : M unit :=
  match xs with
  | [] => ret tt
  | x :: xs' => body x ;;; for_each xs' body
  end.

(** The stages entered, in order. *)
Fixpoint stages_of (t : list Event) : list Stage :=
  match t with
  | [] => []
  | Enter s :: t' => s :: stages_of t'
  | _ :: t' => stages_of t'
  end.

Fixpoint collaborators_of (t : list Event) : list Collaborator :=
  match t with
  | [] => []
  | Use c :: t' => c :: collaborators_of t'
  | _ :: t' => collaborators_of t'
  end.

(** A Python generator: what runs before the first item is asked for,
    then one computation per item, each ending at its [yield]. *)
Definition Generator (Y : Type) : Type := M (list (M Y)).

(** ** Settings *)

Module Settings.

(** The fields of [LineDetectionSettings] that the two source files read. *)
Record t : Type := mk {
  model : option string;
  minLength : Z;
  lineSpaceHeight : Z;
  processes : Z;
  numLine : Z;
  lineExtension : bool;
  post_process : bool;
  smooth_lines : Z;
  smooth_value_lowpass : Q;
  smooth_value_adv : Q;
  line_fit_distance : Q;
  debug : bool
}.

End Settings.

(** Python truth value of an [Optional[str]]: [None] and [''] are falsy. *)
Definition truthy (m : option string) : bool :=
  match m with
  | None => false
  | Some s => negb (String.eqb s EmptyString)
  end.

(** [d > 0] on the fit distance. *)
Definition Qpositive (d : Q) : bool := negb (Qle_bool d 0).

(** ** Python list idioms used by the source *)

(** [l[0]] and [l[-1]]: both raise [IndexError] on an empty list. *)
Definition first_item {A} (l : list A) : option A := hd_error l.
Definition last_item {A} (l : list A) : option A := hd_error (rev l).

(** [l[-1][1] - l[0][1]] *)
Definition span (l : Line) : option Z :=
  match last_item l, first_item l with
  | Some pl, Some pf => Some (column pl - column pf)
  | _, _ => None
  end.

(** [[l for l in line_list if l[-1][1] - l[0][1] > 50]] *)
Fixpoint length_filter (line_list : list Line) : M (list Line) :=
  match line_list with
  | [] => ret []
  | l :: rest =>
      match span l with
      | None => raise IndexError
      | Some s =>
          kept <- length_filter rest ;;
          ret (if 50 <? s then l :: kept else kept)
      end
  end.

(** [a[1:-2]] *)
Definition slice_1_m2 {A} (a : list A) : list A :=
  skipn 1 (firstn (List.length a - 2)%nat a).

Definition sum (a : list Z) : Z := fold_right Z.add 0 a.

(** The counts of bins 1 to 7 of a histogram. *)
Definition bins_1_to_7 (h : list Z) : Z :=
  nth 1 h 0 + nth 2 h 0 + nth 3 h 0 + nth 4 h 0 + nth 5 h 0 + nth 6 h 0
  + nth 7 h 0.

(** ** What the two files import *)

(** [ImageData] as the source uses it: [detect_basic] fills four attributes,
    [PCPredictor.predict] also reads [height]. *)
Record ImageData (ndarray : Type) : Type := mkImageData {
  image : ndarray;
  staff_space_height : Z;
  staff_line_height : Z;
  horizontal_runs_img : ndarray;
  height : option Z
}.

(** The array operations and the helper functions imported by
    [lineDetection.py]. Array arithmetic is taken as total; the project's
    helpers may raise. *)
Record Imports (ndarray CC : Type) : Type := mkImports {
  (* numpy, scipy *)
  astype_float_div_255 : ndarray -> ndarray;      (* a.astype(float) / 255 *)
  histogram_counts : ndarray -> list Z;           (* np.histogram(a)[0] *)
  one_minus : ndarray -> ndarray;                 (* 1 - a *)
  binary_erosion : ndarray -> ndarray;            (* structure 5 x 1 of ones *)
  binary_dilation : ndarray -> ndarray;
  xor : ndarray -> ndarray -> ndarray;            (* a ^ b *)
  set_positive_to_255 : ndarray -> ndarray;       (* pred[pred > 0] = 255 *)
  div_255 : ndarray -> ndarray;                   (* pred / 255 *)
  (* linesegmentation: the [height] of a fresh [ImageData()] *)
  default_height : option Z;
  (* linesegmentation *)
  binarize : ndarray -> option ndarray;
  enhance : ndarray -> option ndarray;
  vertical_runs : ndarray -> option (Z * Z);
  calculate_horizontal_runs : ndarray -> Z -> option ndarray;
  create_data : ndarray -> Z -> option (ImageData ndarray);
  extract_connected_components : ndarray -> option (list CC);
  normalize_connected_components : list CC -> option (list CC);
  line_fitting : StaffList -> Q -> option StaffList
}.

(** The methods [LineDetection] inherits from [LineDetector]. *)
Record LineDetector (ndarray CC : Type) : Type := mkLineDetector {
  connect_connected_components_to_line :
    list CC -> Z -> Z -> option (list Line);
  prune_small_lines : list Line -> Z -> option (list Line);
  organize_lines_in_systems : list Line -> Z -> Z -> option StaffList;
  prune_lines_in_system_with_lowest_intensity :
    StaffList -> ndarray -> option StaffList;
  normalize_lines_in_system : StaffList -> Z -> ndarray -> option StaffList;
  postprocess_staff_systems : StaffList -> Z -> ndarray -> option StaffList;
  smooth_lines : StaffList -> Q -> option StaffList;
  smooth_lines_advanced : StaffList -> Q -> option StaffList
}.

(** What [predictor.py] imports from [pagesegmentation] and scipy. *)
Record PageSegmentation (ndarray Dataset Prediction : Type) : Type :=
mkPageSegmentation {
  (* DatasetLoader(height, prediction=True).load_data([SingleData(...)]) *)
  load_data : Z -> list (ndarray * ndarray * option Z) -> option Dataset;
  (* Predictor(settings).predict(data) *)
  predictor_predict : Dataset -> option (list Prediction);
  (* misc.imresize(pred[0][pred[2].xpad:, pred[2].ypad:],
                   pred[2].original_shape, interp="nearest") *)
  crop_and_resize : Prediction -> option ndarray
}.

(** ** [PCPredictor] (predictor.py) *)

Section PCPredictor.

Context {ndarray Dataset Prediction : Type}.
Variable lib : PageSegmentation ndarray Dataset Prediction.
(** [self.height] *)
Variable predictor_height : Z.

(** [PCPredictor.predict]: the data set is loaded and handed to the network
    when the first item is asked for; each prediction is then cropped and
    resized before it is yielded. *)
Definition PCPredictor_predict (images : list (ImageData ndarray))
  : Generator ndarray :=
  data <- use Predict
            (load_data lib predictor_height
               (map (fun i => (image i, image i, height i)) images)) ;;
  preds <- use Predict (predictor_predict lib data) ;;
  ret (map (fun pred => use Predict (crop_and_resize lib pred)) preds).

End PCPredictor.

(** ** [LineDetection] (lineDetection.py) *)

Section LineDetection.

Context {ndarray CC : Type}.
Variable env : Imports ndarray CC.
Variable self : LineDetector ndarray CC.
(** [self.settings] and [self.predictor.predict] *)
Variable settings : Settings.t.
Variable predictor : list (ImageData ndarray) -> Generator ndarray.

(** *** [detect_staff_lines], lines 112-171, stage by stage *)

(** Lines 113-127: components, candidate lines, the 50 pixel filter and
    [prune_small_lines]. *)
Definition candidate_lines (image_data : ImageData ndarray)
  : M (list Line) :=
  let img := horizontal_runs_img image_data in
  let staff_line_height := staff_line_height image_data in
  let staff_space_height := staff_space_height image_data in
  cc_list <- enter ExtractCC (extract_connected_components env img) ;;
  cc_list <- enter NormalizeCC (normalize_connected_components env cc_list) ;;
  line_list <- enter ConnectCC
                 (connect_connected_components_to_line self cc_list
                    staff_line_height staff_space_height) ;;
  (* Remove lines which are shorter than 50px *)
  line_list <- length_filter line_list ;;
  (* staff2 = line_list.copy() is only kept for debugging *)
  enter PruneSmallLines (prune_small_lines self line_list staff_space_height).

(** Lines 129-136. *)
Definition group_in_systems (image_data : ImageData ndarray)
  (line_list : list Line) : M StaffList :=
  let img := horizontal_runs_img image_data in
  let staff_line_height := staff_line_height image_data in
  let staff_space_height := staff_space_height image_data in
  if 1 <? Settings.numLine settings then
    staff_list <- enter OrganizeLines
                    (organize_lines_in_systems self line_list
                       staff_space_height staff_line_height) ;;
    staff_list <- enter PruneLowestIntensity
                    (prune_lines_in_system_with_lowest_intensity self
                       staff_list img) ;;
    if Settings.lineExtension settings then
      enter NormalizeLines
        (normalize_lines_in_system self staff_list staff_space_height img)
    else ret staff_list
  else
    ret (map (fun x => [x]) line_list).

(** Lines 138-141. *)
Definition post_processing (image_data : ImageData ndarray)
  (staff_list : StaffList) : M StaffList :=
  let img := horizontal_runs_img image_data in
  let staff_line_height := staff_line_height image_data in
  let staff_space_height := staff_space_height image_data in
  if Settings.post_process settings then
    binary <- use Binarize (binarize env (image image_data)) ;;
    staff_list <- enter PostProcess
                    (postprocess_staff_systems self staff_list
                       staff_line_height binary) ;;
    if (1 <? Settings.numLine settings) && Settings.lineExtension settings
    then
      enter NormalizeLines
        (normalize_lines_in_system self staff_list staff_space_height img)
    else ret staff_list
  else ret staff_list.

(** Lines 143-147: two successive [if]s under the outer one. *)
Definition smoothing (staff_list : StaffList) : M StaffList :=
  if negb (Settings.smooth_lines settings =? 0) then
    staff_list <-
      (if Settings.smooth_lines settings =? 1 then
         enter SmoothLines
           (smooth_lines self staff_list
              (Settings.smooth_value_lowpass settings))
       else ret staff_list) ;;
    if Settings.smooth_lines settings =? 2 then
      enter SmoothLinesAdvanced
        (smooth_lines_advanced self staff_list
           (Settings.smooth_value_adv settings))
    else ret staff_list
  else ret staff_list.

(** Lines 149-150. *)
Definition fitting (staff_list : StaffList) : M StaffList :=
  if Qpositive (Settings.line_fit_distance settings) then
    enter LineFitting
      (line_fitting env staff_list (Settings.line_fit_distance settings))
  else ret staff_list.

(** [y, x = zip( *staff)]: unpacking needs a point in the staff. *)
Definition unzip_staff (staff : Line) : M (list Z * list Z) :=
  match staff with
  | [] => raise ValueError
  | _ => ret (map row staff, map column staff)
  end.

(** Lines 153-170: the plot of the debug mode. It binarizes the image and
    unpacks every staff twice; the drawing itself returns nothing. *)
Definition debug_plot (image_data : ImageData ndarray)
  (staff_list : StaffList) : M unit :=
  if Settings.debug settings then
    use Binarize (binarize env (image image_data)) ;;;
    for_each staff_list (fun system =>
      for_each system (fun staff => unzip_staff staff ;;; ret tt)) ;;;
    for_each staff_list (fun system =>
      for_each system (fun staff => unzip_staff staff ;;; ret tt))
  else ret tt.

Definition detect_staff_lines (image_data : ImageData ndarray)
  : M StaffList :=
  line_list <- candidate_lines image_data ;;
  staff_list <- group_in_systems image_data line_list ;;
  staff_list <- post_processing image_data staff_list ;;
  staff_list <- smoothing staff_list ;;
  staff_list <- fitting staff_list ;;
  debug_plot image_data staff_list ;;;
  ret staff_list.

(** *** [detect_basic], lines 84-98 *)

(** Lines 88-90: the image that is binarized. *)
Definition gray_to_binarize (image : ndarray) : M ndarray :=
  let gray := image in
  if negb (sum (slice_1_m2 (histogram_counts env gray)) =? 0) then
    use Enhance (enhance env image)
  else ret gray.

(** Lines 92-97: the staff mask, the run statistics of [binary], and the
    [ImageData] handed to [detect_staff_lines]; its [height] is the one
    [ImageData()] set. *)
Definition runs_image_data (image binary : ndarray)
  : M (ImageData ndarray) :=
  let binarized := one_minus env binary in
  let morph := binary_erosion env binarized in
  let morph := binary_dilation env morph in
  let staffs := xor env binarized morph in
  runs <- use VerticalRuns (vertical_runs env binary) ;;
  horizontal <- use HorizontalRuns
                  (calculate_horizontal_runs env (one_minus env staffs)
                     (Settings.minLength settings)) ;;
  ret {| image := image;
         staff_space_height := fst runs;
         staff_line_height := snd runs;
         horizontal_runs_img := horizontal;
         height := default_height env |}.

(** Lines 91-97: [gray] is binarized, the rest works on the mask. *)
Definition binarized_image_data (image gray : ndarray)
  : M (ImageData ndarray) :=
  binary <- use Binarize (binarize env gray) ;;
  runs_image_data image binary.

(** Lines 86-97. *)
Definition basic_image_data (img : ndarray) : M (ImageData ndarray) :=
  let image := astype_float_div_255 env img in
  gray <- gray_to_binarize image ;;
  binarized_image_data image gray.

Definition detect_basic (images : list ndarray) : Generator StaffList :=
  ret (map (fun img =>
              image_data <- basic_image_data img ;;
              detect_staff_lines image_data) images).

(** *** [detect_advanced], lines 100-110 *)

(** The results of the pool in the order of the images: all of them, or
    none when one of the calls raised. *)
Fixpoint collect_results {A} (results : list (option A))
  : option (list A) :=
  match results with
  | [] => Some []
  | None :: _ => None
  | Some a :: rest =>
      match collect_results rest with
      | Some rest' => Some (a :: rest')
      | None => None
      end
  end.

(** [[v for v in p.imap(create_data_partital, images)]]: every image is
    handed to the pool, so [create_data] runs for each of them; the results
    are collected in order and the first one that raised is raised again. *)
Definition imap_create_data (images : list ndarray)
  : M (list (ImageData ndarray)) :=
  (map (fun _ => Use CreateData) images,
   match collect_results
           (map (fun img =>
                   create_data env img (Settings.lineSpaceHeight settings))
              images)
   with
   | Some data => Ok data
   | None => Raise (CollaboratorError CreateData)
   end).

(** [multiprocessing.Pool(processes=...)] raises [ValueError] for a number
    of processes below one. *)
Definition open_pool : M unit :=
  if Settings.processes settings <? 1 then raise ValueError else ret tt.

(** The loop body for item [i] of [enumerate(self.predictor.predict(data))]. *)
Definition advanced_item (data : list (ImageData ndarray)) (i : nat)
  (next_pred : M ndarray) : M StaffList :=
  pred <- next_pred ;;
  let pred := set_positive_to_255 env pred in
  match nth_error data i with
  | None => raise IndexError
  | Some d =>
      binary <- use Binarize
                  (binarize env (astype_float_div_255 env (image d))) ;;
      runs <- use VerticalRuns (vertical_runs env binary) ;;
      horizontal <- use HorizontalRuns
                      (calculate_horizontal_runs env
                         (one_minus env (div_255 env pred))
                         (Settings.minLength settings)) ;;
      detect_staff_lines
        {| image := image d;
           staff_space_height := fst runs;
           staff_line_height := snd runs;
           horizontal_runs_img := horizontal;
           height := height d |}
  end.

Fixpoint enumerate_from {A} (i : nat) (xs : list A) : list (nat * A) :=
  match xs with
  | [] => []
  | x :: xs' => (i, x) :: enumerate_from (S i) xs'
  end.

Definition detect_advanced (images : list ndarray) : Generator StaffList :=
  open_pool ;;;
  data <- imap_create_data images ;;
  preds <- predictor data ;;
  ret (map (fun ip => advanced_item data (fst ip) (snd ip))
         (enumerate_from 0 preds)).

(** *** [detect], lines 79-82 *)

Definition detect (images : list ndarray) : Generator StaffList :=
  if negb (truthy (Settings.model settings)) then detect_basic images
  else detect_advanced images.

End LineDetection.

(** ** A stand-in implementation

    Every theorem below holds for all implementations of the imported
    helpers. To evaluate the pipeline on concrete inputs, this instance
    takes an image to be the list of the lines drawn on it and lets every
    helper hand its input on. *)

Module StandIn.

Definition ndarray : Type := list Line.

Definition env : Imports ndarray Line :=
  {| astype_float_div_255 := fun a => a;
     histogram_counts :=
       fun a => [Z.of_nat (List.length a); 0; 0; 0; 0; 0; 0; 0; 0; 0];
     one_minus := fun a => a;
     binary_erosion := fun a => a;
     binary_dilation := fun a => a;
     xor := fun a _ => a;
     set_positive_to_255 := fun a => a;
     div_255 := fun a => a;
     default_height := None;
     binarize := fun a => Some a;
     enhance := fun a => Some a;
     vertical_runs := fun _ => Some (20, 2);
     calculate_horizontal_runs := fun a _ => Some a;
     create_data := fun a h => Some (mkImageData a 20 2 a (Some h));
     extract_connected_components := fun a => Some a;
     normalize_connected_components := fun cc => Some cc;
     line_fitting := fun s _ => Some s |}.

Definition self : LineDetector ndarray Line :=
  {| connect_connected_components_to_line := fun cc _ _ => Some cc;
     prune_small_lines := fun ls _ => Some ls;
     organize_lines_in_systems :=
       fun ls _ _ => Some (match ls with [] => [] | _ => [ls] end);
     prune_lines_in_system_with_lowest_intensity := fun s _ => Some s;
     normalize_lines_in_system := fun s _ _ => Some s;
     postprocess_staff_systems := fun s _ _ => Some s;
     smooth_lines := fun s _ => Some s;
     smooth_lines_advanced := fun s _ => Some s |}.

Definition predictor (data : list (ImageData ndarray)) : Generator ndarray :=
  ret (map (fun d => ret (image d)) data).

(** Default-like settings: five-line systems, every optional stage off. *)
Definition settings : Settings.t :=
  {| Settings.model := None;
     Settings.minLength := 6;
     Settings.lineSpaceHeight := 20;
     Settings.processes := 1;
     Settings.numLine := 5;
     Settings.lineExtension := false;
     Settings.post_process := false;
     Settings.smooth_lines := 0;
     Settings.smooth_value_lowpass := 5 # 1;
     Settings.smooth_value_adv := 25 # 1;
     Settings.line_fit_distance := 0;
     Settings.debug := false |}.

(** A horizontal line on row [r] from column [c0] to column [c1]. *)
Definition hline (r c0 c1 : Z) : Line := [(r, c0); (r, c1)].

(** A page with one long line, one line of span exactly 50 and one short. *)
Definition page : ndarray := [hline 10 0 200; hline 30 0 50; hline 50 5 35].

Definition page_data : ImageData ndarray := mkImageData page 20 2 page None.

End StandIn.


(** ** Geometry of lines and systems *)

(** The horizontal span of a line is defined and exceeds the 50 pixel floor. *)
Definition long_line (l : Line) : Prop :=
  exists w, span l = Some w /\ 50 < w.

(** Columns grow strictly from each point to the next. *)
Fixpoint increasing_from (c : Z) (l : Line) : bool :=
  match l with
  | [] => true
  | p :: rest => (c <? column p) && increasing_from (column p) rest
  end.

Definition increasing_columns (l : Line) : bool :=
  match l with
  | [] => true
  | p :: rest => increasing_from (column p) rest
  end.

(** [l'] starts no later and ends no earlier than [l]. *)
Definition covers (l l' : Line) : Prop :=
  forall f e,
    first_item l = Some f -> last_item l = Some e ->
    exists f' e',
      first_item l' = Some f' /\ last_item l' = Some e' /\
      column f' <= column f /\ column e <= column e'.

(** [l'] is sampled at the columns of [l]. *)
Definition same_columns (l l' : Line) : Prop :=
  map column l' = map column l.

(** A stage that works line by line: as many systems, as many lines in
    each, and every line related to the one it replaces. *)
Definition linewise (R : Line -> Line -> Prop) (before after : StaffList)
  : Prop :=
  Forall2 (Forall2 R) before after.

(** In the log, the normalizer is entered again after the post-processor. *)
Definition renormalized (t : list Event) : Prop :=
  exists before after,
    stages_of t = before ++ PostProcess :: after /\ In NormalizeLines after.

(** ** The stages that are not in the two source files *)

(** Modelled from the spec: the bodies of [prune_small_lines],
    [organize_lines_in_systems],
    [prune_lines_in_system_with_lowest_intensity],
    [normalize_lines_in_system], [postprocess_staff_systems] and
    [smooth_lines] (class [LineDetector]) are missing. What sections 4.4
    to 4.9 say each of them does to the lines it is given: the pruners
    discard, the organizer groups the lines it is given, the normalizer
    and the post-processor extend or recover, and the low-pass smoother
    keeps the column sampling. Of [smooth_lines_advanced] and
    [line_fitting] the spec gives a strength and a deviation bound, and
    nothing about the columns of the lines they return. *)
Record SpanSpec {ndarray CC : Type} (env : Imports ndarray CC)
  (self : LineDetector ndarray CC) : Prop := mkSpanSpec {
  prune_small_discards : forall ls ssh out,
    prune_small_lines self ls ssh = Some out -> incl out ls;
  organize_groups : forall ls ssh slh out,
    organize_lines_in_systems self ls ssh slh = Some out ->
    forall s, In s out -> incl s ls;
  intensity_drops : forall sl img out,
    prune_lines_in_system_with_lowest_intensity self sl img = Some out ->
    incl out sl;
  normalize_extends : forall sl ssh img out,
    normalize_lines_in_system self sl ssh img = Some out ->
    linewise covers sl out;
  postprocess_recovers : forall sl slh binary out,
    postprocess_staff_systems self sl slh binary = Some out ->
    linewise covers sl out;
  smooth_keeps_columns : forall sl v out,
    smooth_lines self sl v = Some out -> linewise same_columns sl out
}.

(** Modelled from the spec: the bodies of the stage functions are missing.
    Section 7 on degenerate pages: no foreground gives no component, and
    every stage produces an empty output from an empty input rather than
    failing; section 6: the binarizer returns a mask for every image. *)
Record DegenerateSpec {ndarray CC : Type} (blank : ndarray -> Prop)
  (env : Imports ndarray CC) (self : LineDetector ndarray CC) : Prop :=
mkDegenerateSpec {
  extract_blank : forall img,
    blank img -> extract_connected_components env img = Some [];
  normalize_cc_empty : normalize_connected_components env [] = Some [];
  connect_empty : forall slh ssh,
    connect_connected_components_to_line self [] slh ssh = Some [];
  prune_small_empty : forall ssh, prune_small_lines self [] ssh = Some [];
  organize_empty : forall ssh slh,
    organize_lines_in_systems self [] ssh slh = Some [];
  intensity_empty : forall img,
    prune_lines_in_system_with_lowest_intensity self [] img = Some [];
  normalize_empty : forall ssh img,
    normalize_lines_in_system self [] ssh img = Some [];
  postprocess_empty : forall slh binary,
    postprocess_staff_systems self [] slh binary = Some [];
  smooth_empty : forall v, smooth_lines self [] v = Some [];
  smooth_advanced_empty : forall v, smooth_lines_advanced self [] v = Some [];
  fitting_empty : forall d, line_fitting env [] d = Some [];
  binarize_returns : forall a, binarize env a <> None
}.

(** The array operations on a page without foreground, for three kinds of
    arrays: a blank input page, an image all of whose pixels are
    background, and a mask with no pixel set. Dividing a blank page by 255
    gives an all-background image; [1 - a] turns all-background into
    nothing-set and back; eroding, dilating, xor-ing, [pred[pred > 0] = 255]
    and [pred / 255] keep a mask with no pixel set as it is. *)
Record BlankArrays {ndarray CC : Type}
  (blank_page background nothing_set : ndarray -> Prop)
  (env : Imports ndarray CC) : Prop := mkBlankArrays {
  scaled_blank : forall img,
    blank_page img -> background (astype_float_div_255 env img);
  one_minus_background : forall a,
    background a -> nothing_set (one_minus env a);
  one_minus_nothing_set : forall a,
    nothing_set a -> background (one_minus env a);
  erosion_nothing_set : forall a,
    nothing_set a -> nothing_set (binary_erosion env a);
  dilation_nothing_set : forall a,
    nothing_set a -> nothing_set (binary_dilation env a);
  xor_nothing_set : forall a b,
    nothing_set a -> nothing_set b -> nothing_set (xor env a b);
  set_positive_nothing_set : forall a,
    nothing_set a -> nothing_set (set_positive_to_255 env a);
  div_255_nothing_set : forall a,
    nothing_set a -> nothing_set (div_255 env a)
}.

(** Modelled from the spec: the bodies of [enhance], [binarize],
    [vertical_runs], [calculate_horizontal_runs], [create_data] and of the
    predictor's network are missing. Sections 4.1, 6 and 7 on pages
    without foreground: the enhancer and the binarizer return an image
    without foreground, the run-length analyzer returns its estimates and an
    all-background filtered image, the image data of a blank page holds a
    blank page, and the predictor yields for every image a mask with no
    staff pixel; none of them fails. *)
Record BlankPreparation {ndarray CC : Type}
  (blank_page background nothing_set : ndarray -> Prop)
  (env : Imports ndarray CC)
  (predictor : list (ImageData ndarray) -> Generator ndarray) : Prop :=
mkBlankPreparation {
  enhance_background : forall a,
    background a -> exists a', enhance env a = Some a' /\ background a';
  binarize_background : forall a,
    background a -> exists b, binarize env a = Some b /\ background b;
  vertical_runs_background : forall b,
    background b -> vertical_runs env b <> None;
  horizontal_runs_background : forall a n,
    background a ->
    exists h, calculate_horizontal_runs env a n = Some h /\ background h;
  create_data_blank : forall img line_space_height,
    blank_page img ->
    exists d,
      create_data env img line_space_height = Some d
      /\ blank_page (image d);
  predictor_blank : forall data,
    Forall (fun d => blank_page (image d)) data ->
    exists preds,
      outcome (predictor data) = Ok preds
      /\ Forall2
           (fun (_ : ImageData ndarray) next_pred =>
              exists mask, outcome next_pred = Ok mask /\ nothing_set mask)
           data preds
}.

(** *** The system organizer of section 4.5 *)

Module Organizer.

Section Organizer.

(** [numLine] of the settings; how the vertical position of a line is
    measured and the tolerance derived from the staff-space height are
    left open by the spec. *)
Variable numLine : Z.
Variable line_row : Line -> Z.
Variable tolerance : Z -> Z.

(** The vertical offset of [l] from [prev] is within tolerance of the
    staff-space height. *)
Definition consistent_spacing (staff_space_height : Z) (prev l : Line)
  : bool :=
  Z.abs (line_row l - line_row prev - staff_space_height)
    <=? tolerance staff_space_height.

(** The line continues the group that is being collected. *)
Definition continues (staff_space_height : Z) (group : list Line)
  (l : Line) : bool :=
  match last_item group with
  | Some prev => consistent_spacing staff_space_height prev l
  | None => false
  end.

(** Modelled from the spec: the body of [organize_lines_in_systems] is
    missing. From the topmost unassigned line, collect the following
    lines while the spacing is consistent, until [numLine] lines are
    collected or the spacing breaks; a group that is not complete is
    dropped, and the line that broke the spacing starts the next group. *)
Fixpoint collect_groups (staff_space_height : Z) (group : list Line)
  (lines : list Line) : StaffList :=
  match lines with
  | [] => []
  | l :: rest =>
      let group' :=
        if continues staff_space_height group l then group ++ [l] else [l] in
      if Z.of_nat (List.length group') =? numLine
      then group' :: collect_groups staff_space_height [] rest
      else collect_groups staff_space_height group' rest
  end.

(** Modelled from the spec: [organize_lines_in_systems] with the
    collection above, started with no open group; it does not raise. *)
Definition organize_lines_in_systems (line_list : list Line)
  (staff_space_height staff_line_height : Z) : option StaffList :=
  Some (collect_groups staff_space_height [] line_list).

End Organizer.

End Organizer.

(** Every system has [n] lines. *)
Definition systems_of_size (n : Z) (sl : StaffList) : Prop :=
  forall s, In s sl -> Z.of_nat (List.length s) = n.

(** A stage that hands on whole systems: every system it returns has as
    many lines as one of the systems it was given. *)
Definition keeps_system_sizes (before after : StaffList) : Prop :=
  forall s', In s' after ->
  exists s, In s before /\ List.length s' = List.length s.

(** Modelled from the spec: the bodies of the stages after the organizer
    are missing. The organizer is the one of section 4.5; the system
    pruner drops systems (4.6); the normalizer, the post-processor, the
    smoothers and the fitter work on the lines of each system (4.7-4.9). *)
Record SystemSizeSpec {ndarray CC : Type} (numLine : Z)
  (env : Imports ndarray CC) (self : LineDetector ndarray CC) : Prop :=
mkSystemSizeSpec {
  organizer_model : exists line_row tolerance, forall ls ssh slh,
    organize_lines_in_systems self ls ssh slh
    = Organizer.organize_lines_in_systems numLine line_row tolerance
        ls ssh slh;
  intensity_keeps : forall sl img out,
    prune_lines_in_system_with_lowest_intensity self sl img = Some out ->
    keeps_system_sizes sl out;
  normalize_keeps : forall sl ssh img out,
    normalize_lines_in_system self sl ssh img = Some out ->
    keeps_system_sizes sl out;
  postprocess_keeps : forall sl slh binary out,
    postprocess_staff_systems self sl slh binary = Some out ->
    keeps_system_sizes sl out;
  smooth_keeps : forall sl v out,
    smooth_lines self sl v = Some out -> keeps_system_sizes sl out;
  smooth_advanced_keeps : forall sl v out,
    smooth_lines_advanced self sl v = Some out -> keeps_system_sizes sl out;
  fitting_keeps : forall sl d out,
    line_fitting env sl d = Some out -> keeps_system_sizes sl out
}.

(** *** The line builder of section 4.3 *)

Module LineBuilder.

Section LineBuilder.

(** The test of the column gap against the tolerance derived from the
    staff-space height: [within_tolerance staff_space_height gap]. The spec
    leaves its formula open (section 9). *)
Variable within_tolerance : Z -> Z -> bool.

(** A component carries its sample points, ordered by column. *)
Definition Component : Type := list Point.

Definition start_column (c : Component) : Z :=
  match first_item c with
  | Some p => column p
  | None => 0
  end.

(** Components are processed in column order. *)
Fixpoint insert_by_column (c : Component) (sorted : list Component)
  : list Component :=
  match sorted with
  | [] => [c]
  | c' :: rest =>
      if start_column c <=? start_column c' then c :: sorted
      else c' :: insert_by_column c rest
  end.

Definition in_column_order (cc_list : list Component) : list Component :=
  fold_right insert_by_column [] cc_list.

(** Vertical distance and column gap from the last point of an open line
    to the first point of a component. *)
Definition reach (l : Line) (c : Component) : option (Z * Z) :=
  match last_item l, first_item c with
  | Some e, Some s => Some (Z.abs (row s - row e), column s - column e)
  | _, _ => None
  end.

(** The component may extend the line: its row lies within the staff-line
    height of the line's last row, and the column gap from the line's last
    point is within the tolerance. *)
Definition eligible (staff_line_height staff_space_height : Z) (l : Line)
  (c : Component) : option (Z * Z) :=
  match reach l c with
  | Some (dv, gap) =>
      if (dv <=? staff_line_height)
         && within_tolerance staff_space_height gap
      then Some (dv, gap)
      else None
  | None => None
  end.

(** Tie-break: smallest vertical distance, then smallest column gap. *)
Definition closer (a b : Z * Z) : bool :=
  (fst a <? fst b) || ((fst a =? fst b) && (snd a <=? snd b)).

Fixpoint best_line (staff_line_height staff_space_height : Z)
  (lines : list Line) (c : Component) : option (nat * (Z * Z)) :=
  match lines with
  | [] => None
  | l :: rest =>
      let later :=
        option_map (fun b : nat * (Z * Z) => (S (fst b), snd b))
          (best_line staff_line_height staff_space_height rest c) in
      match eligible staff_line_height staff_space_height l c, later with
      | Some sc, Some (j, sc') =>
          if closer sc sc' then Some (O, sc) else Some (j, sc')
      | Some sc, None => Some (O, sc)
      | None, _ => later
      end
  end.

Fixpoint extend_line (i : nat) (lines : list Line) (c : Component)
  : list Line :=
  match lines, i with
  | [], _ => []
  | l :: rest, O => (l ++ c) :: rest
  | l :: rest, S i' => l :: extend_line i' rest c
  end.

(** Extend the best eligible open line, otherwise start a new line. *)
Definition attach (staff_line_height staff_space_height : Z)
  (lines : list Line) (c : Component) : list Line :=
  match best_line staff_line_height staff_space_height lines c with
  | Some (i, _) => extend_line i lines c
  | None => lines ++ [c]
  end.

(** Modelled from the spec: the body of
    [connect_connected_components_to_line] (class [LineDetector]) is
    missing. Section 4.3: components are processed in column order; a
    component extends an open line when its row lies within
    [staff_line_height] of the line's last row and the column gap from the
    line's last point is within a tolerance proportional to
    [staff_space_height], the closest line winning; otherwise it starts a
    new line. *)
Definition connect_connected_components_to_line (cc_list : list Component)
  (staff_line_height staff_space_height : Z) : option (list Line) :=
  Some (fold_left (attach staff_line_height staff_space_height)
          (in_column_order cc_list) []).

End LineBuilder.

(** The gap test as section 4.3 words it: the gap is at most a tolerance
    proportional to the staff-space height. *)
Definition proportional_tolerance (factor staff_space_height gap : Z)
  : bool :=
  gap <=? factor * staff_space_height.

(** A gap test that also asks the component to begin to the right of the
    line's last point. *)
Definition bridging_tolerance (factor staff_space_height gap : Z) : bool :=
  (0 <? gap) && (gap <=? factor * staff_space_height).

End LineBuilder.

(** A line detector whose builder and organizer are the modelled ones, the
    other stages handing their input on. *)
Definition modelled_detector (numLine : Z)
  : LineDetector StandIn.ndarray Line :=
  {| connect_connected_components_to_line :=
       LineBuilder.connect_connected_components_to_line
         (LineBuilder.proportional_tolerance 3);
     prune_small_lines := fun ls _ => Some ls;
     organize_lines_in_systems :=
       Organizer.organize_lines_in_systems numLine
         (fun l => match first_item l with Some p => row p | None => 0 end)
         (fun ssh => ssh / 4);
     prune_lines_in_system_with_lowest_intensity := fun s _ => Some s;
     normalize_lines_in_system := fun s _ _ => Some s;
     postprocess_staff_systems := fun s _ _ => Some s;
     smooth_lines := fun s _ => Some s;
     smooth_lines_advanced := fun s _ => Some s |}.

(** Five staff lines 20 rows apart, each drawn as two runs with a gap of 10
    columns, and a stray stroke below them. *)
Definition five_line_page : StandIn.ndarray :=
  [ [(10, 0); (10, 100)]; [(10, 110); (10, 200)];
    [(30, 0); (30, 100)]; [(30, 110); (30, 200)];
    [(50, 0); (50, 100)]; [(50, 110); (50, 200)];
    [(70, 0); (70, 100)]; [(70, 110); (70, 200)];
    [(90, 0); (90, 100)]; [(90, 110); (90, 200)];
    [(140, 20); (140, 90)] ].

Definition five_line_data : ImageData StandIn.ndarray :=
  mkImageData five_line_page 20 2 five_line_page None.

(** A page whose only line spans 30 columns. *)
Definition short_line_data : ImageData StandIn.ndarray :=
  mkImageData [StandIn.hline 10 0 30] 20 2 [StandIn.hline 10 0 30] None.

(** Two runs on neighbouring rows whose column ranges overlap. *)
Definition overlapping_runs : list LineBuilder.Component :=
  [ [(10, 0); (10, 100)]; [(11, 50); (11, 150)] ].

(** ** The stages a run goes through, read off the settings *)

Definition system_stages (s : Settings.t) : list Stage :=
  if 1 <? Settings.numLine s then
    [OrganizeLines; PruneLowestIntensity]
    ++ (if Settings.lineExtension s then [NormalizeLines] else [])
  else [].

Definition post_stages (s : Settings.t) : list Stage :=
  if Settings.post_process s then
    PostProcess
    :: (if (1 <? Settings.numLine s) && Settings.lineExtension s
        then [NormalizeLines] else [])
  else [].

Definition smooth_stages (s : Settings.t) : list Stage :=
  if Settings.smooth_lines s =? 1 then [SmoothLines]
  else if Settings.smooth_lines s =? 2 then [SmoothLinesAdvanced]
  else [].

Definition fit_stages (s : Settings.t) : list Stage :=
  if Qpositive (Settings.line_fit_distance s) then [LineFitting] else [].

Definition stage_plan (s : Settings.t) : list Stage :=
  [ExtractCC; NormalizeCC; ConnectCC; PruneSmallLines]
  ++ system_stages s ++ post_stages s ++ smooth_stages s ++ fit_stages s.

(** The stages entered after the first entry of [s]. *)
Fixpoint after_stage (s : Stage) (l : list Stage) : list Stage :=
  match l with
  | [] => []
  | x :: rest => if stage_eq_dec x s then rest else after_stage s rest
  end.

(** Settings with one line per staff, line extension and post-processing. *)
Definition single_line_settings : Settings.t :=
  {| Settings.model := None;
     Settings.minLength := 6;
     Settings.lineSpaceHeight := 20;
     Settings.processes := 1;
     Settings.numLine := 1;
     Settings.lineExtension := true;
     Settings.post_process := true;
     Settings.smooth_lines := 0;
     Settings.smooth_value_lowpass := 5 # 1;
     Settings.smooth_value_adv := 25 # 1;
     Settings.line_fit_distance := 0;
     Settings.debug := false |}.

(** Settings with five-line systems and every optional stage on. *)
Definition full_settings : Settings.t :=
  {| Settings.model := Some "model"%string;
     Settings.minLength := 6;
     Settings.lineSpaceHeight := 20;
     Settings.processes := 1;
     Settings.numLine := 5;
     Settings.lineExtension := true;
     Settings.post_process := true;
     Settings.smooth_lines := 2;
     Settings.smooth_value_lowpass := 5 # 1;
     Settings.smooth_value_adv := 25 # 1;
     Settings.line_fit_distance := 1 # 2;
     Settings.debug := true |}.

(** The reading of the re-normalization rule that ignores [numLine]: the
    normalizer is entered again after the post-processor exactly when both
    flags are set. *)
Definition renormalized_iff_both_flags (s : Settings.t) (t : list Event)
  : Prop :=
  renormalized t
  <-> (Settings.post_process s = true /\ Settings.lineExtension s = true).

(** Two tests [x =? a], [x =? b] with [a <> b] cannot both succeed. *)
Ltac eqb_contradiction :=
  exfalso;
  repeat match goal with
         | H : (_ =? _) = true |- _ => apply Z.eqb_eq in H
         end;
  lia.


(** *** A fitter and a smoother that thin lines out *)

(** Drops the last point of a line with more than two points. *)
Definition drop_last_point (l : Line) : Line :=
  match l with
  | _ :: _ :: _ :: _ => removelast l
  | _ => l
  end.

Definition thin_out (sl : StaffList) : StaffList :=
  map (map drop_last_point) sl.

(** [l'] has no more points than [l], and each of them is a point of [l]:
    a line within deviation 0 of the line it replaces. *)
Definition thinned (l l' : Line) : Prop :=
  incl l' l /\ (List.length l' <= List.length l)%nat.

(** The stand-in helpers with a fitter that thins lines out. *)
Definition thinning_env : Imports StandIn.ndarray Line :=
  {| astype_float_div_255 := fun a => a;
     histogram_counts :=
       fun a => [Z.of_nat (List.length a); 0; 0; 0; 0; 0; 0; 0; 0; 0];
     one_minus := fun a => a;
     binary_erosion := fun a => a;
     binary_dilation := fun a => a;
     xor := fun a _ => a;
     set_positive_to_255 := fun a => a;
     div_255 := fun a => a;
     default_height := None;
     binarize := fun a => Some a;
     enhance := fun a => Some a;
     vertical_runs := fun _ => Some (20, 2);
     calculate_horizontal_runs := fun a _ => Some a;
     create_data := fun a h => Some (mkImageData a 20 2 a (Some h));
     extract_connected_components := fun a => Some a;
     normalize_connected_components := fun cc => Some cc;
     line_fitting := fun s _ => Some (thin_out s) |}.

(** The stand-in stages with an advanced smoother that thins lines out. *)
Definition thinning_self : LineDetector StandIn.ndarray Line :=
  {| connect_connected_components_to_line := fun cc _ _ => Some cc;
     prune_small_lines := fun ls _ => Some ls;
     organize_lines_in_systems :=
       fun ls _ _ => Some (match ls with [] => [] | _ => [ls] end);
     prune_lines_in_system_with_lowest_intensity := fun s _ => Some s;
     normalize_lines_in_system := fun s _ _ => Some s;
     postprocess_staff_systems := fun s _ _ => Some s;
     smooth_lines := fun s _ => Some s;
     smooth_lines_advanced := fun s _ => Some (thin_out s) |}.

(** A line of span 51 whose last two points are one column apart. *)
Definition span_51_data : ImageData StandIn.ndarray :=
  mkImageData [[(10, 0); (10, 50); (10, 51)]] 20 2
    [[(10, 0); (10, 50); (10, 51)]] None.

(** Stand-in settings with curve fitting on. *)
Definition fitting_settings : Settings.t :=
  {| Settings.model := None;
     Settings.minLength := 6;
     Settings.lineSpaceHeight := 20;
     Settings.processes := 1;
     Settings.numLine := 5;
     Settings.lineExtension := false;
     Settings.post_process := false;
     Settings.smooth_lines := 0;
     Settings.smooth_value_lowpass := 5 # 1;
     Settings.smooth_value_adv := 25 # 1;
     Settings.line_fit_distance := 1 # 2;
     Settings.debug := false |}.

(** Stand-in settings with the advanced smoother on. *)
Definition advanced_smoothing_settings : Settings.t :=
  {| Settings.model := None;
     Settings.minLength := 6;
     Settings.lineSpaceHeight := 20;
     Settings.processes := 1;
     Settings.numLine := 5;
     Settings.lineExtension := false;
     Settings.post_process := false;
     Settings.smooth_lines := 2;
     Settings.smooth_value_lowpass := 5 # 1;
     Settings.smooth_value_adv := 25 # 1;
     Settings.line_fit_distance := 0;
     Settings.debug := false |}.

(** Every line of every system returned by the run ends more than 50
    columns to the right of where it starts. *)
Definition output_spans_exceed_50 {ndarray CC : Type}
  (env : Imports ndarray CC) (self : LineDetector ndarray CC)
  (settings : Settings.t) (d : ImageData ndarray) : Prop :=
  forall staff_list,
    outcome (detect_staff_lines env self settings d) = Ok staff_list ->
    forall system l,
      In system staff_list -> In l system ->
      exists first last,
        first_item l = Some first /\ last_item l = Some last
        /\ column first + 50 < column last.

(** Stand-in settings with line extension, post-processing, the low-pass
    smoother and the debug plot on, and no curve fitting. *)
Definition low_pass_settings : Settings.t :=
  {| Settings.model := None;
     Settings.minLength := 6;
     Settings.lineSpaceHeight := 20;
     Settings.processes := 1;
     Settings.numLine := 5;
     Settings.lineExtension := true;
     Settings.post_process := true;
     Settings.smooth_lines := 1;
     Settings.smooth_value_lowpass := 5 # 1;
     Settings.smooth_value_adv := 25 # 1;
     Settings.line_fit_distance := 0;
     Settings.debug := true |}.

(** ** Further definitions for the rest of the two files *)

(** The test of the comprehension of line 122, for a line with a point. *)
Definition exceeds_floor (l : Line) : bool :=
  match span l with
  | Some w => 50 <? w
  | None => false
  end.

(** [m] logs [expected] through the projection [proj] of its events: what
    it logs is an initial part of [expected], and all of it when [m]
    returns. *)
Definition logs {X A : Type} (proj : list Event -> list X) (m : M A)
  (expected : list X) : Prop :=
  (exists rest, expected = proj (trace m) ++ rest) /\
  (forall a, outcome m = Ok a -> proj (trace m) = expected).

(** The calls of [binarize] in a run of [detect_staff_lines]: line 139 and
    line 155. *)
Definition binarize_plan (s : Settings.t) : list Collaborator :=
  (if Settings.post_process s then [Binarize] else [])
  ++ (if Settings.debug s then [Binarize] else []).

(** The settings with the debug flag replaced. *)
Definition with_debug (b : bool) (s : Settings.t) : Settings.t :=
  {| Settings.model := Settings.model s;
     Settings.minLength := Settings.minLength s;
     Settings.lineSpaceHeight := Settings.lineSpaceHeight s;
     Settings.processes := Settings.processes s;
     Settings.numLine := Settings.numLine s;
     Settings.lineExtension := Settings.lineExtension s;
     Settings.post_process := Settings.post_process s;
     Settings.smooth_lines := Settings.smooth_lines s;
     Settings.smooth_value_lowpass := Settings.smooth_value_lowpass s;
     Settings.smooth_value_adv := Settings.smooth_value_adv s;
     Settings.line_fit_distance := Settings.line_fit_distance s;
     Settings.debug := b |}.

(** *** Iterating over a generator *)

(** What a [for] loop over a generator sees: the events, the items
    yielded before the generator raised or was exhausted, and the
    exception if it raised. *)
Record Consumed (Y : Type) : Type := mkConsumed {
  events : list Event;
  yielded : list Y;
  raised : option Exn
}.

Fixpoint consume_items {Y : Type} (items : list (M Y)) : Consumed Y :=
  match items with
  | [] => mkConsumed [] [] None
  | (t, Ok y) :: rest =>
      let c := consume_items rest in
      mkConsumed (t ++ events c) (y :: yielded c) (raised c)
  | (t, Raise e) :: _ => mkConsumed t [] (Some e)
  end.

(** [for y in g: pass], keeping what was yielded. *)
Definition consume {Y : Type} (g : Generator Y) : Consumed Y :=
  match g with
  | (t, Ok items) =>
      let c := consume_items items in
      mkConsumed (t ++ events c) (yielded c) (raised c)
  | (t, Raise e) => mkConsumed t [] (Some e)
  end.

(** *** [detect_paths], lines 42-46 *)

Section DetectPaths.

Context {ndarray CC : Type}.
Variable env : Imports ndarray CC.
Variable self : LineDetector ndarray CC.
Variable settings : Settings.t.
Variable predictor : list (ImageData ndarray) -> Generator ndarray.
(** [np.array(Image.open(path))]: an array, or an exception of PIL. *)
Variable read_img : string -> option ndarray.

(** [list(map(read_img, image_paths))]: the paths are read in order when
    [detect_paths] is called; the first one that cannot be read ends the
    call. *)
Fixpoint read_all (image_paths : list string) : option (list ndarray) :=
  match image_paths with
  | [] => Some []
  | path :: rest =>
      match read_img path with
      | None => None
      | Some img =>
          match read_all rest with
          | None => None
          | Some imgs => Some (img :: imgs)
          end
      end
  end.

(** [detect_paths] is not itself a generator function: it reads the images
    and returns the generator of [detect], or raises while reading. *)
Definition detect_paths (image_paths : list string)
  : option (Generator StaffList) :=
  match read_all image_paths with
  | Some images => Some (detect env self settings predictor images)
  | None => None
  end.

End DetectPaths.

(** The body of the loop of [detect_basic] for one image, lines 86-98. *)
Definition basic_item {ndarray CC : Type} (env : Imports ndarray CC)
  (self : LineDetector ndarray CC) (settings : Settings.t) (img : ndarray)
  : M StaffList :=
  image_data <- basic_image_data env settings img ;;
  detect_staff_lines env self settings image_data.

(** A reader for the stand-in pages: two files exist. *)
Definition standin_read_img (path : string) : option StandIn.ndarray :=
  if String.eqb path "page.png" then Some StandIn.page
  else if String.eqb path "five.png" then Some five_line_page
  else None.

(** Settings like the stand-in ones with the debug plot on. *)
Definition debug_settings : Settings.t := with_debug true StandIn.settings.

(** A line detector whose organizer raises. *)
Definition failing_organizer : LineDetector StandIn.ndarray Line :=
  {| connect_connected_components_to_line := fun cc _ _ => Some cc;
     prune_small_lines := fun ls _ => Some ls;
     organize_lines_in_systems := fun _ _ _ => None;
     prune_lines_in_system_with_lowest_intensity := fun s _ => Some s;
     normalize_lines_in_system := fun s _ _ => Some s;
     postprocess_staff_systems := fun s _ _ => Some s;
     smooth_lines := fun s _ => Some s;
     smooth_lines_advanced := fun s _ => Some s |}.

(** *** Describing the exceptions of a computation *)

(** Every exception [m] can raise satisfies [Q]. *)
Definition raises_only {A : Type} (Q : Exn -> Prop) (m : M A) : Prop :=
  forall e, outcome m = Raise e -> Q e.

(** When [m] raises the error of a stage, that stage is the last one it
    entered. *)
Definition stage_error_is_last {A : Type} (m : M A) : Prop :=
  forall s, outcome m = Raise (StageError s) ->
  exists before, stages_of (trace m) = before ++ [s].

(** The exceptions of a run of [detect_staff_lines], by the settings. *)
Definition possible_exception (s : Settings.t) (e : Exn) : Prop :=
  match e with
  | IndexError => True
  | ValueError => Settings.debug s = true
  | StageError _ => True
  | CollaboratorError c =>
      c = Binarize
      /\ (Settings.post_process s = true \/ Settings.debug s = true)
  end.

(** [m] returns what [m'] returns whenever [m] returns, raises what [m']
    raises whenever [m'] raises, and enters the same stages. *)
Definition adds_only_failures {A : Type} (m m' : M A) : Prop :=
  (forall r, outcome m = Ok r -> outcome m' = Ok r)
  /\ (forall e, outcome m' = Raise e -> outcome m = Raise e)
  /\ stages_of (trace m) = stages_of (trace m').

(** Settings with a smoothing mode that is none of 0, 1, 2. *)
Definition mode_7_settings : Settings.t :=
  {| Settings.model := None;
     Settings.minLength := 6;
     Settings.lineSpaceHeight := 20;
     Settings.processes := 1;
     Settings.numLine := 5;
     Settings.lineExtension := false;
     Settings.post_process := false;
     Settings.smooth_lines := 7;
     Settings.smooth_value_lowpass := 5 # 1;
     Settings.smooth_value_adv := 25 # 1;
     Settings.line_fit_distance := 0;
     Settings.debug := false |}.

(** An image helper set like the stand-in one whose [binarize] rejects the
    page with no line. *)
Definition picky_env : Imports StandIn.ndarray Line :=
  {| astype_float_div_255 := fun a => a;
     histogram_counts :=
       fun a => [0; Z.of_nat (List.length a); 0; 0; 0; 0; 0; 0; 0; 0];
     one_minus := fun a => a;
     binary_erosion := fun a => a;
     binary_dilation := fun a => a;
     xor := fun a _ => a;
     set_positive_to_255 := fun a => a;
     div_255 := fun a => a;
     default_height := None;
     binarize := fun a => match a with [] => None | _ => Some a end;
     enhance := fun a => Some a;
     vertical_runs := fun _ => Some (20, 2);
     calculate_horizontal_runs := fun a _ => Some a;
     create_data :=
       fun a h => match a with
                  | [] => None
                  | _ => Some (mkImageData a 20 2 a (Some h))
                  end;
     extract_connected_components := fun a => Some a;
     normalize_connected_components := fun cc => Some cc;
     line_fitting := fun s _ => Some s |}.

(** A predictor that yields one prediction more than it was given
    images. *)
Definition surplus_predictor (data : list (ImageData StandIn.ndarray))
  : Generator StandIn.ndarray :=
  ret (map (fun d => ret (image d)) data ++ [ret StandIn.page]).

(** A [pagesegmentation] stand-in: the data set is the list of the images,
    the network returns them, cropping hands them on. *)
Definition standin_lib
  : PageSegmentation StandIn.ndarray (list StandIn.ndarray) StandIn.ndarray :=
  {| load_data := fun _ samples => Some (map (fun s => snd (fst s)) samples);
     predictor_predict := fun data => Some data;
     crop_and_resize := fun pred => Some pred |}.

(** The image helpers [detect_basic] calls for one image, in order:
    [enhance] unless bins 1 to 7 of the histogram are empty, then
    [binarize], [vertical_runs] and [calculate_horizontal_runs]. *)
Definition basic_helpers {ndarray CC : Type} (env : Imports ndarray CC)
  (img : ndarray) : list Collaborator :=
  (if sum (slice_1_m2
             (histogram_counts env (astype_float_div_255 env img))) =? 0
   then [] else [Enhance])
  ++ [Binarize; VerticalRuns; HorizontalRuns].

(** * Properties *)

(** ** Runs on the stand-in pages *)

(** The line of span 200 is kept, the lines of span 50 and 30 are not. *)
Example standin_run :
  detect_staff_lines StandIn.env StandIn.self StandIn.settings
    StandIn.page_data
  = ([Enter ExtractCC; Enter NormalizeCC; Enter ConnectCC;
      Enter PruneSmallLines; Enter OrganizeLines; Enter PruneLowestIntensity],
     Ok [[StandIn.hline 10 0 200]]).
Proof. reflexivity. Qed.

(** Five lines 20 rows apart with [numLine = 5]: one system of five lines;
    the stray stroke is left over. *)
Example five_line_run :
  outcome (detect_staff_lines StandIn.env (modelled_detector 5)
             StandIn.settings five_line_data)
  = Ok [[ [(10, 0); (10, 100); (10, 110); (10, 200)];
          [(30, 0); (30, 100); (30, 110); (30, 200)];
          [(50, 0); (50, 100); (50, 110); (50, 200)];
          [(70, 0); (70, 100); (70, 110); (70, 200)];
          [(90, 0); (90, 100); (90, 110); (90, 200)] ]].
Proof. vm_compute. reflexivity. Qed.

(** One line of span 30: no system. *)
Example short_line_run :
  outcome (detect_staff_lines StandIn.env (modelled_detector 5)
             StandIn.settings short_line_data)
  = Ok [].
Proof. vm_compute. reflexivity. Qed.

(** A line without points makes the length filter raise. *)
Example empty_line_run :
  outcome (detect_staff_lines StandIn.env StandIn.self StandIn.settings
             (mkImageData [[]] 20 2 [[]] None))
  = Raise IndexError.
Proof. reflexivity. Qed.

(** ** The monad *)

Lemma bind_ret_l {A B} (a : A) (k : A -> M B) : bind (ret a) k = k a.
Proof. unfold bind, ret. destruct (k a) as [t r]. reflexivity. Qed.

Lemma bind_ret_r {A} (m : M A) : bind m ret = m.
Proof.
  destruct m as [t [a | e]]; simpl; [rewrite app_nil_r |]; reflexivity.
Qed.

Lemma bind_assoc {A B C} (m : M A) (k : A -> M B) (h : B -> M C) :
  bind (bind m k) h = bind m (fun a => bind (k a) h).
Proof.
  destruct m as [t [a | e]]; simpl; [| reflexivity].
  destruct (k a) as [t' [b | e]]; simpl; [| reflexivity].
  destruct (h b) as [t'' r]. rewrite app_assoc. reflexivity.
Qed.

Lemma bind_ext {A B} (m : M A) (k k' : A -> M B) :
  (forall a, k a = k' a) -> bind m k = bind m k'.
Proof.
  intros H. destruct m as [t [a | e]]; simpl; [rewrite H |]; reflexivity.
Qed.

Lemma trace_bind {A B} (m : M A) (k : A -> M B) :
  trace (bind m k)
  = trace m ++ match outcome m with
               | Ok a => trace (k a)
               | Raise _ => []
               end.
Proof.
  destruct m as [t [a | e]]; simpl.
  - destruct (k a) as [t' r]. reflexivity.
  - unfold trace. simpl. rewrite app_nil_r. reflexivity.
Qed.

Lemma outcome_bind {A B} (m : M A) (k : A -> M B) :
  outcome (bind m k)
  = match outcome m with
    | Ok a => outcome (k a)
    | Raise e => Raise e
    end.
Proof.
  destruct m as [t [a | e]]; simpl; [| reflexivity].
  destruct (k a) as [t' r]. reflexivity.
Qed.

Lemma outcome_bind_ok {A B} (m : M A) (k : A -> M B) (b : B) :
  outcome (bind m k) = Ok b ->
  exists a, outcome m = Ok a /\ outcome (k a) = Ok b.
Proof.
  rewrite outcome_bind. destruct (outcome m) as [a | e]; [| discriminate].
  intros H. exists a. split; [reflexivity | exact H].
Qed.

Lemma outcome_enter_ok {A} (s : Stage) (o : option A) (a : A) :
  outcome (enter s o) = Ok a -> o = Some a.
Proof. destruct o; simpl; congruence. Qed.

Lemma outcome_use_ok {A} (c : Collaborator) (o : option A) (a : A) :
  outcome (use c o) = Ok a -> o = Some a.
Proof. destruct o; simpl; congruence. Qed.

Lemma stages_of_app (t t' : list Event) :
  stages_of (t ++ t') = stages_of t ++ stages_of t'.
Proof.
  induction t as [| [s | c] t IH]; simpl; [| rewrite IH |]; auto.
Qed.

Lemma collaborators_of_app (t t' : list Event) :
  collaborators_of (t ++ t') = collaborators_of t ++ collaborators_of t'.
Proof.
  induction t as [| [s | c] t IH]; simpl; [| | rewrite IH]; auto.
Qed.

(** ** Which stages a computation enters

    [follows m expected]: the stages entered by [m] are an initial part of
    [expected], and all of [expected] when [m] returns. *)

Definition follows {A} (m : M A) (expected : list Stage) : Prop :=
  (exists rest, expected = stages_of (trace m) ++ rest) /\
  (forall a, outcome m = Ok a -> stages_of (trace m) = expected).

Lemma follows_ret {A} (a : A) : follows (ret a) [].
Proof. split; [exists []; reflexivity | reflexivity]. Qed.

Lemma follows_raise {A} (e : Exn) : follows (@raise A e) [].
Proof. split; [exists []; reflexivity | reflexivity]. Qed.

Lemma follows_enter {A} (s : Stage) (o : option A) : follows (enter s o) [s].
Proof. split; [exists []; reflexivity | reflexivity]. Qed.

Lemma follows_use {A} (c : Collaborator) (o : option A) :
  follows (use c o) [].
Proof. split; [exists []; reflexivity | reflexivity]. Qed.

Lemma follows_bind {A B} (m : M A) (k : A -> M B) (e1 e2 : list Stage) :
  follows m e1 -> (forall a, follows (k a) e2) ->
  follows (bind m k) (e1 ++ e2).
Proof.
  intros [[r1 P1] F1] Hk. split.
  - rewrite trace_bind, stages_of_app.
    destruct (outcome m) as [a | e] eqn:Hm.
    + destruct (Hk a) as [[r2 P2] _]. exists r2.
      rewrite (F1 a eq_refl), P2, app_assoc. reflexivity.
    + exists (r1 ++ e2). simpl. rewrite app_nil_r, P1, app_assoc.
      reflexivity.
  - intros b Hb. apply outcome_bind_ok in Hb. destruct Hb as [a [Ha Hb]].
    rewrite trace_bind, stages_of_app, Ha, (F1 a Ha).
    destruct (Hk a) as [_ F2]. rewrite (F2 b Hb). reflexivity.
Qed.

Lemma follows_nil_bind {A B} (m : M A) (k : A -> M B) (e : list Stage) :
  follows m [] -> (forall a, follows (k a) e) -> follows (bind m k) e.
Proof. intros Hm Hk. exact (@follows_bind _ _ m k [] e Hm Hk). Qed.

Lemma follows_length_filter (ls : list Line) : follows (length_filter ls) [].
Proof.
  induction ls as [| l ls IH]; simpl.
  - apply follows_ret.
  - destruct (span l).
    + apply follows_nil_bind; [exact IH | intros; apply follows_ret].
    + apply follows_raise.
Qed.

Lemma follows_for_each {A} (xs : list A) (body : A -> M unit) :
  (forall x, follows (body x) []) -> follows (for_each xs body) [].
Proof.
  intros Hb. induction xs as [| x xs IH]; simpl.
  - apply follows_ret.
  - apply follows_nil_bind; [apply Hb | intros; exact IH].
Qed.

Section Plan.

Context {ndarray CC : Type}.
Variable env : Imports ndarray CC.
Variable self : LineDetector ndarray CC.
Variable settings : Settings.t.

Lemma candidate_lines_follows (d : ImageData ndarray) :
  follows (candidate_lines env self d)
    [ExtractCC; NormalizeCC; ConnectCC; PruneSmallLines].
Proof.
  unfold candidate_lines.
  apply (@follows_bind _ _ _ _ [ExtractCC]
           [NormalizeCC; ConnectCC; PruneSmallLines]);
    [apply follows_enter | intros cc].
  apply (@follows_bind _ _ _ _ [NormalizeCC] [ConnectCC; PruneSmallLines]);
    [apply follows_enter | intros cc'].
  apply (@follows_bind _ _ _ _ [ConnectCC] [PruneSmallLines]);
    [apply follows_enter | intros ls].
  apply follows_nil_bind; [apply follows_length_filter | intros ls'].
  apply follows_enter.
Qed.

Lemma group_in_systems_follows (d : ImageData ndarray) (ls : list Line) :
  follows (group_in_systems self settings d ls) (system_stages settings).
Proof.
  unfold group_in_systems, system_stages.
  destruct (1 <? Settings.numLine settings); [| apply follows_ret].
  apply (@follows_bind _ _ _ _ [OrganizeLines] (PruneLowestIntensity :: _));
    [apply follows_enter | intros sl].
  apply (@follows_bind _ _ _ _ [PruneLowestIntensity] _);
    [apply follows_enter | intros sl'].
  destruct (Settings.lineExtension settings);
    [apply follows_enter | apply follows_ret].
Qed.

Lemma post_processing_follows (d : ImageData ndarray) (sl : StaffList) :
  follows (post_processing env self settings d sl) (post_stages settings).
Proof.
  unfold post_processing, post_stages.
  destruct (Settings.post_process settings); [| apply follows_ret].
  apply follows_nil_bind; [apply follows_use | intros binary].
  apply (@follows_bind _ _ _ _ [PostProcess] _);
    [apply follows_enter | intros sl'].
  destruct ((1 <? Settings.numLine settings)
            && Settings.lineExtension settings);
    [apply follows_enter | apply follows_ret].
Qed.

Lemma smoothing_follows (sl : StaffList) :
  follows (smoothing self settings sl) (smooth_stages settings).
Proof.
  unfold smoothing, smooth_stages.
  destruct (Settings.smooth_lines settings =? 0) eqn:H0,
           (Settings.smooth_lines settings =? 1) eqn:H1,
           (Settings.smooth_lines settings =? 2) eqn:H2;
    cbn [negb]; try eqb_contradiction.
  - apply follows_ret.
  - apply (@follows_bind _ _ _ _ [SmoothLines] []);
      [apply follows_enter | intros; apply follows_ret].
  - apply follows_nil_bind; [apply follows_ret | intros; apply follows_enter].
  - apply follows_nil_bind; [apply follows_ret | intros; apply follows_ret].
Qed.

Lemma fitting_follows (sl : StaffList) :
  follows (fitting env settings sl) (fit_stages settings).
Proof.
  unfold fitting, fit_stages.
  destruct (Qpositive (Settings.line_fit_distance settings));
    [apply follows_enter | apply follows_ret].
Qed.

Lemma debug_plot_follows (d : ImageData ndarray) (sl : StaffList) :
  follows (debug_plot env settings d sl) [].
Proof.
  assert (Hloop : follows
            (for_each sl (fun system =>
               for_each system (fun staff => unzip_staff staff ;;; ret tt)))
            []).
  { apply follows_for_each. intros system. apply follows_for_each.
    intros staff. apply follows_nil_bind; [| intros; apply follows_ret].
    destruct staff; [apply follows_raise | apply follows_ret]. }
  unfold debug_plot. destruct (Settings.debug settings); [| apply follows_ret].
  apply follows_nil_bind; [apply follows_use | intros _].
  apply follows_nil_bind; [exact Hloop | intros _; exact Hloop].
Qed.

(** The stages entered by a run are an initial part of the plan of its
    settings, and the whole plan when the run returns. *)
Lemma detect_staff_lines_follows (d : ImageData ndarray) :
  follows (detect_staff_lines env self settings d) (stage_plan settings).
Proof.
  unfold detect_staff_lines, stage_plan.
  apply follows_bind; [apply candidate_lines_follows | intros ls].
  apply follows_bind; [apply group_in_systems_follows | intros sl].
  apply follows_bind; [apply post_processing_follows | intros sl1].
  apply follows_bind; [apply smoothing_follows | intros sl2].
  rewrite <- (app_nil_r (fit_stages settings)).
  apply follows_bind; [apply fitting_follows | intros sl3].
  apply follows_nil_bind; [apply debug_plot_follows | intros _].
  apply follows_ret.
Qed.

End Plan.

(** ** Re-entry of stages *)

Lemma after_stage_app_in (s x : Stage) (l rest : list Stage) :
  In x (after_stage s l) -> In x (after_stage s (l ++ rest)).
Proof.
  induction l as [| y l IH]; simpl; [contradiction |].
  destruct (stage_eq_dec y s); [| exact IH].
  intros H. apply in_or_app. left. exact H.
Qed.

Lemma renormalized_after (t : list Event) :
  renormalized t
  <-> In NormalizeLines (after_stage PostProcess (stages_of t)).
Proof.
  unfold renormalized. split.
  - intros [before [after [E H]]]. rewrite E. clear E.
    induction before as [| y before IH]; simpl.
    + destruct (stage_eq_dec PostProcess PostProcess); [exact H | congruence].
    + destruct (stage_eq_dec y PostProcess); [| exact IH].
      apply in_or_app. right. right. exact H.
  - generalize (stages_of t). intros l. induction l as [| y l IH]; simpl.
    + contradiction.
    + destruct (stage_eq_dec y PostProcess) as [-> | Hy].
      * intros H. exists [], l. split; [reflexivity | exact H].
      * intros H. destruct (IH H) as [before [after [E H']]].
        exists (y :: before), after. rewrite E. split; [reflexivity | exact H'].
Qed.

Lemma count_occ_initial (s : Stage) (l rest : list Stage) :
  (count_occ stage_eq_dec l s <= count_occ stage_eq_dec (l ++ rest) s)%nat.
Proof. rewrite count_occ_app. lia. Qed.

Lemma plan_renormalized (s : Settings.t) :
  In NormalizeLines (after_stage PostProcess (stage_plan s))
  <-> (Settings.post_process s = true /\ Settings.lineExtension s = true
       /\ 1 < Settings.numLine s).
Proof.
  unfold stage_plan, system_stages, post_stages, smooth_stages, fit_stages.
  destruct (1 <? Settings.numLine s) eqn:Hn;
    [apply Z.ltb_lt in Hn | apply Z.ltb_ge in Hn];
    destruct (Settings.lineExtension s), (Settings.post_process s),
      (Settings.smooth_lines s =? 1), (Settings.smooth_lines s =? 2),
      (Qpositive (Settings.line_fit_distance s));
    simpl; split; intros H;
    repeat match goal with
           | H : _ \/ _ |- _ => destruct H
           | H : _ /\ _ |- _ => destruct H
           end;
    try discriminate; try contradiction; try lia; auto.
Qed.

Lemma plan_entries (s : Settings.t) (st : Stage) :
  (count_occ stage_eq_dec (stage_plan s) st
   <= match st with NormalizeLines => 2 | _ => 1 end)%nat.
Proof.
  unfold stage_plan, system_stages, post_stages, smooth_stages, fit_stages.
  destruct (1 <? Settings.numLine s), (Settings.lineExtension s),
    (Settings.post_process s), (Settings.smooth_lines s =? 1),
    (Settings.smooth_lines s =? 2),
    (Qpositive (Settings.line_fit_distance s));
    destruct st; simpl; lia.
Qed.

(** C2, as the code has it: in a run of [detect_staff_lines] the normalizer
    is entered again after the post-processor only if [post_process] and
    [lineExtension] are set and [numLine] exceeds 1, and in every run that
    returns it is entered again whenever these three hold; the normalizer is
    entered at most twice and every other stage at most once. *)
Theorem renormalize_iff_flags_and_numLine :
  forall (ndarray CC : Type) (env : Imports ndarray CC)
         (self : LineDetector ndarray CC) (settings : Settings.t)
         (d : ImageData ndarray),
    (renormalized (trace (detect_staff_lines env self settings d)) ->
     Settings.post_process settings = true
     /\ Settings.lineExtension settings = true
     /\ 1 < Settings.numLine settings)
    /\ (forall r,
          outcome (detect_staff_lines env self settings d) = Ok r ->
          Settings.post_process settings = true ->
          Settings.lineExtension settings = true ->
          1 < Settings.numLine settings ->
          renormalized (trace (detect_staff_lines env self settings d)))
    /\ (forall st,
          (count_occ stage_eq_dec
             (stages_of (trace (detect_staff_lines env self settings d))) st
           <= match st with NormalizeLines => 2 | _ => 1 end)%nat).
Proof.
  intros ndarray CC env self settings d.
  destruct (detect_staff_lines_follows env self settings d) as [[rest P] F].
  split; [| split].
  - intros H. apply renormalized_after in H.
    apply plan_renormalized. rewrite P. apply after_stage_app_in. exact H.
  - intros r Hr Hp He Hn. apply renormalized_after.
    rewrite (F r Hr). apply plan_renormalized. auto.
  - intros st. eapply Nat.le_trans; [| apply (plan_entries settings st)].
    rewrite P. apply count_occ_initial.
Qed.

(** With five-line systems, line extension and post-processing on, the run
    on the stand-in page returns and has entered the normalizer again. *)
Lemma renormalize_iff_flags_and_numLine_witness :
  renormalized
    (trace (detect_staff_lines StandIn.env StandIn.self full_settings
              StandIn.page_data)).
Proof.
  apply (proj1 (proj2 (renormalize_iff_flags_and_numLine
                         StandIn.env StandIn.self full_settings
                         StandIn.page_data))
           [[StandIn.hline 10 0 200]]);
    [reflexivity | reflexivity | reflexivity | reflexivity].
Defined.

(** C2 as stated fails: with [numLine = 1], [post_process] and
    [lineExtension] set, the run returns after entering the post-processor
    and never enters the normalizer. *)
Lemma renormalize_both_flags_counterexample :
  In PostProcess
    (stages_of (trace (detect_staff_lines StandIn.env StandIn.self
                         single_line_settings StandIn.page_data)))
  /\ outcome (detect_staff_lines StandIn.env StandIn.self
                single_line_settings StandIn.page_data)
     = Ok [[StandIn.hline 10 0 200]]
  /\ ~ renormalized_iff_both_flags single_line_settings
         (trace (detect_staff_lines StandIn.env StandIn.self
                   single_line_settings StandIn.page_data)).
Proof.
  split; [cbv; tauto | split; [reflexivity |]].
  intros [_ H].
  assert (R : renormalized
                (trace (detect_staff_lines StandIn.env StandIn.self
                          single_line_settings StandIn.page_data)))
    by (apply H; split; reflexivity).
  apply renormalized_after in R. simpl in R. exact R.
Qed.

(** ** Runs against the plan *)

Lemma entered_in_plan {ndarray CC : Type} (env : Imports ndarray CC)
  (self : LineDetector ndarray CC) (settings : Settings.t)
  (d : ImageData ndarray) (st : Stage) :
  In st (stages_of (trace (detect_staff_lines env self settings d))) ->
  In st (stage_plan settings).
Proof.
  destruct (detect_staff_lines_follows env self settings d) as [[rest P] _].
  rewrite P. intros H. apply in_or_app. left. exact H.
Qed.

Lemma returned_run_plan {ndarray CC : Type} (env : Imports ndarray CC)
  (self : LineDetector ndarray CC) (settings : Settings.t)
  (d : ImageData ndarray) (r : StaffList) :
  outcome (detect_staff_lines env self settings d) = Ok r ->
  stages_of (trace (detect_staff_lines env self settings d))
  = stage_plan settings.
Proof.
  destruct (detect_staff_lines_follows env self settings d) as [_ F].
  exact (F r).
Qed.

Lemma plan_without_systems (s : Settings.t) :
  Settings.numLine s <= 1 ->
  ~ In OrganizeLines (stage_plan s)
  /\ ~ In PruneLowestIntensity (stage_plan s)
  /\ ~ In NormalizeLines (stage_plan s).
Proof.
  intros Hn. apply Z.ltb_ge in Hn.
  unfold stage_plan, system_stages, post_stages, smooth_stages, fit_stages.
  rewrite Hn.
  destruct (Settings.lineExtension s), (Settings.post_process s),
    (Settings.smooth_lines s =? 1), (Settings.smooth_lines s =? 2),
    (Qpositive (Settings.line_fit_distance s));
    simpl; repeat split; intros H;
    repeat match goal with
           | H : _ \/ _ |- _ => destruct H
           end;
    try discriminate; try contradiction.
Qed.

(** C9: with [numLine <= 1] the grouping step of [detect_staff_lines] turns
    the list returned by [prune_small_lines] into one singleton system per
    line, in order, and hands it to the later stages; the organizer, the
    intensity pruner and the normalizer are not entered. *)
Theorem one_line_per_system :
  forall (ndarray CC : Type) (env : Imports ndarray CC)
         (self : LineDetector ndarray CC) (settings : Settings.t)
         (d : ImageData ndarray),
    Settings.numLine settings <= 1 ->
    (forall line_list,
       group_in_systems self settings d line_list
       = ret (map (fun x => [x]) line_list))
    /\ detect_staff_lines env self settings d
       = (line_list <- candidate_lines env self d ;;
          staff_list <- post_processing env self settings d
                          (map (fun x => [x]) line_list) ;;
          staff_list <- smoothing self settings staff_list ;;
          staff_list <- fitting env settings staff_list ;;
          debug_plot env settings d staff_list ;;;
          ret staff_list)
    /\ ~ In OrganizeLines
         (stages_of (trace (detect_staff_lines env self settings d)))
    /\ ~ In PruneLowestIntensity
         (stages_of (trace (detect_staff_lines env self settings d)))
    /\ ~ In NormalizeLines
         (stages_of (trace (detect_staff_lines env self settings d))).
Proof.
  intros ndarray CC env self settings d Hn.
  assert (G : forall line_list,
             group_in_systems self settings d line_list
             = ret (map (fun x => [x]) line_list)).
  { intros line_list. unfold group_in_systems.
    apply Z.ltb_ge in Hn. rewrite Hn. reflexivity. }
  destruct (plan_without_systems settings Hn) as [P1 [P2 P3]].
  split; [exact G | split; [| repeat split]].
  - unfold detect_staff_lines. apply bind_ext. intros line_list.
    rewrite G, bind_ret_l. reflexivity.
  - intros H. apply P1. eapply entered_in_plan. exact H.
  - intros H. apply P2. eapply entered_in_plan. exact H.
  - intros H. apply P3. eapply entered_in_plan. exact H.
Qed.

(** With one line per staff, the two lines longer than 50 pixels come back
    as two singleton systems. *)
Lemma one_line_per_system_witness :
  Settings.numLine single_line_settings <= 1
  /\ group_in_systems StandIn.self single_line_settings StandIn.page_data
       [StandIn.hline 10 0 200; StandIn.hline 30 0 51]
     = ret [[StandIn.hline 10 0 200]; [StandIn.hline 30 0 51]].
Proof.
  split; [simpl; lia |].
  apply (proj1 (one_line_per_system StandIn.env StandIn.self
                  single_line_settings StandIn.page_data
                  ltac:(simpl; lia))).
Defined.

(** ** The gates of the optional stages *)

Lemma Qpositive_iff (d : Q) : Qpositive d = true <-> (0 < d)%Q.
Proof.
  unfold Qpositive. rewrite negb_true_iff. split.
  - intros H. apply Qnot_le_lt. intros Hle.
    apply Qle_bool_iff in Hle. congruence.
  - intros H. destruct (Qle_bool d 0) eqn:E; [| reflexivity].
    apply Qle_bool_iff in E. exfalso. exact (Qlt_not_le _ _ H E).
Qed.

Lemma plan_fitting (s : Settings.t) :
  In LineFitting (stage_plan s)
  <-> Qpositive (Settings.line_fit_distance s) = true.
Proof.
  unfold stage_plan, system_stages, post_stages, smooth_stages, fit_stages.
  destruct (1 <? Settings.numLine s), (Settings.lineExtension s),
    (Settings.post_process s), (Settings.smooth_lines s =? 1),
    (Settings.smooth_lines s =? 2),
    (Qpositive (Settings.line_fit_distance s));
    simpl; split; intros H;
    repeat match goal with
           | H : _ \/ _ |- _ => destruct H
           end;
    try discriminate; try contradiction; auto 12.
Qed.

(** C7: [line_fitting] is applied to the staff list exactly when
    [line_fit_distance > 0]. The fitting step is the call of [line_fitting]
    with that distance when it is positive and hands the list on unchanged
    otherwise (so with distance 0); a run enters [line_fitting] only if the
    distance is positive, and every run that returns with a positive
    distance has entered it. *)
Theorem fitting_iff_positive_distance :
  forall (ndarray CC : Type) (env : Imports ndarray CC)
         (self : LineDetector ndarray CC) (settings : Settings.t)
         (d : ImageData ndarray),
    (forall staff_list,
       (0 < Settings.line_fit_distance settings)%Q ->
       fitting env settings staff_list
       = enter LineFitting
           (line_fitting env staff_list
              (Settings.line_fit_distance settings)))
    /\ (forall staff_list,
          ~ (0 < Settings.line_fit_distance settings)%Q ->
          fitting env settings staff_list = ret staff_list)
    /\ (forall staff_list,
          (Settings.line_fit_distance settings == 0)%Q ->
          fitting env settings staff_list = ret staff_list)
    /\ (In LineFitting
          (stages_of (trace (detect_staff_lines env self settings d))) ->
        (0 < Settings.line_fit_distance settings)%Q)
    /\ (forall r,
          outcome (detect_staff_lines env self settings d) = Ok r ->
          (0 < Settings.line_fit_distance settings)%Q ->
          In LineFitting
            (stages_of (trace (detect_staff_lines env self settings d)))).
Proof.
  intros ndarray CC env self settings d.
  assert (Off : forall staff_list,
             ~ (0 < Settings.line_fit_distance settings)%Q ->
             fitting env settings staff_list = ret staff_list).
  { intros staff_list H. unfold fitting.
    destruct (Qpositive (Settings.line_fit_distance settings)) eqn:E;
      [| reflexivity].
    apply Qpositive_iff in E. contradiction. }
  split; [| split; [exact Off | split; [| split]]].
  - intros staff_list H. apply Qpositive_iff in H. unfold fitting.
    rewrite H. reflexivity.
  - intros staff_list H. apply Off. intros Hpos. rewrite H in Hpos.
    exact (Qlt_irrefl 0 Hpos).
  - intros H. apply Qpositive_iff, plan_fitting.
    eapply entered_in_plan. exact H.
  - intros r Hr H. rewrite (returned_run_plan _ _ _ _ Hr).
    apply plan_fitting, Qpositive_iff. exact H.
Qed.

(** With fit distance 1/2 the fitting step is the call of [line_fitting]. *)
Lemma fitting_iff_positive_distance_witness :
  fitting StandIn.env full_settings [[StandIn.hline 10 0 200]]
  = enter LineFitting
      (line_fitting StandIn.env [[StandIn.hline 10 0 200]] (1 # 2)).
Proof.
  apply (proj1 (fitting_iff_positive_distance StandIn.env StandIn.self
                  full_settings StandIn.page_data)).
  reflexivity.
Defined.

Lemma plan_smoothing (s : Settings.t) :
  (In SmoothLines (stage_plan s) <-> Settings.smooth_lines s = 1)
  /\ (In SmoothLinesAdvanced (stage_plan s) <-> Settings.smooth_lines s = 2).
Proof.
  unfold stage_plan, system_stages, post_stages, smooth_stages, fit_stages.
  destruct (Settings.smooth_lines s =? 1) eqn:H1;
    [apply Z.eqb_eq in H1 | apply Z.eqb_neq in H1];
    (destruct (Settings.smooth_lines s =? 2) eqn:H2;
     [apply Z.eqb_eq in H2 | apply Z.eqb_neq in H2]);
    destruct (1 <? Settings.numLine s), (Settings.lineExtension s),
      (Settings.post_process s),
      (Qpositive (Settings.line_fit_distance s));
    simpl; repeat split; intros H;
    repeat match goal with
           | H : _ \/ _ |- _ => destruct H
           end;
    try discriminate; try contradiction; try lia; auto 12.
Qed.

(** C6: the smoothing step of [detect_staff_lines] is governed by
    [smooth_lines]. With 0 it hands the staff list on unchanged; with 1 it
    is the call of [smooth_lines] with [smooth_value_lowpass]; with 2 it is
    the call of [smooth_lines_advanced] with [smooth_value_adv]. A run
    enters the low-pass smoother only with 1 and the advanced smoother only
    with 2, and a run that returns has entered the one selected. *)
Theorem smoothing_by_mode :
  forall (ndarray CC : Type) (env : Imports ndarray CC)
         (self : LineDetector ndarray CC) (settings : Settings.t)
         (d : ImageData ndarray),
    (forall staff_list,
       Settings.smooth_lines settings = 0 ->
       smoothing self settings staff_list = ret staff_list)
    /\ (forall staff_list,
          Settings.smooth_lines settings = 1 ->
          smoothing self settings staff_list
          = enter SmoothLines
              (smooth_lines self staff_list
                 (Settings.smooth_value_lowpass settings)))
    /\ (forall staff_list,
          Settings.smooth_lines settings = 2 ->
          smoothing self settings staff_list
          = enter SmoothLinesAdvanced
              (smooth_lines_advanced self staff_list
                 (Settings.smooth_value_adv settings)))
    /\ (In SmoothLines
          (stages_of (trace (detect_staff_lines env self settings d))) ->
        Settings.smooth_lines settings = 1)
    /\ (In SmoothLinesAdvanced
          (stages_of (trace (detect_staff_lines env self settings d))) ->
        Settings.smooth_lines settings = 2)
    /\ (forall r,
          outcome (detect_staff_lines env self settings d) = Ok r ->
          (Settings.smooth_lines settings = 1 ->
           In SmoothLines
             (stages_of (trace (detect_staff_lines env self settings d))))
          /\ (Settings.smooth_lines settings = 2 ->
              In SmoothLinesAdvanced
                (stages_of
                   (trace (detect_staff_lines env self settings d))))).
Proof.
  intros ndarray CC env self settings d.
  destruct (plan_smoothing settings) as [P1 P2].
  split; [| split; [| split; [| split; [| split]]]].
  - intros staff_list H. unfold smoothing. rewrite H. reflexivity.
  - intros staff_list H. unfold smoothing. rewrite H.
    cbn [Z.eqb Pos.eqb negb]. apply bind_ret_r.
  - intros staff_list H. unfold smoothing. rewrite H.
    cbn [Z.eqb Pos.eqb negb]. rewrite bind_ret_l. reflexivity.
  - intros H. apply P1. eapply entered_in_plan. exact H.
  - intros H. apply P2. eapply entered_in_plan. exact H.
  - intros r Hr. rewrite (returned_run_plan _ _ _ _ Hr).
    split; intros H; [apply P1 | apply P2]; exact H.
Qed.

(** With [smooth_lines = 2] the smoothing step is the call of the advanced
    smoother with strength 25. *)
Lemma smoothing_by_mode_witness :
  smoothing StandIn.self full_settings [[StandIn.hline 10 0 200]]
  = enter SmoothLinesAdvanced
      (smooth_lines_advanced StandIn.self [[StandIn.hline 10 0 200]]
         (25 # 1)).
Proof.
  apply (proj1 (proj2 (proj2 (smoothing_by_mode StandIn.env StandIn.self
                                full_settings StandIn.page_data)))).
  reflexivity.
Defined.

(** ** Choice of the detection path *)

Lemma truthy_false_iff (m : option string) :
  truthy m = false <-> (m = None \/ m = Some EmptyString).
Proof.
  destruct m as [s |]; simpl.
  - rewrite negb_false_iff, String.eqb_eq. split.
    + intros ->. right. reflexivity.
    + intros [H | H]; congruence.
  - split; auto.
Qed.

(** C5: for every list of images, [detect] is [detect_basic] when
    [settings.model] is [None] or the empty string, and [detect_advanced]
    when it is a non-empty string; the whole generator comes from one of the
    two. *)
Theorem detect_basic_or_advanced :
  forall (ndarray CC : Type) (env : Imports ndarray CC)
         (self : LineDetector ndarray CC) (settings : Settings.t)
         (predictor : list (ImageData ndarray) -> Generator ndarray)
         (images : list ndarray),
    (Settings.model settings = None
     \/ Settings.model settings = Some EmptyString ->
     detect env self settings predictor images
     = detect_basic env self settings images)
    /\ (forall m,
          Settings.model settings = Some m -> m <> EmptyString ->
          detect env self settings predictor images
          = detect_advanced env self settings predictor images).
Proof.
  intros ndarray CC env self settings predictor images. split.
  - intros H. apply truthy_false_iff in H. unfold detect. rewrite H.
    reflexivity.
  - intros m Hm Hne. unfold detect.
    destruct (truthy (Settings.model settings)) eqn:E; [reflexivity |].
    apply truthy_false_iff in E. destruct E as [E | E]; congruence.
Qed.

(** Without a model, [detect] on a page is [detect_basic] on it. *)
Lemma detect_basic_or_advanced_witness :
  detect StandIn.env StandIn.self StandIn.settings StandIn.predictor
    [StandIn.page]
  = detect_basic StandIn.env StandIn.self StandIn.settings [StandIn.page].
Proof.
  apply (proj1 (detect_basic_or_advanced StandIn.env StandIn.self
                  StandIn.settings StandIn.predictor [StandIn.page])).
  left. reflexivity.
Defined.

(** ** Enhancement in [detect_basic] *)

Lemma slice_of_ten_bins (h : list Z) :
  List.length h = 10%nat -> sum (slice_1_m2 h) = bins_1_to_7 h.
Proof.
  intros H.
  do 10 (destruct h as [| ? h]; [discriminate H |]).
  destruct h; [| discriminate H].
  unfold slice_1_m2, bins_1_to_7, sum. simpl. lia.
Qed.

Lemma collaborators_binarized_image_data {ndarray CC : Type}
  (env : Imports ndarray CC) (settings : Settings.t) (image gray : ndarray) :
  ~ In Enhance
      (collaborators_of
         (trace (binarized_image_data env settings image gray))).
Proof.
  unfold binarized_image_data, runs_image_data.
  destruct (binarize env gray) as [binary |]; simpl;
    [| intros [H | []]; discriminate H].
  destruct (vertical_runs env binary) as [runs |]; simpl;
    [| intros [H | [H | []]]; discriminate H].
  destruct (calculate_horizontal_runs env _ _); simpl;
    intros [H | [H | [H | []]]]; discriminate H.
Qed.

(** What a returned [ImageData] was built from. *)
Lemma binarized_image_data_ok {ndarray CC : Type}
  (env : Imports ndarray CC) (settings : Settings.t) (scaled gray : ndarray)
  (d : ImageData ndarray) :
  outcome (binarized_image_data env settings scaled gray) = Ok d ->
  image d = scaled
  /\ exists binary,
       binarize env gray = Some binary
       /\ vertical_runs env binary
          = Some (staff_space_height d, staff_line_height d)
       /\ calculate_horizontal_runs env
            (one_minus env
               (xor env (one_minus env binary)
                  (binary_dilation env
                     (binary_erosion env (one_minus env binary)))))
            (Settings.minLength settings)
          = Some (horizontal_runs_img d).
Proof.
  unfold binarized_image_data, runs_image_data. intros H.
  apply outcome_bind_ok in H. destruct H as [binary [Hb H]].
  apply outcome_bind_ok in H. destruct H as [runs [Hr H]].
  apply outcome_bind_ok in H. destruct H as [horizontal [Hh H]].
  apply outcome_use_ok in Hb. apply outcome_use_ok in Hr.
  apply outcome_use_ok in Hh.
  simpl in H. injection H as <-. simpl.
  split; [reflexivity |]. exists binary.
  rewrite <- surjective_pairing. auto.
Qed.

(** C10: in [detect_basic], with a histogram of 10 bins of the scaled
    image: when bins 1 to 7 are empty, [binarize] is applied to the scaled
    image itself and [enhance] is not called; otherwise [enhance] is applied
    to the scaled image and [binarize] to what it returns. Either way the
    [ImageData] that is built holds the raw image divided by 255, and its
    run statistics and run-length image come from that mask. *)
Theorem enhancement_skipped_iff_middle_bins_empty :
  forall (ndarray CC : Type) (env : Imports ndarray CC)
         (settings : Settings.t) (img : ndarray),
    List.length (histogram_counts env (astype_float_div_255 env img))
    = 10%nat ->
    (bins_1_to_7 (histogram_counts env (astype_float_div_255 env img)) = 0 ->
     basic_image_data env settings img
     = (binary <- use Binarize
                    (binarize env (astype_float_div_255 env img)) ;;
        runs_image_data env settings (astype_float_div_255 env img) binary)
     /\ ~ In Enhance
          (collaborators_of (trace (basic_image_data env settings img))))
    /\ (bins_1_to_7 (histogram_counts env (astype_float_div_255 env img))
        <> 0 ->
        basic_image_data env settings img
        = (gray <- use Enhance
                     (enhance env (astype_float_div_255 env img)) ;;
           binary <- use Binarize (binarize env gray) ;;
           runs_image_data env settings (astype_float_div_255 env img)
             binary))
    /\ (forall d,
          outcome (basic_image_data env settings img) = Ok d ->
          image d = astype_float_div_255 env img
          /\ exists gray binary,
               (bins_1_to_7
                  (histogram_counts env (astype_float_div_255 env img)) = 0
                /\ gray = astype_float_div_255 env img
                \/ bins_1_to_7
                     (histogram_counts env (astype_float_div_255 env img))
                   <> 0
                   /\ enhance env (astype_float_div_255 env img)
                      = Some gray)
               /\ binarize env gray = Some binary
               /\ vertical_runs env binary
                  = Some (staff_space_height d, staff_line_height d)
               /\ calculate_horizontal_runs env
                    (one_minus env
                       (xor env (one_minus env binary)
                          (binary_dilation env
                             (binary_erosion env (one_minus env binary)))))
                    (Settings.minLength settings)
                  = Some (horizontal_runs_img d)).
Proof.
  intros ndarray CC env settings img Hlen.
  apply slice_of_ten_bins in Hlen.
  assert (Direct :
            bins_1_to_7 (histogram_counts env (astype_float_div_255 env img))
            = 0 ->
            basic_image_data env settings img
            = binarized_image_data env settings
                (astype_float_div_255 env img)
                (astype_float_div_255 env img)).
  { intros H0. unfold basic_image_data, gray_to_binarize.
    rewrite Hlen, H0. cbn [Z.eqb negb]. apply bind_ret_l. }
  assert (Enhanced :
            bins_1_to_7 (histogram_counts env (astype_float_div_255 env img))
            <> 0 ->
            basic_image_data env settings img
            = (gray <- use Enhance
                         (enhance env (astype_float_div_255 env img)) ;;
               binarized_image_data env settings
                 (astype_float_div_255 env img) gray)).
  { intros Hne. unfold basic_image_data, gray_to_binarize.
    rewrite Hlen. apply Z.eqb_neq in Hne. rewrite Hne. reflexivity. }
  split; [| split].
  - intros H0. split; [exact (Direct H0) |].
    rewrite (Direct H0). apply collaborators_binarized_image_data.
  - intros Hne. exact (Enhanced Hne).
  - intros d Hd.
    destruct (Z.eq_dec
                (bins_1_to_7
                   (histogram_counts env (astype_float_div_255 env img))) 0)
      as [H0 | Hne].
    + rewrite (Direct H0) in Hd.
      apply binarized_image_data_ok in Hd.
      destruct Hd as [Hi [binary [Hb [Hr Hh]]]].
      split; [exact Hi |].
      exists (astype_float_div_255 env img), binary. auto.
    + rewrite (Enhanced Hne) in Hd.
      apply outcome_bind_ok in Hd. destruct Hd as [gray [Hg Hd]].
      apply outcome_use_ok in Hg.
      apply binarized_image_data_ok in Hd.
      destruct Hd as [Hi [binary [Hb [Hr Hh]]]].
      split; [exact Hi |].
      exists gray, binary. auto.
Qed.

(** On the stand-in page the middle bins are empty and [binarize] is
    applied to the page as it is. *)
Lemma enhancement_skipped_iff_middle_bins_empty_witness :
  basic_image_data StandIn.env StandIn.settings StandIn.page
  = (binary <- use Binarize (binarize StandIn.env StandIn.page) ;;
     runs_image_data StandIn.env StandIn.settings StandIn.page binary).
Proof.
  apply (proj1 (enhancement_skipped_iff_middle_bins_empty StandIn.env
                  StandIn.settings StandIn.page eq_refl)).
  reflexivity.
Defined.

(** ** The 50 pixel floor *)

Lemma length_filter_ok (ls out : list Line) :
  outcome (length_filter ls) = Ok out ->
  Forall long_line out /\ incl out ls.
Proof.
  revert out. induction ls as [| l ls IH]; simpl; intros out H.
  - injection H as <-. split; [constructor | apply incl_refl].
  - destruct (span l) as [w |] eqn:Hw; [| discriminate H].
    apply outcome_bind_ok in H. destruct H as [kept [Hk H]].
    destruct (IH kept Hk) as [Hlong Hincl].
    simpl in H. injection H as <-.
    destruct (50 <? w) eqn:Hc.
    + split.
      * constructor; [| exact Hlong].
        exists w. split; [exact Hw | apply Z.ltb_lt; exact Hc].
      * apply incl_cons; [left; reflexivity | apply incl_tl; exact Hincl].
    + split; [exact Hlong | apply incl_tl; exact Hincl].
Qed.

Lemma first_item_column (l : Line) :
  hd_error (map column l) = option_map column (first_item l).
Proof. destruct l; reflexivity. Qed.

Lemma last_item_column (l : Line) :
  hd_error (rev (map column l)) = option_map column (last_item l).
Proof.
  unfold last_item. rewrite <- map_rev. destruct (rev l); reflexivity.
Qed.

Lemma span_by_columns (l : Line) :
  span l
  = match hd_error (rev (map column l)), hd_error (map column l) with
    | Some cl, Some cf => Some (cl - cf)
    | _, _ => None
    end.
Proof.
  rewrite last_item_column, first_item_column. unfold span.
  destruct (last_item l), (first_item l); reflexivity.
Qed.

Lemma same_columns_long (l l' : Line) :
  same_columns l l' -> long_line l -> long_line l'.
Proof.
  unfold same_columns, long_line. intros E [w [Hw Hlt]].
  exists w. split; [| exact Hlt].
  rewrite span_by_columns, E, <- span_by_columns. exact Hw.
Qed.

Lemma long_line_ends (l : Line) (w : Z) :
  span l = Some w ->
  exists f e,
    first_item l = Some f /\ last_item l = Some e
    /\ w = column e - column f.
Proof.
  unfold span. destruct (last_item l) as [e |]; [| discriminate].
  destruct (first_item l) as [f |]; [| discriminate].
  intros H. injection H as <-. exists f, e. auto.
Qed.

Lemma covers_long (l l' : Line) :
  covers l l' -> long_line l -> long_line l'.
Proof.
  intros Hc [w [Hw Hlt]].
  destruct (long_line_ends l Hw) as [f [e [Hf [He ->]]]].
  destruct (Hc f e Hf He) as [f' [e' [Hf' [He' [Hlo Hhi]]]]].
  exists (column e' - column f'). split; [| lia].
  unfold span. rewrite He', Hf'. reflexivity.
Qed.

Lemma linewise_long (R : Line -> Line -> Prop) (before after : StaffList) :
  (forall l l', R l l' -> long_line l -> long_line l') ->
  linewise R before after ->
  Forall (Forall long_line) before -> Forall (Forall long_line) after.
Proof.
  intros HR Hlw. induction Hlw as [| s s' before after Hs _ IH];
    intros Hb; [constructor |].
  inversion Hb as [| ? ? Hs_long Hrest]; subst.
  constructor; [| exact (IH Hrest)].
  clear IH Hb Hrest. induction Hs as [| l l' s s' Hl _ IHs]; [constructor |].
  inversion Hs_long; subst. constructor; [eapply HR; eassumption | auto].
Qed.

Lemma incl_Forall_long (ls out : list Line) :
  incl out ls -> Forall long_line ls -> Forall long_line out.
Proof.
  intros Hi Hl. apply Forall_forall. intros l Hin.
  rewrite Forall_forall in Hl. apply Hl, Hi, Hin.
Qed.

Section SpanPreservation.

Context {ndarray CC : Type}.
Variable env : Imports ndarray CC.
Variable self : LineDetector ndarray CC.
Variable settings : Settings.t.
Hypothesis spec : SpanSpec env self.
Hypothesis no_advanced_smoothing : Settings.smooth_lines settings <> 2.
Hypothesis no_fitting : ~ (0 < Settings.line_fit_distance settings)%Q.

Lemma candidate_lines_long (d : ImageData ndarray) (ls : list Line) :
  outcome (candidate_lines env self d) = Ok ls -> Forall long_line ls.
Proof.
  unfold candidate_lines. intros H.
  apply outcome_bind_ok in H. destruct H as [cc [_ H]].
  apply outcome_bind_ok in H. destruct H as [cc' [_ H]].
  apply outcome_bind_ok in H. destruct H as [ls0 [_ H]].
  apply outcome_bind_ok in H. destruct H as [ls1 [Hf H]].
  apply outcome_enter_ok in H.
  apply length_filter_ok in Hf. destruct Hf as [Hlong _].
  eapply incl_Forall_long; [| exact Hlong].
  eapply prune_small_discards; eassumption.
Qed.

Lemma group_in_systems_long (d : ImageData ndarray) (ls : list Line)
  (sl : StaffList) :
  Forall long_line ls ->
  outcome (group_in_systems self settings d ls) = Ok sl ->
  Forall (Forall long_line) sl.
Proof.
  intros Hl. unfold group_in_systems.
  destruct (1 <? Settings.numLine settings).
  - intros H.
    apply outcome_bind_ok in H. destruct H as [sl0 [Ho H]].
    apply outcome_bind_ok in H. destruct H as [sl1 [Hp H]].
    apply outcome_enter_ok in Ho. apply outcome_enter_ok in Hp.
    assert (L0 : Forall (Forall long_line) sl0).
    { apply Forall_forall. intros s Hs.
      eapply incl_Forall_long; [| exact Hl].
      eapply organize_groups; eassumption. }
    assert (L1 : Forall (Forall long_line) sl1).
    { apply Forall_forall. intros s Hs. rewrite Forall_forall in L0.
      apply L0. eapply intensity_drops; eassumption. }
    destruct (Settings.lineExtension settings).
    + apply outcome_enter_ok in H.
      eapply linewise_long; [exact covers_long | | exact L1].
      eapply normalize_extends; eassumption.
    + simpl in H. injection H as <-. exact L1.
  - simpl. intros H. injection H as <-.
    apply Forall_forall. intros s Hs. apply in_map_iff in Hs.
    destruct Hs as [l [<- Hin]]. constructor; [| constructor].
    rewrite Forall_forall in Hl. exact (Hl l Hin).
Qed.

Lemma post_processing_long (d : ImageData ndarray) (sl out : StaffList) :
  Forall (Forall long_line) sl ->
  outcome (post_processing env self settings d sl) = Ok out ->
  Forall (Forall long_line) out.
Proof.
  intros Hl. unfold post_processing.
  destruct (Settings.post_process settings).
  - intros H.
    apply outcome_bind_ok in H. destruct H as [binary [_ H]].
    apply outcome_bind_ok in H. destruct H as [sl1 [Hp H]].
    apply outcome_enter_ok in Hp.
    assert (L1 : Forall (Forall long_line) sl1).
    { eapply linewise_long; [exact covers_long | | exact Hl].
      eapply postprocess_recovers; eassumption. }
    destruct ((1 <? Settings.numLine settings)
              && Settings.lineExtension settings).
    + apply outcome_enter_ok in H.
      eapply linewise_long; [exact covers_long | | exact L1].
      eapply normalize_extends; eassumption.
    + simpl in H. injection H as <-. exact L1.
  - simpl. intros H. injection H as <-. exact Hl.
Qed.

Lemma smoothing_long (sl out : StaffList) :
  Forall (Forall long_line) sl ->
  outcome (smoothing self settings sl) = Ok out ->
  Forall (Forall long_line) out.
Proof.
  intros Hl. unfold smoothing.
  destruct (negb (Settings.smooth_lines settings =? 0));
    [| simpl; intros H; injection H as <-; exact Hl].
  intros H. apply outcome_bind_ok in H. destruct H as [sl1 [H1 H]].
  assert (L1 : Forall (Forall long_line) sl1).
  { destruct (Settings.smooth_lines settings =? 1).
    - apply outcome_enter_ok in H1.
      eapply linewise_long; [exact same_columns_long | | exact Hl].
      eapply smooth_keeps_columns; eassumption.
    - simpl in H1. injection H1 as <-. exact Hl. }
  destruct (Settings.smooth_lines settings =? 2) eqn:E2.
  - apply Z.eqb_eq in E2. contradiction.
  - simpl in H. injection H as <-. exact L1.
Qed.

Lemma fitting_long (sl out : StaffList) :
  Forall (Forall long_line) sl ->
  outcome (fitting env settings sl) = Ok out ->
  Forall (Forall long_line) out.
Proof.
  intros Hl. unfold fitting.
  destruct (Qpositive (Settings.line_fit_distance settings)) eqn:E.
  - apply Qpositive_iff in E. contradiction.
  - simpl. intros H. injection H as <-. exact Hl.
Qed.

Lemma detect_staff_lines_long (d : ImageData ndarray) (sl : StaffList) :
  outcome (detect_staff_lines env self settings d) = Ok sl ->
  Forall (Forall long_line) sl.
Proof.
  unfold detect_staff_lines. intros H.
  apply outcome_bind_ok in H. destruct H as [ls [H0 H]].
  apply outcome_bind_ok in H. destruct H as [sl0 [H1 H]].
  apply outcome_bind_ok in H. destruct H as [sl1 [H2 H]].
  apply outcome_bind_ok in H. destruct H as [sl2 [H3 H]].
  apply outcome_bind_ok in H. destruct H as [sl3 [H4 H]].
  apply outcome_bind_ok in H. destruct H as [u [_ H]].
  simpl in H. injection H as <-.
  eapply fitting_long; [| exact H4].
  eapply smoothing_long; [| exact H3].
  eapply post_processing_long; [| exact H2].
  eapply group_in_systems_long; [| exact H1].
  eapply candidate_lines_long. exact H0.
Qed.

End SpanPreservation.


Lemma linewise_refl (R : Line -> Line -> Prop) (sl : StaffList) :
  (forall l, R l l) -> linewise R sl sl.
Proof.
  intros HR. induction sl as [| s sl IH]; constructor; [| exact IH].
  induction s as [| l s IHs]; constructor; [apply HR | exact IHs].
Qed.

Lemma covers_refl (l : Line) : covers l l.
Proof. intros f e Hf He. exists f, e. repeat split; auto; lia. Qed.

(** The stand-in stages hand their input on, so they meet [SpanSpec]; which
    fitter is used does not matter. *)
Lemma standin_span_spec (env : Imports StandIn.ndarray Line) :
  SpanSpec env StandIn.self.
Proof.
  constructor; simpl.
  - intros ls ssh out H. injection H as <-. apply incl_refl.
  - intros ls ssh slh out H s Hs. injection H as <-.
    destruct ls; [contradiction |].
    destruct Hs as [<- | []]. apply incl_refl.
  - intros sl img out H. injection H as <-. apply incl_refl.
  - intros sl ssh img out H. injection H as <-.
    apply linewise_refl, covers_refl.
  - intros sl slh binary out H. injection H as <-.
    apply linewise_refl, covers_refl.
  - intros sl v out H. injection H as <-.
    apply linewise_refl. reflexivity.
Qed.


Lemma thin_out_thins (sl : StaffList) : linewise thinned sl (thin_out sl).
Proof.
  induction sl as [| s sl IH]; constructor; [| exact IH].
  induction s as [| l s IHs]; constructor; [| exact IHs].
  unfold thinned, drop_last_point.
  destruct l as [| p [| q [| r l]]];
    try (split; [apply incl_refl | apply Nat.le_refl]).
  split.
  - intros x Hx. change (In x (removelast ((p :: q :: r :: l)))) in Hx.
    revert Hx. generalize (p :: q :: r :: l). intros l0.
    induction l0 as [| a [| b l0] IHl]; simpl; [tauto | tauto |].
    intros [<- | Hx]; [left; reflexivity | right; apply IHl; exact Hx].
  - change (List.length (removelast (p :: q :: r :: l))
            <= List.length (p :: q :: r :: l))%nat.
    generalize (p :: q :: r :: l). intros l0.
    induction l0 as [| a [| b l0] IHl]; simpl in *; lia.
Qed.


(** ** Blank pages *)

Section DegeneratePage.

Context {ndarray CC : Type}.
Variable blank : ndarray -> Prop.
Variable env : Imports ndarray CC.
Variable self : LineDetector ndarray CC.
Variable settings : Settings.t.
Hypothesis spec : DegenerateSpec blank env self.

Lemma candidate_lines_blank (d : ImageData ndarray) :
  blank (horizontal_runs_img d) ->
  outcome (candidate_lines env self d) = Ok [].
Proof.
  intros Hb. unfold candidate_lines.
  rewrite (extract_blank spec _ Hb). simpl.
  rewrite (normalize_cc_empty spec). simpl.
  rewrite (connect_empty spec). simpl.
  rewrite (prune_small_empty spec). reflexivity.
Qed.

Lemma group_in_systems_blank (d : ImageData ndarray) :
  outcome (group_in_systems self settings d []) = Ok [].
Proof.
  unfold group_in_systems.
  destruct (1 <? Settings.numLine settings); [| reflexivity].
  rewrite (organize_empty spec). simpl.
  rewrite (intensity_empty spec). simpl.
  destruct (Settings.lineExtension settings); [| reflexivity].
  rewrite (normalize_empty spec). reflexivity.
Qed.

Lemma post_processing_blank (d : ImageData ndarray) :
  outcome (post_processing env self settings d []) = Ok [].
Proof.
  unfold post_processing.
  destruct (Settings.post_process settings); [| reflexivity].
  destruct (binarize env (image d)) as [binary |] eqn:E;
    [| exfalso; exact (binarize_returns spec _ E)].
  simpl. rewrite (postprocess_empty spec). simpl.
  destruct ((1 <? Settings.numLine settings)
            && Settings.lineExtension settings); [| reflexivity].
  rewrite (normalize_empty spec). reflexivity.
Qed.

Lemma smoothing_blank : outcome (smoothing self settings []) = Ok [].
Proof.
  unfold smoothing.
  destruct (negb (Settings.smooth_lines settings =? 0)); [| reflexivity].
  destruct (Settings.smooth_lines settings =? 1),
    (Settings.smooth_lines settings =? 2);
    rewrite ?(smooth_empty spec); simpl;
    rewrite ?(smooth_advanced_empty spec); reflexivity.
Qed.

Lemma fitting_blank : outcome (fitting env settings []) = Ok [].
Proof.
  unfold fitting.
  destruct (Qpositive (Settings.line_fit_distance settings));
    [| reflexivity].
  rewrite (fitting_empty spec). reflexivity.
Qed.

Lemma debug_plot_blank (d : ImageData ndarray) :
  outcome (debug_plot env settings d []) = Ok tt.
Proof.
  unfold debug_plot. destruct (Settings.debug settings); [| reflexivity].
  destruct (binarize env (image d)) as [binary |] eqn:E;
    [reflexivity | exfalso; exact (binarize_returns spec _ E)].
Qed.

Lemma detect_staff_lines_blank (d : ImageData ndarray) :
  blank (horizontal_runs_img d) ->
  outcome (detect_staff_lines env self settings d) = Ok [].
Proof.
  intros Hb. unfold detect_staff_lines.
  rewrite outcome_bind, (candidate_lines_blank d Hb).
  rewrite outcome_bind, group_in_systems_blank.
  rewrite outcome_bind, post_processing_blank.
  rewrite outcome_bind, smoothing_blank.
  rewrite outcome_bind, fitting_blank.
  rewrite outcome_bind, debug_plot_blank.
  reflexivity.
Qed.

End DegeneratePage.

Lemma outcome_use_some {A} (c : Collaborator) (a : A) :
  outcome (use c (Some a)) = Ok a.
Proof. reflexivity. Qed.

Lemma consume_items_all_ok {Y} (items : list (M Y)) (y0 : Y) :
  Forall (fun m => outcome m = Ok y0) items ->
  raised (consume_items items) = None
  /\ yielded (consume_items items) = map (fun _ => y0) items.
Proof.
  induction 1 as [| m items Hm _ [IH1 IH2]]; simpl; [auto |].
  destruct m as [t [y | e]]; simpl in *; [| discriminate Hm].
  injection Hm as ->. rewrite IH1, IH2. auto.
Qed.

Lemma consume_started {Y} (g : Generator Y) (items : list (M Y)) :
  outcome g = Ok items ->
  raised (consume g) = raised (consume_items items)
  /\ yielded (consume g) = yielded (consume_items items).
Proof.
  destruct g as [t [items' | e]]; simpl; [| discriminate].
  intros H. injection H as ->. auto.
Qed.

Lemma map_constant {A B Y} (y0 : Y) (l : list A) (l' : list B) :
  List.length l = List.length l' ->
  map (fun _ => y0) l = map (fun _ => y0) l'.
Proof.
  revert l'. induction l as [| a l IH]; intros [| b l'] H; simpl in *;
    try discriminate; [reflexivity |].
  rewrite (IH l'); [reflexivity | lia].
Qed.

Section BlankInput.

Context {ndarray CC : Type}.
Variables blank_page background nothing_set : ndarray -> Prop.
Variable env : Imports ndarray CC.
Variable self : LineDetector ndarray CC.
Variable settings : Settings.t.
Variable predictor : list (ImageData ndarray) -> Generator ndarray.
Hypothesis arrays : BlankArrays blank_page background nothing_set env.
Hypothesis preparation :
  BlankPreparation blank_page background nothing_set env predictor.
Hypothesis stages : DegenerateSpec background env self.

Lemma runs_image_data_blank (scaled binary : ndarray) :
  background binary ->
  exists d,
    outcome (runs_image_data env settings scaled binary) = Ok d
    /\ background (horizontal_runs_img d).
Proof.
  intros Hb. unfold runs_image_data.
  destruct (vertical_runs env binary) as [runs |] eqn:Hr;
    [| exfalso; exact (vertical_runs_background preparation _ Hb Hr)].
  assert (Hz : nothing_set (one_minus env binary))
    by exact (one_minus_background arrays _ Hb).
  assert (Hs : background
                 (one_minus env
                    (xor env (one_minus env binary)
                       (binary_dilation env
                          (binary_erosion env (one_minus env binary)))))).
  { apply (one_minus_nothing_set arrays).
    apply (xor_nothing_set arrays); [exact Hz |].
    apply (dilation_nothing_set arrays), (erosion_nothing_set arrays).
    exact Hz. }
  destruct (horizontal_runs_background preparation _
              (Settings.minLength settings) Hs) as [h [Hh Hbh]].
  eexists. split.
  - cbv zeta. rewrite outcome_bind, outcome_use_some.
    rewrite outcome_bind, Hh. reflexivity.
  - exact Hbh.
Qed.

Lemma basic_image_data_blank (img : ndarray) :
  blank_page img ->
  exists d,
    outcome (basic_image_data env settings img) = Ok d
    /\ background (horizontal_runs_img d).
Proof.
  intros Hp.
  pose proof (scaled_blank arrays _ Hp) as Hs.
  assert (Hgray : exists gray,
             outcome (gray_to_binarize env (astype_float_div_255 env img))
             = Ok gray
             /\ background gray).
  { unfold gray_to_binarize.
    destruct (negb _).
    - destruct (enhance_background preparation _ Hs) as [a' [Ha Hb]].
      exists a'. rewrite Ha. auto.
    - exists (astype_float_div_255 env img). auto. }
  destruct Hgray as [gray [Hg Hbg]].
  destruct (binarize_background preparation _ Hbg) as [b [Hb Hbb]].
  destruct (runs_image_data_blank (astype_float_div_255 env img) Hbb)
    as [d [Hd Hbd]].
  exists d. split; [| exact Hbd].
  unfold basic_image_data. cbv zeta. rewrite outcome_bind, Hg.
  unfold binarized_image_data.
  rewrite outcome_bind, Hb, outcome_use_some. exact Hd.
Qed.

Lemma basic_item_blank (img : ndarray) :
  blank_page img -> outcome (basic_item env self settings img) = Ok [].
Proof.
  intros Hp. destruct (basic_image_data_blank Hp) as [d [Hd Hb]].
  unfold basic_item. rewrite outcome_bind, Hd.
  exact (detect_staff_lines_blank settings stages d Hb).
Qed.

Lemma advanced_item_blank (data : list (ImageData ndarray)) (i : nat)
  (d : ImageData ndarray) (next_pred : M ndarray) (mask : ndarray) :
  nth_error data i = Some d ->
  blank_page (image d) ->
  outcome next_pred = Ok mask ->
  nothing_set mask ->
  outcome (advanced_item env self settings data i next_pred) = Ok [].
Proof.
  intros Hi Hp Hm Hz. unfold advanced_item.
  rewrite outcome_bind, Hm. cbv zeta. rewrite Hi.
  destruct (binarize_background preparation _ (scaled_blank arrays _ Hp))
    as [b [Hb Hbb]].
  rewrite outcome_bind, Hb, outcome_use_some.
  destruct (vertical_runs env b) as [runs |] eqn:Hr;
    [| exfalso; exact (vertical_runs_background preparation _ Hbb Hr)].
  rewrite outcome_bind, outcome_use_some.
  assert (Hs : background
                 (one_minus env
                    (div_255 env (set_positive_to_255 env mask)))).
  { apply (one_minus_nothing_set arrays), (div_255_nothing_set arrays),
      (set_positive_nothing_set arrays). exact Hz. }
  destruct (horizontal_runs_background preparation _
              (Settings.minLength settings) Hs) as [h [Hh Hbh]].
  rewrite outcome_bind, Hh, outcome_use_some.
  apply (detect_staff_lines_blank settings stages). exact Hbh.
Qed.

Lemma collect_results_blank (images : list ndarray) :
  Forall blank_page images ->
  exists data,
    collect_results
      (map (fun img =>
              create_data env img (Settings.lineSpaceHeight settings))
         images) = Some data
    /\ List.length data = List.length images
    /\ Forall (fun d => blank_page (image d)) data.
Proof.
  induction 1 as [| img images Hp _ [data [Hc [Hlen Hall]]]]; simpl.
  - exists []. auto.
  - destruct (create_data_blank preparation _
                (Settings.lineSpaceHeight settings) Hp) as [d [Hd Hpd]].
    rewrite Hd, Hc. exists (d :: data). simpl. auto.
Qed.

Lemma advanced_items_blank (all prefix data : list (ImageData ndarray))
  (preds : list (M ndarray)) :
  all = prefix ++ data ->
  Forall (fun d => blank_page (image d)) data ->
  Forall2
    (fun (_ : ImageData ndarray) next_pred =>
       exists mask, outcome next_pred = Ok mask /\ nothing_set mask)
    data preds ->
  Forall (fun m => outcome m = Ok [])
    (map (fun ip => advanced_item env self settings all (fst ip) (snd ip))
       (enumerate_from (List.length prefix) preds)).
Proof.
  intros Hall Hblank H. revert prefix Hall Hblank.
  induction H as [| d p data preds [mask [Hm Hz]] _ IH];
    intros prefix Hall Hblank; simpl; [constructor |].
  inversion Hblank as [| ? ? Hd Hrest]; subst.
  constructor.
  - simpl. apply advanced_item_blank with (d := d) (mask := mask); auto.
    rewrite nth_error_app2 by lia. rewrite Nat.sub_diag. reflexivity.
  - specialize (IH (prefix ++ [d])).
    rewrite length_app, Nat.add_1_r in IH. apply IH; [| exact Hrest].
    rewrite <- app_assoc. reflexivity.
Qed.

Lemma detect_blank_pages (images : list ndarray) :
  (truthy (Settings.model settings) = true ->
   1 <= Settings.processes settings) ->
  Forall blank_page images ->
  raised (consume (detect env self settings predictor images)) = None
  /\ yielded (consume (detect env self settings predictor images))
     = map (fun _ => []) images.
Proof.
  intros Hprocesses Hblank. unfold detect.
  destruct (truthy (Settings.model settings)) eqn:Hmodel; cbn [negb].
  - destruct (collect_results_blank Hblank) as [data [Hc [Hlen Hdata]]].
    destruct (predictor_blank preparation Hdata) as [preds [Hp Hpreds]].
    assert (Hitems :
              outcome (detect_advanced env self settings predictor images)
              = Ok (map (fun ip => advanced_item env self settings data
                                     (fst ip) (snd ip))
                      (enumerate_from 0 preds))).
    { unfold detect_advanced, open_pool, imap_create_data.
      replace (Settings.processes settings <? 1) with false
        by (symmetry; apply Z.ltb_ge; apply Hprocesses; reflexivity).
      rewrite bind_ret_l, outcome_bind.
      change (outcome
                (map (fun _ : ndarray => Use CreateData) images,
                 match
                   collect_results
                     (map (fun img =>
                             create_data env img
                               (Settings.lineSpaceHeight settings)) images)
                 with
                 | Some data => Ok data
                 | None => Raise (CollaboratorError CreateData)
                 end))
        with (match
                collect_results
                  (map (fun img =>
                          create_data env img
                            (Settings.lineSpaceHeight settings)) images)
              with
              | Some data => Ok data
              | None => Raise (CollaboratorError CreateData)
              end).
      rewrite Hc, outcome_bind, Hp. reflexivity. }
    destruct (consume_started _ Hitems) as [-> ->].
    pose proof (advanced_items_blank (all := data) [] eq_refl Hdata Hpreds)
      as Hok.
    simpl List.length in Hok.
    destruct (consume_items_all_ok Hok) as [H1 H2].
    split; [exact H1 |]. etransitivity; [exact H2 |]. apply map_constant.
    rewrite length_map.
    assert (Henum : forall s, List.length (enumerate_from s preds)
                              = List.length preds).
    { clear. induction preds as [| p preds IH]; intros s; simpl;
        [| rewrite IH]; reflexivity. }
    rewrite Henum, <- (Forall2_length Hpreds). exact Hlen.
  - assert (Hitems : Forall (fun m => outcome m = Ok [])
                       (map (basic_item env self settings) images)).
    { apply Forall_map. eapply Forall_impl; [| exact Hblank].
      intros img Hp. exact (basic_item_blank Hp). }
    destruct (consume_items_all_ok Hitems) as [H1 H2].
    rewrite map_map in H2.
    split; [exact H1 | exact H2].
Qed.

End BlankInput.


(** The stand-in stages meet [DegenerateSpec], a blank page being one with
    no line on it. *)
Lemma standin_degenerate_spec :
  DegenerateSpec (fun img : StandIn.ndarray => img = []) StandIn.env
    StandIn.self.
Proof.
  constructor; simpl; try reflexivity.
  - intros img ->. reflexivity.
  - intros a H. discriminate H.
Qed.

Lemma standin_blank_arrays :
  BlankArrays (fun img : StandIn.ndarray => img = [])
    (fun img => img = []) (fun img => img = []) StandIn.env.
Proof. constructor; simpl; auto. Qed.

Lemma standin_blank_preparation :
  BlankPreparation (fun img : StandIn.ndarray => img = [])
    (fun img => img = []) (fun img => img = []) StandIn.env
    StandIn.predictor.
Proof.
  constructor; simpl.
  - intros a ->. exists []. auto.
  - intros a ->. exists []. auto.
  - intros b _. discriminate.
  - intros a n ->. exists []. auto.
  - intros img h ->. eexists. split; reflexivity.
  - intros data Hdata. eexists. split; [reflexivity |].
    induction Hdata as [| d data Hd _ IH]; simpl; constructor; [| exact IH].
    exists (image d). auto.
Qed.


(** ** Lines per system *)

Lemma collect_groups_sizes (numLine : Z) (line_row : Line -> Z)
  (tolerance : Z -> Z) (ssh : Z) (lines group : list Line) (s : System) :
  In s (Organizer.collect_groups numLine line_row tolerance ssh group lines)
  -> Z.of_nat (List.length s) = numLine.
Proof.
  revert group. induction lines as [| l rest IH]; intros group; simpl.
  - contradiction.
  - destruct (Z.of_nat
                (List.length
                   (if Organizer.continues line_row tolerance ssh group l
                    then group ++ [l] else [l])) =? numLine) eqn:E.
    + intros [<- | H]; [apply Z.eqb_eq; exact E | exact (IH _ H)].
    + apply IH.
Qed.

Lemma keeps_system_sizes_sized (n : Z) (before after : StaffList) :
  keeps_system_sizes before after ->
  systems_of_size n before -> systems_of_size n after.
Proof.
  intros Hk Hb s' Hs'. destruct (Hk s' Hs') as [s [Hs E]].
  rewrite E. exact (Hb s Hs).
Qed.

Section SystemSizes.

Context {ndarray CC : Type}.
Variable env : Imports ndarray CC.
Variable self : LineDetector ndarray CC.
Variable settings : Settings.t.
Hypothesis spec : SystemSizeSpec (Settings.numLine settings) env self.
Hypothesis several_lines : 1 < Settings.numLine settings.


Lemma group_in_systems_complete (d : ImageData ndarray) (ls : list Line)
  (sl : StaffList) :
  outcome (group_in_systems self settings d ls) = Ok sl ->
  systems_of_size (Settings.numLine settings) sl.
Proof.
  unfold group_in_systems.
  rewrite (proj2 (Z.ltb_lt _ _) several_lines). intros H.
  apply outcome_bind_ok in H. destruct H as [sl0 [Ho H]].
  apply outcome_bind_ok in H. destruct H as [sl1 [Hp H]].
  apply outcome_enter_ok in Ho. apply outcome_enter_ok in Hp.
  assert (C0 : systems_of_size (Settings.numLine settings) sl0).
  { destruct (organizer_model spec) as [line_row [tolerance Hm]].
    rewrite Hm in Ho. unfold Organizer.organize_lines_in_systems in Ho.
    injection Ho as <-. intros s Hs.
    eapply collect_groups_sizes. exact Hs. }
  assert (C1 : systems_of_size (Settings.numLine settings) sl1).
  { eapply keeps_system_sizes_sized; [| exact C0].
    eapply intensity_keeps; eassumption. }
  destruct (Settings.lineExtension settings).
  - apply outcome_enter_ok in H.
    eapply keeps_system_sizes_sized; [| exact C1].
    eapply normalize_keeps; eassumption.
  - simpl in H. injection H as <-. exact C1.
Qed.

Lemma post_processing_complete (d : ImageData ndarray) (sl out : StaffList) :
  systems_of_size (Settings.numLine settings) sl ->
  outcome (post_processing env self settings d sl) = Ok out ->
  systems_of_size (Settings.numLine settings) out.
Proof.
  intros Hc. unfold post_processing.
  destruct (Settings.post_process settings);
    [| simpl; intros H; injection H as <-; exact Hc].
  intros H.
  apply outcome_bind_ok in H. destruct H as [binary [_ H]].
  apply outcome_bind_ok in H. destruct H as [sl1 [Hp H]].
  apply outcome_enter_ok in Hp.
  assert (C1 : systems_of_size (Settings.numLine settings) sl1).
  { eapply keeps_system_sizes_sized; [| exact Hc].
    eapply postprocess_keeps; eassumption. }
  destruct ((1 <? Settings.numLine settings)
            && Settings.lineExtension settings).
  - apply outcome_enter_ok in H.
    eapply keeps_system_sizes_sized; [| exact C1].
    eapply normalize_keeps; eassumption.
  - simpl in H. injection H as <-. exact C1.
Qed.

Lemma smoothing_complete (sl out : StaffList) :
  systems_of_size (Settings.numLine settings) sl ->
  outcome (smoothing self settings sl) = Ok out ->
  systems_of_size (Settings.numLine settings) out.
Proof.
  intros Hc. unfold smoothing.
  destruct (negb (Settings.smooth_lines settings =? 0));
    [| simpl; intros H; injection H as <-; exact Hc].
  intros H. apply outcome_bind_ok in H. destruct H as [sl1 [H1 H]].
  assert (C1 : systems_of_size (Settings.numLine settings) sl1).
  { destruct (Settings.smooth_lines settings =? 1).
    - apply outcome_enter_ok in H1.
      eapply keeps_system_sizes_sized; [| exact Hc].
      eapply smooth_keeps; eassumption.
    - simpl in H1. injection H1 as <-. exact Hc. }
  destruct (Settings.smooth_lines settings =? 2).
  - apply outcome_enter_ok in H.
    eapply keeps_system_sizes_sized; [| exact C1].
    eapply smooth_advanced_keeps; eassumption.
  - simpl in H. injection H as <-. exact C1.
Qed.

Lemma fitting_complete (sl out : StaffList) :
  systems_of_size (Settings.numLine settings) sl ->
  outcome (fitting env settings sl) = Ok out ->
  systems_of_size (Settings.numLine settings) out.
Proof.
  intros Hc. unfold fitting.
  destruct (Qpositive (Settings.line_fit_distance settings));
    [| simpl; intros H; injection H as <-; exact Hc].
  intros H. apply outcome_enter_ok in H.
  eapply keeps_system_sizes_sized; [| exact Hc].
  eapply fitting_keeps; eassumption.
Qed.

Lemma detect_staff_lines_complete (d : ImageData ndarray) (sl : StaffList) :
  outcome (detect_staff_lines env self settings d) = Ok sl ->
  systems_of_size (Settings.numLine settings) sl.
Proof.
  unfold detect_staff_lines. intros H.
  apply outcome_bind_ok in H. destruct H as [ls [H0 H]].
  apply outcome_bind_ok in H. destruct H as [sl0 [H1 H]].
  apply outcome_bind_ok in H. destruct H as [sl1 [H2 H]].
  apply outcome_bind_ok in H. destruct H as [sl2 [H3 H]].
  apply outcome_bind_ok in H. destruct H as [sl3 [H4 H]].
  apply outcome_bind_ok in H. destruct H as [u [_ H]].
  simpl in H. injection H as <-.
  eapply fitting_complete; [| exact H4].
  eapply smoothing_complete; [| exact H3].
  eapply post_processing_complete; [| exact H2].
  eapply group_in_systems_complete. exact H1.
Qed.

End SystemSizes.

(** C4: with [numLine > 1] every system returned by [detect_staff_lines]
    has exactly [numLine] lines, so no smaller system is emitted, provided
    the organizer is the one of section 4.5 and the later stages return
    systems of the sizes they were given ([SystemSizeSpec]). *)
Theorem systems_have_numLine_lines :
  forall (ndarray CC : Type) (env : Imports ndarray CC)
         (self : LineDetector ndarray CC) (settings : Settings.t)
         (d : ImageData ndarray) (staff_list : StaffList),
    SystemSizeSpec (Settings.numLine settings) env self ->
    1 < Settings.numLine settings ->
    outcome (detect_staff_lines env self settings d) = Ok staff_list ->
    forall system,
      In system staff_list ->
      Z.of_nat (List.length system) = Settings.numLine settings.
Proof.
  intros ndarray CC env self settings d staff_list Hspec Hn Hrun.
  exact (@detect_staff_lines_complete _ _ env self settings Hspec Hn d
           staff_list Hrun).
Qed.

Lemma keeps_system_sizes_refl (sl : StaffList) : keeps_system_sizes sl sl.
Proof. intros s Hs. exists s. split; [exact Hs | reflexivity]. Qed.

(** The detector with the modelled organizer meets [SystemSizeSpec]. *)
Lemma modelled_system_size_spec (numLine : Z) :
  SystemSizeSpec numLine StandIn.env (modelled_detector numLine).
Proof.
  constructor; simpl;
    try (intros; match goal with
                 | H : Some _ = Some _ |- _ => injection H as <-
                 end; apply keeps_system_sizes_refl).
  eexists. eexists. intros. reflexivity.
Qed.

(** On the page with five staff lines and a stray stroke, with
    [numLine = 5] and every optional stage on, the one system returned has
    five lines. *)
Lemma systems_have_numLine_lines_witness :
  Z.of_nat
    (List.length
       [ [(10, 0); (10, 100); (10, 110); (10, 200)];
         [(30, 0); (30, 100); (30, 110); (30, 200)];
         [(50, 0); (50, 100); (50, 110); (50, 200)];
         [(70, 0); (70, 100); (70, 110); (70, 200)];
         [(90, 0); (90, 100); (90, 110); (90, 200)] ])
  = 5.
Proof.
  apply (@systems_have_numLine_lines _ _ StandIn.env (modelled_detector 5)
           full_settings five_line_data _ (modelled_system_size_spec 5)
           ltac:(simpl; lia) eq_refl).
  left. reflexivity.
Defined.

(** ** Columns along a built line *)

Lemma last_item_cons {A} (x : A) (l : list A) :
  last_item (x :: l)
  = match last_item l with
    | Some e => Some e
    | None => Some x
    end.
Proof.
  unfold last_item. simpl. destruct (rev l) as [| y r] eqn:E; reflexivity.
Qed.

Lemma last_item_nil_iff {A} (l : list A) : last_item l = None <-> l = [].
Proof.
  destruct l as [| x l]; [split; reflexivity |].
  rewrite last_item_cons. destruct (last_item l); split; discriminate.
Qed.

Lemma increasing_from_app (x : Z) (l c : Line) :
  increasing_from x l = true ->
  increasing_columns c = true ->
  (forall s, first_item c = Some s ->
             match last_item l with
             | Some e => column e < column s
             | None => x < column s
             end) ->
  increasing_from x (l ++ c) = true.
Proof.
  revert x. induction l as [| p l IH]; intros x Hl Hc Hgap; simpl.
  - destruct c as [| s rest]; [reflexivity |]. simpl in *.
    rewrite Hc, andb_true_r. apply Z.ltb_lt. apply (Hgap s eq_refl).
  - simpl in Hl. apply andb_true_iff in Hl. destruct Hl as [Hxp Hl].
    rewrite Hxp. simpl. apply IH; [exact Hl | exact Hc |].
    intros s Hs. specialize (Hgap s Hs). rewrite last_item_cons in Hgap.
    destruct (last_item l); exact Hgap.
Qed.

Lemma increasing_columns_app (l c : Line) :
  increasing_columns l = true ->
  increasing_columns c = true ->
  (forall e s, last_item l = Some e -> first_item c = Some s ->
               column e < column s) ->
  increasing_columns (l ++ c) = true.
Proof.
  intros Hl Hc Hgap. destruct l as [| p l]; [exact Hc |].
  simpl. apply increasing_from_app; [exact Hl | exact Hc |].
  intros s Hs. specialize (fun e => Hgap e s).
  rewrite last_item_cons in Hgap.
  destruct (last_item l) as [e |]; apply Hgap; auto.
Qed.

Lemma increasing_from_bound (x : Z) (l : Line) (q : Point) :
  increasing_from x l = true -> In q l -> x < column q.
Proof.
  revert x. induction l as [| p l IH]; intros x Hl Hq; [contradiction |].
  simpl in Hl. apply andb_true_iff in Hl. destruct Hl as [Hxp Hl].
  apply Z.ltb_lt in Hxp. destruct Hq as [<- | Hq]; [exact Hxp |].
  specialize (IH _ Hl Hq). lia.
Qed.

Lemma increasing_from_weaken (x y : Z) (l : Line) :
  increasing_from x l = true -> y <= x -> increasing_from y l = true.
Proof.
  destruct l as [| p l]; [reflexivity |]. simpl. intros H Hy.
  apply andb_true_iff in H. destruct H as [Hxp Hl].
  apply Z.ltb_lt in Hxp. rewrite Hl, andb_true_r. apply Z.ltb_lt. lia.
Qed.

(** Strict growth from point to point gives strict growth between any two
    positions of the line. *)
Lemma increasing_columns_pairwise (l : Line) :
  increasing_columns l = true ->
  forall (i j : nat) (p q : Point),
    (i < j)%nat -> nth_error l i = Some p -> nth_error l j = Some q ->
    column p < column q.
Proof.
  induction l as [| a l IH]; intros Hl i j p q Hij Hp Hq.
  - destruct i; discriminate Hp.
  - simpl in Hl. destruct j as [| j]; [lia |]. simpl in Hq.
    destruct i as [| i].
    + simpl in Hp. injection Hp as <-.
      eapply increasing_from_bound; [exact Hl | eapply nth_error_In; exact Hq].
    + simpl in Hp. apply IH with (i := i) (j := j); try assumption; [| lia].
      destruct l as [| b l]; [reflexivity |]. simpl in *.
      apply andb_true_iff in Hl. tauto.
Qed.

Section LineBuilderProperties.

Variable within_tolerance : Z -> Z -> bool.
Variables staff_line_height staff_space_height : Z.
(** The gap test admits a component only if it begins to the right of the
    line's last point. *)
Hypothesis positive_gaps :
  forall gap, within_tolerance staff_space_height gap = true -> 0 < gap.

Lemma insert_by_column_in (c x : LineBuilder.Component)
  (sorted : list LineBuilder.Component) :
  In x (LineBuilder.insert_by_column c sorted) -> x = c \/ In x sorted.
Proof.
  induction sorted as [| c' rest IH]; simpl.
  - intros [<- | []]. left. reflexivity.
  - destruct (LineBuilder.start_column c <=? LineBuilder.start_column c').
    + intros [<- | H]; [left; reflexivity | right; exact H].
    + intros [<- | H]; [right; left; reflexivity |].
      destruct (IH H) as [-> | H']; [left | right; right]; auto.
Qed.

Lemma in_column_order_in (x : LineBuilder.Component)
  (cc_list : list LineBuilder.Component) :
  In x (LineBuilder.in_column_order cc_list) -> In x cc_list.
Proof.
  induction cc_list as [| c rest IH]; simpl; [auto |].
  intros H. apply insert_by_column_in in H.
  destruct H as [-> | H]; [left; reflexivity | right; exact (IH H)].
Qed.

Lemma eligible_to_the_right (l : Line) (c : LineBuilder.Component)
  (sc : Z * Z) :
  LineBuilder.eligible within_tolerance staff_line_height staff_space_height l c
  = Some sc ->
  forall e s, last_item l = Some e -> first_item c = Some s ->
              column e < column s.
Proof.
  unfold LineBuilder.eligible, LineBuilder.reach.
  intros H e s He Hs. rewrite He, Hs in H.
  destruct ((Z.abs (row s - row e) <=? staff_line_height)
            && within_tolerance staff_space_height (column s - column e))
    eqn:E; [| discriminate H].
  apply andb_true_iff in E. destruct E as [_ E].
  apply positive_gaps in E. lia.
Qed.

Lemma best_line_eligible (lines : list Line) (c : LineBuilder.Component)
  (i : nat) (sc : Z * Z) :
  LineBuilder.best_line within_tolerance staff_line_height staff_space_height
    lines c = Some (i, sc) ->
  exists l,
    nth_error lines i = Some l
    /\ LineBuilder.eligible within_tolerance staff_line_height
         staff_space_height l c = Some sc.
Proof.
  revert i sc. induction lines as [| l rest IH]; intros i sc; simpl;
    [discriminate |].
  destruct (LineBuilder.best_line within_tolerance staff_line_height
              staff_space_height rest c) as [[j sc'] |] eqn:Hrest; simpl.
  - destruct (LineBuilder.eligible within_tolerance staff_line_height
                staff_space_height l c) as [sc0 |] eqn:Hl.
    + destruct (LineBuilder.closer sc0 sc'); intros H; injection H as <- <-.
      * exists l. split; [reflexivity | exact Hl].
      * exact (IH j sc' eq_refl).
    + intros H. injection H as <- <-. exact (IH j sc' eq_refl).
  - destruct (LineBuilder.eligible within_tolerance staff_line_height
                staff_space_height l c) as [sc0 |] eqn:Hl;
      [| discriminate].
    intros H. injection H as <- <-. exists l. split; [reflexivity | exact Hl].
Qed.

Lemma extend_line_increasing (lines : list Line) (c : LineBuilder.Component)
  (i : nat) (l : Line) :
  Forall (fun l => increasing_columns l = true) lines ->
  nth_error lines i = Some l ->
  increasing_columns (l ++ c) = true ->
  Forall (fun l => increasing_columns l = true)
    (LineBuilder.extend_line i lines c).
Proof.
  revert i. induction lines as [| l0 rest IH]; intros i Hall Hi Hlc.
  - destruct i; discriminate Hi.
  - inversion Hall as [| ? ? H0 Hrest]; subst. destruct i as [| i]; simpl.
    + simpl in Hi. injection Hi as ->. constructor; assumption.
    + constructor; [exact H0 | apply IH; assumption].
Qed.

Lemma attach_increasing (lines : list Line) (c : LineBuilder.Component) :
  Forall (fun l => increasing_columns l = true) lines ->
  increasing_columns c = true ->
  Forall (fun l => increasing_columns l = true)
    (LineBuilder.attach within_tolerance staff_line_height staff_space_height
       lines c).
Proof.
  intros Hall Hc. unfold LineBuilder.attach.
  destruct (LineBuilder.best_line within_tolerance staff_line_height
              staff_space_height lines c) as [[i sc] |] eqn:Hb.
  - destruct (best_line_eligible _ _ Hb) as [l [Hi He]].
    eapply extend_line_increasing; [exact Hall | exact Hi |].
    apply increasing_columns_app; [| exact Hc |].
    + rewrite Forall_forall in Hall. apply Hall.
      eapply nth_error_In. exact Hi.
    + eapply eligible_to_the_right. exact He.
  - apply Forall_app. split; [exact Hall |].
    constructor; [exact Hc | constructor].
Qed.

Lemma fold_attach_increasing (ccs : list LineBuilder.Component)
  (lines : list Line) :
  Forall (fun l => increasing_columns l = true) lines ->
  Forall (fun c => increasing_columns c = true) ccs ->
  Forall (fun l => increasing_columns l = true)
    (fold_left
       (LineBuilder.attach within_tolerance staff_line_height
          staff_space_height)
       ccs lines).
Proof.
  revert lines. induction ccs as [| c ccs IH]; intros lines Hl Hc; simpl.
  - exact Hl.
  - inversion Hc; subst. apply IH; [| assumption].
    apply attach_increasing; assumption.
Qed.

End LineBuilderProperties.

(** Two runs on one row, the second beginning [gap] columns from the end of
    the first. *)
Lemma runs_at_gap_are_linked (within_tolerance : Z -> Z -> bool)
  (staff_line_height staff_space_height gap : Z) :
  0 <= staff_line_height ->
  within_tolerance staff_space_height gap = true ->
  LineBuilder.connect_connected_components_to_line within_tolerance
    [ [(0, 0); (0, 1 - gap)]; [(0, 1); (0, 2 - gap)] ]
    staff_line_height staff_space_height
  = Some [ [(0, 0); (0, 1 - gap); (0, 1); (0, 2 - gap)] ].
Proof.
  intros Hslh Hgap.
  unfold LineBuilder.connect_connected_components_to_line,
    LineBuilder.in_column_order.
  cbn [fold_right LineBuilder.insert_by_column].
  change (LineBuilder.start_column [(0, 0); (0, 1 - gap)]
          <=? LineBuilder.start_column [(0, 1); (0, 2 - gap)]) with true.
  cbv iota. cbn [fold_left].
  change (LineBuilder.attach within_tolerance staff_line_height
            staff_space_height [] [(0, 0); (0, 1 - gap)])
    with [ [(0, 0); (0, 1 - gap)] ].
  unfold LineBuilder.attach, LineBuilder.best_line, LineBuilder.eligible,
    LineBuilder.reach.
  change (last_item [(0, 0); (0, 1 - gap)]) with (Some (0, 1 - gap)).
  change (first_item [(0, 1); (0, 2 - gap)]) with (Some (0, 1)).
  cbn [row column fst snd option_map].
  replace (Z.abs (0 - 0)) with 0 by reflexivity.
  replace (1 - (1 - gap)) with gap by lia.
  rewrite (proj2 (Z.leb_le _ _) Hslh), Hgap.
  reflexivity.
Qed.




(** * Further properties of the two files *)

(** ** The comprehension of line 122 *)

Lemma span_none_iff (l : Line) : span l = None <-> l = [].
Proof.
  unfold span. split.
  - destruct l as [| p l]; [reflexivity |].
    rewrite last_item_cons. simpl. destruct (last_item l); discriminate.
  - intros ->. reflexivity.
Qed.

Lemma length_filter_trace (line_list : list Line) :
  trace (length_filter line_list) = [].
Proof.
  induction line_list as [| l rest IH]; simpl; [reflexivity |].
  destruct (span l); [| reflexivity].
  rewrite trace_bind, IH. simpl.
  destruct (outcome (length_filter rest)); reflexivity.
Qed.

(** X1: when every line has a point, the comprehension of line 122 returns
    exactly the lines whose span exceeds 50, in their order, and logs
    nothing. *)
Theorem length_filter_keeps_spans_above_50 :
  forall line_list : list Line,
    (forall l, In l line_list -> l <> []) ->
    length_filter line_list = ret (filter exceeds_floor line_list).
Proof.
  intros line_list Hne.
  assert (Hout : outcome (length_filter line_list)
                 = Ok (filter exceeds_floor line_list)).
  { induction line_list as [| l rest IH]; simpl; [reflexivity |].
    destruct (span l) as [w |] eqn:Hw.
    - rewrite outcome_bind, IH by (intros l' Hl'; apply Hne; right; exact Hl').
      replace (exceeds_floor l) with (50 <? w)
        by (unfold exceeds_floor; rewrite Hw; reflexivity).
      reflexivity.
    - apply span_none_iff in Hw. exfalso. apply (Hne l); [left |]; auto. }
  pose proof (length_filter_trace line_list) as Ht.
  destruct (length_filter line_list) as [t r]. simpl in *. subst.
  reflexivity.
Qed.

(** Of the three stand-in lines only the one of span 200 is kept; the line
    of span exactly 50 is not. *)
Lemma length_filter_keeps_spans_above_50_witness :
  length_filter StandIn.page = ret [StandIn.hline 10 0 200].
Proof.
  apply (length_filter_keeps_spans_above_50 StandIn.page).
  intros l Hl. simpl in Hl.
  repeat (destruct Hl as [<- | Hl]; [discriminate |]). contradiction.
Defined.

Lemma length_filter_raises_index_error (line_list : list Line) (e : Exn) :
  outcome (length_filter line_list) = Raise e -> e = IndexError.
Proof.
  induction line_list as [| l rest IH]; simpl; [discriminate |].
  destruct (span l); [| intros H; injection H as <-; reflexivity].
  rewrite outcome_bind.
  destruct (outcome (length_filter rest)) as [kept | e'];
    [discriminate |].
  intros H. injection H as <-. apply IH. reflexivity.
Qed.

(** X2: the comprehension of line 122 raises exactly when some line has no
    point; the exception is [IndexError], and nothing is returned for the
    other lines. *)
Theorem length_filter_raises_iff_empty_line :
  forall line_list : list Line,
    (In [] line_list <-> outcome (length_filter line_list) = Raise IndexError)
    /\ (forall e, outcome (length_filter line_list) = Raise e ->
                  e = IndexError).
Proof.
  intros line_list.
  induction line_list as [| l rest [[IH1 IH2] IH3]]; simpl.
  - split; [split; [contradiction | discriminate] | discriminate].
  - destruct (span l) as [w |] eqn:Hw.
    + assert (Hl : l <> []).
      { intros ->. discriminate Hw. }
      rewrite outcome_bind. split; [split |].
      * intros [H | H]; [congruence |]. rewrite (IH1 H). reflexivity.
      * destruct (outcome (length_filter rest)) as [kept | e];
          [discriminate |].
        intros H. right. apply IH2.
        injection H as ->. reflexivity.
      * intros e. destruct (outcome (length_filter rest)) as [kept | e'];
          [discriminate |].
        intros H. injection H as <-. apply IH3. reflexivity.
    + apply span_none_iff in Hw. subst l. simpl.
      split; [split; auto | intros e H; injection H as <-; reflexivity].
Qed.

(** A list with an empty line between two long ones raises. *)
Lemma length_filter_raises_iff_empty_line_witness :
  outcome (length_filter [StandIn.hline 10 0 200; []; StandIn.hline 30 0 90])
  = Raise IndexError.
Proof.
  apply (proj1 (proj1 (length_filter_raises_iff_empty_line
                         [StandIn.hline 10 0 200; [];
                          StandIn.hline 30 0 90]))).
  simpl. auto.
Defined.

(** ** What [prune_small_lines] is given *)

Lemma bind_ext_ok {A B} (m : M A) (k k' : A -> M B) :
  (forall a, outcome m = Ok a -> k a = k' a) -> bind m k = bind m k'.
Proof.
  intros H. destruct m as [t [a | e]]; simpl; [| reflexivity].
  rewrite (H a eq_refl). reflexivity.
Qed.

(** X3: [detect_staff_lines] hands to [prune_small_lines] only lists whose
    lines all span more than 50 columns: two detectors with the same line
    builder whose [prune_small_lines] agree on such lists compute the same
    candidate lines, whatever they do on other lists. *)
Theorem prune_small_lines_is_given_long_lines :
  forall (ndarray CC : Type) (env : Imports ndarray CC)
         (self self' : LineDetector ndarray CC) (d : ImageData ndarray),
    (forall cc slh ssh,
       connect_connected_components_to_line self cc slh ssh
       = connect_connected_components_to_line self' cc slh ssh) ->
    (forall ls ssh,
       Forall long_line ls ->
       prune_small_lines self ls ssh = prune_small_lines self' ls ssh) ->
    candidate_lines env self d = candidate_lines env self' d.
Proof.
  intros ndarray CC env self self' d Hconnect Hprune.
  unfold candidate_lines.
  apply bind_ext. intros cc. apply bind_ext. intros cc'.
  rewrite Hconnect. apply bind_ext. intros ls.
  apply bind_ext_ok. intros kept Hkept.
  apply length_filter_ok in Hkept. destruct Hkept as [Hlong _].
  rewrite (Hprune kept _ Hlong). reflexivity.
Qed.

(** A detector that drops every list with a short line computes the same
    candidate lines as the stand-in one. *)
Lemma prune_small_lines_is_given_long_lines_witness :
  candidate_lines StandIn.env StandIn.self StandIn.page_data
  = candidate_lines StandIn.env
      {| connect_connected_components_to_line := fun cc _ _ => Some cc;
         prune_small_lines :=
           fun ls _ => if forallb exceeds_floor ls then Some ls else Some [];
         organize_lines_in_systems := fun _ _ _ => None;
         prune_lines_in_system_with_lowest_intensity := fun s _ => Some s;
         normalize_lines_in_system := fun s _ _ => Some s;
         postprocess_staff_systems := fun s _ _ => Some s;
         smooth_lines := fun s _ => Some s;
         smooth_lines_advanced := fun s _ => Some s |}
      StandIn.page_data.
Proof.
  apply prune_small_lines_is_given_long_lines.
  - intros cc slh ssh. reflexivity.
  - intros ls ssh Hlong. simpl.
    replace (forallb exceeds_floor ls) with true; [reflexivity |].
    symmetry. apply forallb_forall. intros l Hl.
    rewrite Forall_forall in Hlong. destruct (Hlong l Hl) as [w [Hw Hlt]].
    unfold exceeds_floor. rewrite Hw. apply Z.ltb_lt. exact Hlt.
Defined.

(** ** The order of the stages *)

(** X4: the stages entered by a run of [detect_staff_lines] are, in order,
    an initial part of the plan of its settings; a run that returns has
    entered the whole plan; every run starts with
    [extract_connected_components]. *)
Theorem stages_are_entered_in_plan_order :
  forall (ndarray CC : Type) (env : Imports ndarray CC)
         (self : LineDetector ndarray CC) (settings : Settings.t)
         (d : ImageData ndarray),
    (exists rest,
       stage_plan settings
       = stages_of (trace (detect_staff_lines env self settings d)) ++ rest)
    /\ (forall r,
          outcome (detect_staff_lines env self settings d) = Ok r ->
          stages_of (trace (detect_staff_lines env self settings d))
          = stage_plan settings)
    /\ hd_error (stages_of (trace (detect_staff_lines env self settings d)))
       = Some ExtractCC.
Proof.
  intros ndarray CC env self settings d.
  destruct (detect_staff_lines_follows env self settings d) as [P F].
  split; [exact P | split; [exact F |]].
  unfold detect_staff_lines, candidate_lines.
  rewrite !trace_bind. reflexivity.
Qed.

(** The stand-in run returns, so it has entered the six stages of its
    plan. *)
Lemma stages_are_entered_in_plan_order_witness :
  stages_of (trace (detect_staff_lines StandIn.env StandIn.self
                      StandIn.settings StandIn.page_data))
  = stage_plan StandIn.settings.
Proof.
  apply (proj1 (proj2 (stages_are_entered_in_plan_order StandIn.env
                         StandIn.self StandIn.settings StandIn.page_data))
           [[StandIn.hline 10 0 200]]).
  reflexivity.
Defined.

(** ** The exceptions of a run *)

Lemma bind_raise_inv {A B} (m : M A) (k : A -> M B) (e : Exn) :
  outcome (bind m k) = Raise e ->
  (outcome m = Raise e /\ trace (bind m k) = trace m)
  \/ (exists a,
        outcome m = Ok a /\ outcome (k a) = Raise e
        /\ trace (bind m k) = trace m ++ trace (k a)).
Proof.
  rewrite outcome_bind, trace_bind.
  destruct (outcome m) as [a | e'].
  - intros H. right. exists a. repeat split; [exact H].
  - intros H. left. rewrite app_nil_r. injection H as <-.
    split; reflexivity.
Qed.

Lemma raises_only_ret {A} (Q : Exn -> Prop) (a : A) : raises_only Q (ret a).
Proof. intros e H. discriminate H. Qed.

Lemma raises_only_raise {A} (Q : Exn -> Prop) (e : Exn) :
  Q e -> raises_only Q (@raise A e).
Proof. intros HQ e' H. injection H as <-. exact HQ. Qed.

Lemma raises_only_enter {A} (Q : Exn -> Prop) (s : Stage) (o : option A) :
  Q (StageError s) -> raises_only Q (enter s o).
Proof.
  intros HQ e H. destruct o; [discriminate H |].
  injection H as <-. exact HQ.
Qed.

Lemma raises_only_use {A} (Q : Exn -> Prop) (c : Collaborator)
  (o : option A) :
  Q (CollaboratorError c) -> raises_only Q (use c o).
Proof.
  intros HQ e H. destruct o; [discriminate H |].
  injection H as <-. exact HQ.
Qed.

Lemma raises_only_bind {A B} (Q : Exn -> Prop) (m : M A) (k : A -> M B) :
  raises_only Q m -> (forall a, raises_only Q (k a)) ->
  raises_only Q (bind m k).
Proof.
  intros Hm Hk e H. apply bind_raise_inv in H.
  destruct H as [[H _] | [a [_ [H _]]]]; [exact (Hm e H) | exact (Hk a e H)].
Qed.

Lemma raises_only_length_filter (Q : Exn -> Prop) (ls : list Line) :
  Q IndexError -> raises_only Q (length_filter ls).
Proof.
  intros HQ e H.
  rewrite (length_filter_raises_index_error ls H).
  exact HQ.
Qed.

Lemma raises_only_for_each {A} (Q : Exn -> Prop) (xs : list A)
  (body : A -> M unit) :
  (forall x, raises_only Q (body x)) -> raises_only Q (for_each xs body).
Proof.
  intros Hb. induction xs as [| x xs IH]; simpl.
  - apply raises_only_ret.
  - apply raises_only_bind; [apply Hb | intros _; exact IH].
Qed.

Lemma raises_only_unzip_staff (Q : Exn -> Prop) (staff : Line) :
  Q ValueError -> raises_only Q (unzip_staff staff).
Proof.
  intros HQ. destruct staff; [apply raises_only_raise; exact HQ |].
  apply raises_only_ret.
Qed.

(** Takes a computation built from the stage calls apart. *)
Ltac raises_only_steps :=
  repeat first
    [ apply raises_only_ret
    | apply raises_only_bind; [| intros ?]
    | apply raises_only_enter
    | apply raises_only_use
    | apply raises_only_length_filter
    | apply raises_only_unzip_staff
    | apply raises_only_for_each; intros ?
    | match goal with
      | |- raises_only _ (if ?b then _ else _) => destruct b eqn:?
      end ].

Lemma stage_error_is_last_ret {A} (a : A) : stage_error_is_last (ret a).
Proof. intros s H. discriminate H. Qed.

Lemma stage_error_is_last_enter {A} (s : Stage) (o : option A) :
  stage_error_is_last (enter s o).
Proof.
  intros s' H. destruct o; [discriminate H |]. injection H as <-.
  exists []. reflexivity.
Qed.

Lemma stage_error_is_last_other {A} (m : M A) :
  raises_only (fun e => forall s, e <> StageError s) m ->
  stage_error_is_last m.
Proof. intros Hm s H. exfalso. exact (Hm _ H s eq_refl). Qed.

Lemma stage_error_is_last_bind {A B} (m : M A) (k : A -> M B) :
  stage_error_is_last m -> (forall a, stage_error_is_last (k a)) ->
  stage_error_is_last (bind m k).
Proof.
  intros Hm Hk s H. apply bind_raise_inv in H.
  destruct H as [[H ->] | [a [_ [H ->]]]]; [exact (Hm s H) |].
  destruct (Hk a s H) as [before E]. rewrite stages_of_app, E.
  exists (stages_of (trace m) ++ before). rewrite app_assoc. reflexivity.
Qed.

Ltac stage_error_steps :=
  repeat first
    [ apply stage_error_is_last_ret
    | apply stage_error_is_last_enter
    | apply stage_error_is_last_bind; [| intros ?]
    | match goal with
      | |- stage_error_is_last (if ?b then _ else _) => destruct b
      end ].

Section Exceptions.

Context {ndarray CC : Type}.
Variable env : Imports ndarray CC.
Variable self : LineDetector ndarray CC.
Variable settings : Settings.t.

Lemma debug_plot_no_stage_error (d : ImageData ndarray) (sl : StaffList) :
  raises_only (fun e => forall s, e <> StageError s)
    (debug_plot env settings d sl).
Proof.
  unfold debug_plot. raises_only_steps; intros; discriminate.
Qed.

Lemma detect_staff_lines_stage_error (d : ImageData ndarray) :
  stage_error_is_last (detect_staff_lines env self settings d).
Proof.
  unfold detect_staff_lines, candidate_lines, group_in_systems,
    post_processing, smoothing, fitting.
  cbv zeta.
  stage_error_steps;
    try (apply stage_error_is_last_other;
         first [ apply debug_plot_no_stage_error
               | raises_only_steps; intros; discriminate ]).
Qed.

Lemma detect_staff_lines_possible (d : ImageData ndarray) :
  raises_only (possible_exception settings)
    (detect_staff_lines env self settings d).
Proof.
  unfold detect_staff_lines, candidate_lines, group_in_systems,
    post_processing, smoothing, fitting, debug_plot.
  cbv zeta.
  raises_only_steps; simpl; auto.
Qed.

End Exceptions.

Lemma bind_raise_after {A B} (Q : Exn -> Prop) (m : M A) (k : A -> M B)
  (e : Exn) :
  raises_only Q m -> ~ Q e -> outcome (bind m k) = Raise e ->
  exists a,
    outcome m = Ok a /\ outcome (k a) = Raise e
    /\ trace (bind m k) = trace m ++ trace (k a).
Proof.
  intros Hm Hne H. apply bind_raise_inv in H.
  destruct H as [[H _] | H]; [| exact H].
  exfalso. exact (Hne (Hm e H)).
Qed.

Lemma follows_nil_stages {A} (m : M A) :
  follows m [] -> stages_of (trace m) = [].
Proof.
  intros [[rest P] _]. symmetry in P. apply app_eq_nil in P. tauto.
Qed.

Section ExceptionTraces.

Context {ndarray CC : Type}.
Variable env : Imports ndarray CC.
Variable self : LineDetector ndarray CC.
Variable settings : Settings.t.

Lemma candidate_lines_index_error (d : ImageData ndarray) :
  outcome (candidate_lines env self d) = Raise IndexError ->
  stages_of (trace (candidate_lines env self d))
  = [ExtractCC; NormalizeCC; ConnectCC].
Proof.
  unfold candidate_lines. cbv zeta. intros H.
  apply (bind_raise_after (Q := fun e => e <> IndexError)) in H;
    [| apply raises_only_enter; discriminate | intros C; apply C; reflexivity].
  destruct H as [cc [_ [H ->]]].
  apply (bind_raise_after (Q := fun e => e <> IndexError)) in H;
    [| apply raises_only_enter; discriminate | intros C; apply C; reflexivity].
  destruct H as [cc' [_ [H ->]]].
  apply (bind_raise_after (Q := fun e => e <> IndexError)) in H;
    [| apply raises_only_enter; discriminate | intros C; apply C; reflexivity].
  destruct H as [ls [_ [H ->]]].
  apply bind_raise_inv in H. destruct H as [[_ ->] | [kept [_ [H _]]]].
  - rewrite length_filter_trace. reflexivity.
  - exfalso. destruct (prune_small_lines self kept _); discriminate H.
Qed.

Lemma later_stages_no_index_error (d : ImageData ndarray)
  (line_list : list Line) :
  raises_only (fun e => e <> IndexError)
    (staff_list <- group_in_systems self settings d line_list ;;
     staff_list <- post_processing env self settings d staff_list ;;
     staff_list <- smoothing self settings staff_list ;;
     staff_list <- fitting env settings staff_list ;;
     debug_plot env settings d staff_list ;;;
     ret staff_list).
Proof.
  unfold group_in_systems, post_processing, smoothing, fitting, debug_plot.
  cbv zeta. raises_only_steps; discriminate.
Qed.

Lemma detect_staff_lines_index_error (d : ImageData ndarray) :
  outcome (detect_staff_lines env self settings d) = Raise IndexError ->
  stages_of (trace (detect_staff_lines env self settings d))
  = [ExtractCC; NormalizeCC; ConnectCC].
Proof.
  unfold detect_staff_lines. intros H. apply bind_raise_inv in H.
  destruct H as [[H ->] | [ls [_ [H _]]]].
  - apply candidate_lines_index_error. exact H.
  - exfalso. exact (later_stages_no_index_error d ls H eq_refl).
Qed.

Lemma candidate_lines_no_value_error (d : ImageData ndarray) :
  raises_only (fun e => e <> ValueError) (candidate_lines env self d).
Proof.
  unfold candidate_lines. cbv zeta. raises_only_steps; discriminate.
Qed.

Lemma group_in_systems_no_value_error (d : ImageData ndarray)
  (ls : list Line) :
  raises_only (fun e => e <> ValueError)
    (group_in_systems self settings d ls).
Proof.
  unfold group_in_systems. cbv zeta. raises_only_steps; discriminate.
Qed.

Lemma post_processing_no_value_error (d : ImageData ndarray)
  (sl : StaffList) :
  raises_only (fun e => e <> ValueError)
    (post_processing env self settings d sl).
Proof.
  unfold post_processing. cbv zeta. raises_only_steps; discriminate.
Qed.

Lemma smoothing_no_value_error (sl : StaffList) :
  raises_only (fun e => e <> ValueError) (smoothing self settings sl).
Proof. unfold smoothing. raises_only_steps; discriminate. Qed.

Lemma fitting_no_value_error (sl : StaffList) :
  raises_only (fun e => e <> ValueError) (fitting env settings sl).
Proof. unfold fitting. raises_only_steps; discriminate. Qed.

Lemma detect_staff_lines_value_error (d : ImageData ndarray) :
  outcome (detect_staff_lines env self settings d) = Raise ValueError ->
  stages_of (trace (detect_staff_lines env self settings d))
  = stage_plan settings.
Proof.
  unfold detect_staff_lines. intros H.
  apply (bind_raise_after (Q := fun e => e <> ValueError)) in H;
    [| apply candidate_lines_no_value_error
     | intros C; apply C; reflexivity].
  destruct H as [ls [H0 [H ->]]].
  apply (bind_raise_after (Q := fun e => e <> ValueError)) in H;
    [| apply group_in_systems_no_value_error
     | intros C; apply C; reflexivity].
  destruct H as [sl0 [H1 [H ->]]].
  apply (bind_raise_after (Q := fun e => e <> ValueError)) in H;
    [| apply post_processing_no_value_error
     | intros C; apply C; reflexivity].
  destruct H as [sl1 [H2 [H ->]]].
  apply (bind_raise_after (Q := fun e => e <> ValueError)) in H;
    [| apply smoothing_no_value_error | intros C; apply C; reflexivity].
  destruct H as [sl2 [H3 [H ->]]].
  apply (bind_raise_after (Q := fun e => e <> ValueError)) in H;
    [| apply fitting_no_value_error | intros C; apply C; reflexivity].
  destruct H as [sl3 [H4 [H ->]]].
  apply bind_raise_inv in H.
  destruct H as [[_ ->] | [u [_ [H _]]]]; [| discriminate H].
  rewrite !stages_of_app.
  rewrite (proj2 (candidate_lines_follows env self d) _ H0).
  rewrite (proj2 (group_in_systems_follows self settings d ls) _ H1).
  rewrite (proj2 (post_processing_follows env self settings d sl0) _ H2).
  rewrite (proj2 (smoothing_follows self settings sl1) _ H3).
  rewrite (proj2 (fitting_follows env settings sl2) _ H4).
  rewrite (follows_nil_stages (debug_plot_follows env settings d sl3)).
  rewrite app_nil_r. reflexivity.
Qed.

End ExceptionTraces.

(** X5: when a run of [detect_staff_lines] raises, the exception is an
    [IndexError] of the length filter, raised after the first three stages;
    or a [ValueError] of the debug plot, raised after all planned stages
    and only with [debug] on; or the error of the stage entered last; or an
    error of [binarize], and then [post_process] or [debug] is on. *)
Theorem exceptions_of_a_run :
  forall (ndarray CC : Type) (env : Imports ndarray CC)
         (self : LineDetector ndarray CC) (settings : Settings.t)
         (d : ImageData ndarray) (e : Exn),
    outcome (detect_staff_lines env self settings d) = Raise e ->
    possible_exception settings e
    /\ (e = IndexError ->
        stages_of (trace (detect_staff_lines env self settings d))
        = [ExtractCC; NormalizeCC; ConnectCC])
    /\ (e = ValueError ->
        stages_of (trace (detect_staff_lines env self settings d))
        = stage_plan settings)
    /\ (forall s,
          e = StageError s ->
          exists before,
            stages_of (trace (detect_staff_lines env self settings d))
            = before ++ [s]).
Proof.
  intros ndarray CC env self settings d e H.
  split; [exact (detect_staff_lines_possible env self settings d H) |].
  split; [| split].
  - intros ->. apply detect_staff_lines_index_error. exact H.
  - intros ->. apply detect_staff_lines_value_error. exact H.
  - intros s ->. exact (detect_staff_lines_stage_error env self settings d H).
Qed.

(** With an organizer that raises, the organizer is the last stage
    entered. *)
Lemma exceptions_of_a_run_witness :
  exists before,
    stages_of (trace (detect_staff_lines StandIn.env failing_organizer
                        StandIn.settings StandIn.page_data))
    = before ++ [OrganizeLines].
Proof.
  apply (proj2 (proj2 (proj2
           (@exceptions_of_a_run _ _ StandIn.env failing_organizer
              StandIn.settings StandIn.page_data
              (StageError OrganizeLines) eq_refl)))).
  reflexivity.
Defined.

(** ** Calls of [binarize] *)

Section Logs.

Context {X : Type}.
Variable proj : list Event -> list X.
Hypothesis proj_nil : proj [] = [].
Hypothesis proj_app : forall t t', proj (t ++ t') = proj t ++ proj t'.

Lemma logs_ret {A} (a : A) : logs proj (ret a) [].
Proof.
  split; [exists []; simpl; rewrite proj_nil; reflexivity |].
  intros a' _. exact proj_nil.
Qed.

Lemma logs_raise {A} (e : Exn) : logs proj (@raise A e) [].
Proof.
  split; [exists []; simpl; rewrite proj_nil; reflexivity |].
  intros a' _. exact proj_nil.
Qed.

Lemma logs_bind {A B} (m : M A) (k : A -> M B) (e1 e2 : list X) :
  logs proj m e1 -> (forall a, logs proj (k a) e2) ->
  logs proj (bind m k) (e1 ++ e2).
Proof.
  intros [[r1 P1] F1] Hk. split.
  - rewrite trace_bind, proj_app.
    destruct (outcome m) as [a | e] eqn:Hm.
    + destruct (Hk a) as [[r2 P2] _]. exists r2.
      rewrite (F1 a eq_refl), P2, app_assoc. reflexivity.
    + exists (r1 ++ e2). rewrite proj_nil, app_nil_r, P1, app_assoc.
      reflexivity.
  - intros b Hb. apply outcome_bind_ok in Hb. destruct Hb as [a [Ha Hb]].
    rewrite trace_bind, proj_app, Ha, (F1 a Ha).
    destruct (Hk a) as [_ F2]. rewrite (F2 b Hb). reflexivity.
Qed.

Lemma logs_nil_bind {A B} (m : M A) (k : A -> M B) (e : list X) :
  logs proj m [] -> (forall a, logs proj (k a) e) -> logs proj (bind m k) e.
Proof. intros Hm Hk. exact (@logs_bind _ _ m k [] e Hm Hk). Qed.

Lemma logs_length_filter (ls : list Line) : logs proj (length_filter ls) [].
Proof.
  split.
  - exists []. rewrite length_filter_trace, proj_nil. reflexivity.
  - intros a _. rewrite length_filter_trace. exact proj_nil.
Qed.

Lemma logs_for_each {A} (xs : list A) (body : A -> M unit) :
  (forall x, logs proj (body x) []) -> logs proj (for_each xs body) [].
Proof.
  intros Hb. induction xs as [| x xs IH]; simpl.
  - apply logs_ret.
  - apply logs_nil_bind; [apply Hb | intros; exact IH].
Qed.

End Logs.

Lemma collaborators_enter {A} (s : Stage) (o : option A) :
  logs collaborators_of (enter s o) [].
Proof. split; [exists []; reflexivity | reflexivity]. Qed.

Lemma collaborators_use {A} (c : Collaborator) (o : option A) :
  logs collaborators_of (use c o) [c].
Proof. split; [exists []; reflexivity | reflexivity]. Qed.

Lemma collaborators_ret {A} (a : A) : logs collaborators_of (ret a) [].
Proof. apply logs_ret. reflexivity. Qed.

Lemma collaborators_raise {A} (e : Exn) :
  logs collaborators_of (@raise A e) [].
Proof. apply logs_raise. reflexivity. Qed.

Lemma collaborators_bind {A B} (m : M A) (k : A -> M B)
  (e1 e2 : list Collaborator) :
  logs collaborators_of m e1 ->
  (forall a, logs collaborators_of (k a) e2) ->
  logs collaborators_of (bind m k) (e1 ++ e2).
Proof.
  apply logs_bind; [reflexivity | exact collaborators_of_app].
Qed.

Lemma collaborators_nil_bind {A B} (m : M A) (k : A -> M B)
  (e : list Collaborator) :
  logs collaborators_of m [] ->
  (forall a, logs collaborators_of (k a) e) ->
  logs collaborators_of (bind m k) e.
Proof.
  apply logs_nil_bind; [reflexivity | exact collaborators_of_app].
Qed.

Lemma collaborators_length_filter (ls : list Line) :
  logs collaborators_of (length_filter ls) [].
Proof. apply logs_length_filter. reflexivity. Qed.

Lemma collaborators_for_each {A} (xs : list A) (body : A -> M unit) :
  (forall x, logs collaborators_of (body x) []) ->
  logs collaborators_of (for_each xs body) [].
Proof.
  apply logs_for_each; [reflexivity | exact collaborators_of_app].
Qed.

(** Takes a computation apart, one call or branch at a time. *)
Ltac collaborators_steps :=
  repeat first
    [ apply collaborators_ret
    | apply collaborators_raise
    | apply collaborators_enter
    | apply collaborators_length_filter
    | apply collaborators_for_each; intros ?
    | apply collaborators_nil_bind; [| intros ?]
    | match goal with
      | |- logs _ (if ?b then _ else _) _ => destruct b
      | |- logs _ (unzip_staff ?s) _ => destruct s
      end ].

Section BinarizeCalls.

Context {ndarray CC : Type}.
Variable env : Imports ndarray CC.
Variable self : LineDetector ndarray CC.
Variable settings : Settings.t.

Lemma candidate_lines_collaborators (d : ImageData ndarray) :
  logs collaborators_of (candidate_lines env self d) [].
Proof. unfold candidate_lines. cbv zeta. collaborators_steps. Qed.

Lemma group_in_systems_collaborators (d : ImageData ndarray)
  (ls : list Line) :
  logs collaborators_of (group_in_systems self settings d ls) [].
Proof. unfold group_in_systems. cbv zeta. collaborators_steps. Qed.

Lemma post_processing_collaborators (d : ImageData ndarray)
  (sl : StaffList) :
  logs collaborators_of (post_processing env self settings d sl)
    (if Settings.post_process settings then [Binarize] else []).
Proof.
  unfold post_processing. cbv zeta.
  destruct (Settings.post_process settings); [| collaborators_steps].
  apply (@collaborators_bind _ _ _ _ [Binarize] []);
    [apply collaborators_use | intros binary].
  collaborators_steps.
Qed.

Lemma smoothing_collaborators (sl : StaffList) :
  logs collaborators_of (smoothing self settings sl) [].
Proof. unfold smoothing. collaborators_steps. Qed.

Lemma fitting_collaborators (sl : StaffList) :
  logs collaborators_of (fitting env settings sl) [].
Proof. unfold fitting. collaborators_steps. Qed.

Lemma debug_plot_collaborators (d : ImageData ndarray) (sl : StaffList) :
  logs collaborators_of (debug_plot env settings d sl)
    (if Settings.debug settings then [Binarize] else []).
Proof.
  unfold debug_plot.
  destruct (Settings.debug settings); [| collaborators_steps].
  apply (@collaborators_bind _ _ _ _ [Binarize] []);
    [apply collaborators_use | intros _].
  collaborators_steps.
Qed.

Lemma detect_staff_lines_collaborators (d : ImageData ndarray) :
  logs collaborators_of (detect_staff_lines env self settings d)
    (binarize_plan settings).
Proof.
  unfold detect_staff_lines, binarize_plan.
  apply collaborators_nil_bind;
    [apply candidate_lines_collaborators | intros ls].
  apply collaborators_nil_bind;
    [apply group_in_systems_collaborators | intros sl0].
  apply collaborators_bind;
    [apply post_processing_collaborators | intros sl1].
  apply collaborators_nil_bind;
    [apply smoothing_collaborators | intros sl2].
  apply collaborators_nil_bind;
    [apply fitting_collaborators | intros sl3].
  rewrite <- (app_nil_r (if Settings.debug settings then _ else _)).
  apply collaborators_bind;
    [apply debug_plot_collaborators | intros _].
  collaborators_steps.
Qed.

End BinarizeCalls.

(** X6: the only image helper a run of [detect_staff_lines] calls is
    [binarize]: once for the post-processor if [post_process] is on and
    once for the plot if [debug] is on, in this order, so at most twice and
    not at all when both are off; a run that returns has made all of these
    calls. *)
Theorem binarize_is_the_only_helper_called :
  forall (ndarray CC : Type) (env : Imports ndarray CC)
         (self : LineDetector ndarray CC) (settings : Settings.t)
         (d : ImageData ndarray),
    (forall c,
       In c (collaborators_of
               (trace (detect_staff_lines env self settings d))) ->
       c = Binarize)
    /\ (List.length
          (collaborators_of (trace (detect_staff_lines env self settings d)))
        <= 2)%nat
    /\ (Settings.post_process settings = false ->
        Settings.debug settings = false ->
        collaborators_of (trace (detect_staff_lines env self settings d))
        = [])
    /\ (forall r,
          outcome (detect_staff_lines env self settings d) = Ok r ->
          collaborators_of (trace (detect_staff_lines env self settings d))
          = binarize_plan settings).
Proof.
  intros ndarray CC env self settings d.
  destruct (detect_staff_lines_collaborators env self settings d)
    as [[rest P] F].
  assert (Hplan : forall c, In c (binarize_plan settings) -> c = Binarize).
  { unfold binarize_plan.
    destruct (Settings.post_process settings), (Settings.debug settings);
      simpl; intuition congruence. }
  assert (Hlen : (List.length (binarize_plan settings) <= 2)%nat).
  { unfold binarize_plan.
    destruct (Settings.post_process settings), (Settings.debug settings);
      simpl; lia. }
  split; [| split; [| split]].
  - intros c Hc. apply Hplan. rewrite P. apply in_or_app. left. exact Hc.
  - rewrite P, length_app in Hlen. lia.
  - intros Hp Hd. unfold binarize_plan in P. rewrite Hp, Hd in P.
    symmetry in P. apply app_eq_nil in P. tauto.
  - exact F.
Qed.

(** With post-processing and the debug plot on, the stand-in run calls
    [binarize] twice. *)
Lemma binarize_is_the_only_helper_called_witness :
  collaborators_of
    (trace (detect_staff_lines StandIn.env StandIn.self full_settings
              StandIn.page_data))
  = [Binarize; Binarize].
Proof.
  apply (proj2 (proj2 (proj2 (binarize_is_the_only_helper_called
                                StandIn.env StandIn.self full_settings
                                StandIn.page_data)))
           [[StandIn.hline 10 0 200]]).
  reflexivity.
Defined.

(** ** The debug plot *)

Lemma adds_only_failures_bind {A B} (m : M A) (k k' : A -> M B) :
  (forall a, adds_only_failures (k a) (k' a)) ->
  adds_only_failures (bind m k) (bind m k').
Proof.
  intros Hk. unfold adds_only_failures.
  rewrite !outcome_bind, !trace_bind, !stages_of_app.
  destruct (outcome m) as [a | e].
  - destruct (Hk a) as [H1 [H2 H3]]. rewrite H3. auto.
  - repeat split; auto; discriminate.
Qed.

Lemma debug_plot_enters_no_stage {ndarray CC : Type}
  (env : Imports ndarray CC) (settings : Settings.t)
  (d : ImageData ndarray) (sl : StaffList) :
  stages_of (trace (debug_plot env settings d sl)) = [].
Proof. apply follows_nil_stages, debug_plot_follows. Qed.

(** X7: the debug plot never changes what [detect_staff_lines] returns.
    With [debug] on, a run that returns gives the staff list of the run
    with [debug] off; a run that raises with [debug] off raises the same
    with [debug] on; and both enter the same stages. *)
Theorem debug_plot_keeps_the_result :
  forall (ndarray CC : Type) (env : Imports ndarray CC)
         (self : LineDetector ndarray CC) (settings : Settings.t)
         (d : ImageData ndarray),
    (forall r,
       outcome (detect_staff_lines env self (with_debug true settings) d)
       = Ok r ->
       outcome (detect_staff_lines env self (with_debug false settings) d)
       = Ok r)
    /\ (forall e,
          outcome (detect_staff_lines env self (with_debug false settings) d)
          = Raise e ->
          outcome (detect_staff_lines env self (with_debug true settings) d)
          = Raise e)
    /\ stages_of
         (trace (detect_staff_lines env self (with_debug true settings) d))
       = stages_of
           (trace (detect_staff_lines env self (with_debug false settings)
                     d)).
Proof.
  intros ndarray CC env self settings d.
  change (adds_only_failures
            (detect_staff_lines env self (with_debug true settings) d)
            (detect_staff_lines env self (with_debug false settings) d)).
  unfold detect_staff_lines.
  apply adds_only_failures_bind. intros ls.
  change (group_in_systems self (with_debug true settings) d ls)
    with (group_in_systems self (with_debug false settings) d ls).
  apply adds_only_failures_bind. intros sl0.
  change (post_processing env self (with_debug true settings) d sl0)
    with (post_processing env self (with_debug false settings) d sl0).
  apply adds_only_failures_bind. intros sl1.
  change (smoothing self (with_debug true settings) sl1)
    with (smoothing self (with_debug false settings) sl1).
  apply adds_only_failures_bind. intros sl2.
  change (fitting env (with_debug true settings) sl2)
    with (fitting env (with_debug false settings) sl2).
  apply adds_only_failures_bind. intros sl3.
  unfold adds_only_failures.
  rewrite !outcome_bind, !trace_bind, !stages_of_app.
  rewrite !debug_plot_enters_no_stage.
  change (debug_plot env (with_debug false settings) d sl3) with (ret tt).
  simpl.
  destruct (outcome (debug_plot env (with_debug true settings) d sl3));
    repeat split; auto; discriminate.
Qed.

(** On the stand-in page the run with the plot returns the same line as
    the run without. *)
Lemma debug_plot_keeps_the_result_witness :
  outcome (detect_staff_lines StandIn.env StandIn.self
             (with_debug false StandIn.settings) StandIn.page_data)
  = Ok [[StandIn.hline 10 0 200]].
Proof.
  apply (proj1 (debug_plot_keeps_the_result StandIn.env StandIn.self
                  StandIn.settings StandIn.page_data)).
  reflexivity.
Defined.

Lemma unzip_all_ok (sl : StaffList) (u : unit) :
  outcome
    (for_each sl (fun system =>
       for_each system (fun staff => unzip_staff staff ;;; ret tt)))
  = Ok u ->
  forall system l, In system sl -> In l system -> l <> [].
Proof.
  induction sl as [| s sl IH]; simpl; intros H system l Hs Hl;
    [contradiction |].
  apply outcome_bind_ok in H. destruct H as [u1 [H1 H2]].
  destruct Hs as [<- | Hs]; [| exact (IH H2 system l Hs Hl)].
  clear IH H2. revert u1 H1 Hl.
  induction s as [| l0 s IHs]; simpl; intros u1 H1 Hl; [contradiction |].
  apply outcome_bind_ok in H1. destruct H1 as [u2 [H1 H2]].
  destruct Hl as [<- | Hl]; [| exact (IHs u1 H2 Hl)].
  intros ->. discriminate H1.
Qed.

Lemma unzip_all_value_error (sl : StaffList) :
  (exists system, In system sl /\ In [] system) ->
  outcome
    (for_each sl (fun system =>
       for_each system (fun staff => unzip_staff staff ;;; ret tt)))
  = Raise ValueError.
Proof.
  intros H.
  destruct (outcome
              (for_each sl (fun system =>
                 for_each system (fun staff => unzip_staff staff ;;; ret tt))))
    as [u | e] eqn:E.
  - exfalso. destruct H as [system [Hs Hl]].
    exact (unzip_all_ok sl E system Hs Hl eq_refl).
  - f_equal. revert E.
    apply (@raises_only_for_each _ (fun e => e = ValueError)).
    intros system. apply raises_only_for_each. intros staff.
    apply raises_only_bind; [| intros; apply raises_only_ret].
    apply raises_only_unzip_staff. reflexivity.
Qed.

(** X8: with [debug] on, every line of a staff list that
    [detect_staff_lines] returns has a point; and when [binarize] returns,
    the plot of a staff list with an empty line raises [ValueError]. *)
Theorem debug_run_returns_no_empty_line :
  forall (ndarray CC : Type) (env : Imports ndarray CC)
         (self : LineDetector ndarray CC) (settings : Settings.t)
         (d : ImageData ndarray),
    Settings.debug settings = true ->
    (forall r,
       outcome (detect_staff_lines env self settings d) = Ok r ->
       forall system l, In system r -> In l system -> l <> [])
    /\ (forall staff_list,
          binarize env (image d) <> None ->
          (exists system, In system staff_list /\ In [] system) ->
          outcome (debug_plot env settings d staff_list)
          = Raise ValueError).
Proof.
  intros ndarray CC env self settings d Hdebug. split.
  - intros r H. unfold detect_staff_lines in H.
    apply outcome_bind_ok in H. destruct H as [ls [_ H]].
    apply outcome_bind_ok in H. destruct H as [sl0 [_ H]].
    apply outcome_bind_ok in H. destruct H as [sl1 [_ H]].
    apply outcome_bind_ok in H. destruct H as [sl2 [_ H]].
    apply outcome_bind_ok in H. destruct H as [sl3 [_ H]].
    apply outcome_bind_ok in H. destruct H as [u [Hplot H]].
    simpl in H. injection H as <-.
    unfold debug_plot in Hplot. rewrite Hdebug in Hplot.
    apply outcome_bind_ok in Hplot. destruct Hplot as [binary [_ Hplot]].
    apply outcome_bind_ok in Hplot. destruct Hplot as [u1 [Hplot _]].
    exact (unzip_all_ok sl3 Hplot).
  - intros staff_list Hbin Hempty. unfold debug_plot. rewrite Hdebug.
    destruct (binarize env (image d)) as [binary |]; [| congruence].
    rewrite outcome_bind. simpl outcome at 2. cbv iota.
    rewrite outcome_bind, (unzip_all_value_error staff_list Hempty).
    reflexivity.
Qed.

(** With the plot on, a stand-in page with a line without points between
    two systems raises [ValueError]. *)
Lemma debug_run_returns_no_empty_line_witness :
  outcome (debug_plot StandIn.env debug_settings StandIn.page_data
             [[StandIn.hline 10 0 200]; [[]]])
  = Raise ValueError.
Proof.
  apply (proj2 (debug_run_returns_no_empty_line StandIn.env StandIn.self
                  debug_settings StandIn.page_data eq_refl)).
  - discriminate.
  - exists [[]]. simpl. auto.
Defined.

(** ** Smoothing modes other than 1 and 2 *)

(** X9: any value of [smooth_lines] other than 1 and 2 (not only 0) leaves
    the staff list as it is: no smoother is entered. *)
Theorem other_smoothing_modes_do_nothing :
  forall (ndarray CC : Type) (env : Imports ndarray CC)
         (self : LineDetector ndarray CC) (settings : Settings.t)
         (d : ImageData ndarray),
    Settings.smooth_lines settings <> 1 ->
    Settings.smooth_lines settings <> 2 ->
    (forall staff_list, smoothing self settings staff_list = ret staff_list)
    /\ ~ In SmoothLines
         (stages_of (trace (detect_staff_lines env self settings d)))
    /\ ~ In SmoothLinesAdvanced
         (stages_of (trace (detect_staff_lines env self settings d))).
Proof.
  intros ndarray CC env self settings d H1 H2.
  destruct (plan_smoothing settings) as [P1 P2].
  split; [| split].
  - intros staff_list. unfold smoothing.
    apply Z.eqb_neq in H1, H2. rewrite H1, H2.
    destruct (negb (Settings.smooth_lines settings =? 0)); [| reflexivity].
    apply bind_ret_l.
  - intros H. apply H1, P1. eapply entered_in_plan. exact H.
  - intros H. apply H2, P2. eapply entered_in_plan. exact H.
Qed.

(** With mode 7 the smoothing step hands the list on. *)
Lemma other_smoothing_modes_do_nothing_witness :
  smoothing StandIn.self mode_7_settings [[StandIn.hline 10 0 200]]
  = ret [[StandIn.hline 10 0 200]].
Proof.
  apply (proj1 (@other_smoothing_modes_do_nothing _ _ StandIn.env
                  StandIn.self mode_7_settings StandIn.page_data
                  ltac:(discriminate) ltac:(discriminate))).
Defined.

(** ** Iterating over [detect_basic] *)

Lemma consume_items_map {A Y} (f : A -> M Y) (xs : list A) :
  (forall k y,
     nth_error (yielded (consume_items (map f xs))) k = Some y ->
     exists x, nth_error xs k = Some x /\ outcome (f x) = Ok y)
  /\ (raised (consume_items (map f xs)) = None ->
      List.length (yielded (consume_items (map f xs))) = List.length xs)
  /\ (forall e,
        raised (consume_items (map f xs)) = Some e ->
        exists x,
          nth_error xs (List.length (yielded (consume_items (map f xs))))
          = Some x
          /\ outcome (f x) = Raise e).
Proof.
  induction xs as [| x xs [IH1 [IH2 IH3]]]; simpl.
  - split; [| split].
    + intros k y H. destruct k; discriminate H.
    + reflexivity.
    + intros e H. discriminate H.
  - destruct (f x) as [t [y0 | e0]] eqn:Hx; simpl.
    + split; [| split].
      * intros [| k] y H; simpl in *.
        -- injection H as <-. exists x. rewrite Hx. auto.
        -- exact (IH1 k y H).
      * intros H. rewrite (IH2 H). reflexivity.
      * exact IH3.
    + split; [| split].
      * intros k y H. destruct k; discriminate H.
      * discriminate.
      * intros e H. injection H as <-. exists x. rewrite Hx. auto.
Qed.

(** X10: iterating over [detect_basic]: the k-th staff list yielded is the
    result for the k-th image; when the generator is exhausted without an
    exception there is one result per image; when it raises, the exception
    is the one of the first image whose processing raises, and the results
    of the images before it have been yielded. Creating the generator does
    nothing by itself. *)
Theorem detect_basic_yields_per_image :
  forall (ndarray CC : Type) (env : Imports ndarray CC)
         (self : LineDetector ndarray CC) (settings : Settings.t)
         (images : list ndarray),
    trace (detect_basic env self settings images) = []
    /\ (forall k r,
          nth_error
            (yielded (consume (detect_basic env self settings images))) k
          = Some r ->
          exists img,
            nth_error images k = Some img
            /\ outcome (basic_item env self settings img) = Ok r)
    /\ (raised (consume (detect_basic env self settings images)) = None ->
        List.length
          (yielded (consume (detect_basic env self settings images)))
        = List.length images)
    /\ (forall e,
          raised (consume (detect_basic env self settings images)) = Some e ->
          exists img,
            nth_error images
              (List.length
                 (yielded (consume (detect_basic env self settings images))))
            = Some img
            /\ outcome (basic_item env self settings img) = Raise e).
Proof.
  intros ndarray CC env self settings images.
  split; [reflexivity |].
  exact (consume_items_map (basic_item env self settings) images).
Qed.

(** Two pages, the second one rejected by [binarize]: the result of the
    first is yielded and the generator raises on the second. *)
Lemma detect_basic_yields_per_image_witness :
  exists img,
    nth_error [StandIn.page; []] 1 = Some img
    /\ outcome (basic_item picky_env StandIn.self StandIn.settings img)
       = Raise (CollaboratorError Binarize).
Proof.
  apply (proj2 (proj2 (proj2 (detect_basic_yields_per_image picky_env
                                StandIn.self StandIn.settings
                                [StandIn.page; []])))
           (CollaboratorError Binarize)).
  reflexivity.
Defined.

(** ** [detect_advanced] *)

Section Advanced.

Context {ndarray CC : Type}.
Variable env : Imports ndarray CC.
Variable self : LineDetector ndarray CC.
Variable settings : Settings.t.
Variable predictor : list (ImageData ndarray) -> Generator ndarray.

Lemma collect_results_ok {A B} (f : A -> option B) (xs : list A)
  (results : list B) :
  collect_results (map f xs) = Some results ->
  Forall2 (fun x r => f x = Some r) xs results.
Proof.
  revert results. induction xs as [| x xs IH]; simpl; intros results H.
  - injection H as <-. constructor.
  - destruct (f x) as [r |] eqn:E; [| discriminate H].
    destruct (collect_results (map f xs)) as [rs |]; [| discriminate H].
    injection H as <-. constructor; [exact E | apply IH; reflexivity].
Qed.

Lemma collect_results_none {A B} (f : A -> option B) (xs : list A) :
  (exists x, In x xs /\ f x = None) -> collect_results (map f xs) = None.
Proof.
  intros [x [Hin Hnone]]. induction xs as [| x0 xs IH]; simpl;
    [contradiction |].
  destruct (f x0) as [r |] eqn:E; [| reflexivity].
  destruct Hin as [-> | Hin]; [congruence |].
  rewrite (IH Hin). reflexivity.
Qed.

Lemma imap_create_data_ok (images : list ndarray)
  (data : list (ImageData ndarray)) :
  outcome (imap_create_data env settings images) = Ok data ->
  Forall2
    (fun img d =>
       create_data env img (Settings.lineSpaceHeight settings) = Some d)
    images data.
Proof.
  unfold imap_create_data. simpl. intros H.
  apply collect_results_ok.
  destruct (collect_results _) as [data' |]; [| discriminate H].
  injection H as <-. reflexivity.
Qed.

Lemma imap_create_data_raises (images : list ndarray) :
  (exists img,
     In img images
     /\ create_data env img (Settings.lineSpaceHeight settings) = None) ->
  outcome (imap_create_data env settings images)
  = Raise (CollaboratorError CreateData).
Proof.
  intros H. unfold imap_create_data. simpl.
  rewrite (collect_results_none _ images H). reflexivity.
Qed.

Lemma nth_error_enumerate_from {A} (s i : nat) (xs : list A) :
  nth_error (enumerate_from s xs) i
  = option_map (fun x => ((s + i)%nat, x)) (nth_error xs i).
Proof.
  revert s i. induction xs as [| x xs IH]; intros s i; simpl.
  - destruct i; reflexivity.
  - destruct i as [| i]; simpl.
    + rewrite Nat.add_0_r. reflexivity.
    + rewrite IH. rewrite Nat.add_succ_r. reflexivity.
Qed.

Lemma advanced_item_out_of_range (data : list (ImageData ndarray))
  (i : nat) (next_pred : M ndarray) (pred : ndarray) :
  (List.length data <= i)%nat ->
  outcome next_pred = Ok pred ->
  outcome (advanced_item env self settings data i next_pred)
  = Raise IndexError.
Proof.
  intros Hi Hp. unfold advanced_item. rewrite outcome_bind, Hp.
  apply nth_error_None in Hi. rewrite Hi. reflexivity.
Qed.

End Advanced.



(** X12: when the generator of [detect_advanced] starts, it has one item
    per prediction of the predictor, not per image: item [i] is the loop
    body for prediction [i] and the image data of image [i], and an item
    whose prediction arrives for an index past the last image raises
    [IndexError]. *)
Theorem detect_advanced_items_follow_predictions :
  forall (ndarray CC : Type) (env : Imports ndarray CC)
         (self : LineDetector ndarray CC) (settings : Settings.t)
         (predictor : list (ImageData ndarray) -> Generator ndarray)
         (images : list ndarray) (items : list (M StaffList)),
    outcome (detect_advanced env self settings predictor images) = Ok items ->
    exists data preds,
      Forall2
        (fun img d =>
           create_data env img (Settings.lineSpaceHeight settings) = Some d)
        images data
      /\ outcome (predictor data) = Ok preds
      /\ List.length items = List.length preds
      /\ (forall i next_pred,
            nth_error preds i = Some next_pred ->
            nth_error items i
            = Some (advanced_item env self settings data i next_pred))
      /\ (forall i next_pred pred item,
            nth_error preds i = Some next_pred ->
            nth_error items i = Some item ->
            (List.length images <= i)%nat ->
            outcome next_pred = Ok pred ->
            outcome item = Raise IndexError).
Proof.
  intros ndarray CC env self settings predictor images items H.
  unfold detect_advanced in H.
  apply outcome_bind_ok in H. destruct H as [u [_ H]].
  apply outcome_bind_ok in H. destruct H as [data [Hdata H]].
  apply outcome_bind_ok in H. destruct H as [preds [Hpreds H]].
  simpl in H. injection H as <-.
  pose proof (imap_create_data_ok env settings images Hdata) as Hall.
  assert (Hnth : forall i next_pred,
             nth_error preds i = Some next_pred ->
             nth_error
               (map (fun ip => advanced_item env self settings data
                                 (fst ip) (snd ip))
                  (enumerate_from 0 preds)) i
             = Some (advanced_item env self settings data i next_pred)).
  { intros i next_pred Hi.
    rewrite nth_error_map, nth_error_enumerate_from, Hi. reflexivity. }
  exists data, preds. split; [exact Hall |]. split; [exact Hpreds |].
  split; [| split].
  - rewrite length_map. clear. generalize 0%nat.
    induction preds as [| p preds IH]; intros s; simpl; [| rewrite IH];
      reflexivity.
  - exact Hnth.
  - intros i next_pred pred item Hi Hitem Hlen Hp.
    rewrite (Hnth i next_pred Hi) in Hitem. injection Hitem as <-.
    apply advanced_item_out_of_range with (pred := pred); [| exact Hp].
    rewrite <- (Forall2_length Hall). exact Hlen.
Qed.

(** One page and a predictor that yields two predictions: two items. *)
Lemma detect_advanced_items_follow_predictions_witness :
  exists (data : list (ImageData StandIn.ndarray))
         (preds : list (M StandIn.ndarray)),
    outcome (surplus_predictor data) = Ok preds
    /\ List.length preds = 2%nat.
Proof.
  destruct (@detect_advanced_items_follow_predictions _ _ StandIn.env
              StandIn.self full_settings surplus_predictor [StandIn.page]
              _ eq_refl)
    as [data [preds [_ [Hp [Hlen _]]]]].
  exists data, preds. split; [exact Hp |].
  rewrite <- Hlen. reflexivity.
Defined.

(** ** [detect_paths] *)

Section Paths.

Context {ndarray CC : Type}.
Variable read_img : string -> option ndarray.

Lemma read_all_some (image_paths : list string) (images : list ndarray) :
  read_all read_img image_paths = Some images
  <-> Forall2 (fun path img => read_img path = Some img) image_paths images.
Proof.
  revert images. induction image_paths as [| path rest IH]; intros images;
    simpl.
  - split.
    + intros H. injection H as <-. constructor.
    + intros H. inversion H. reflexivity.
  - destruct (read_img path) as [img |] eqn:E.
    + destruct (read_all read_img rest) as [imgs |].
      * split.
        -- intros H. injection H as <-. constructor; [exact E |].
           apply IH. reflexivity.
        -- intros H. inversion H as [| ? img' ? imgs' Hi Hrest]; subst.
           apply IH in Hrest. congruence.
      * split; [discriminate |].
        intros H. inversion H as [| ? img' ? imgs' Hi Hrest]; subst.
        apply IH in Hrest. discriminate Hrest.
    + split; [discriminate |].
      intros H. inversion H; subst. congruence.
Qed.

Lemma read_all_none (image_paths : list string) :
  read_all read_img image_paths = None
  <-> exists path, In path image_paths /\ read_img path = None.
Proof.
  induction image_paths as [| path rest IH]; simpl.
  - split; [discriminate | intros [p [[] _]]].
  - destruct (read_img path) as [img |] eqn:E.
    + destruct (read_all read_img rest) as [imgs |].
      * split; [discriminate |].
        intros [p [[<- | Hp] Hn]]; [congruence |].
        exfalso. assert (C : Some imgs = None) by (apply IH; exists p; auto).
        discriminate C.
      * split; [| reflexivity]. intros _.
        destruct (proj1 IH eq_refl) as [p [Hp Hn]]. exists p. auto.
    + split; [| reflexivity]. intros _. exists path. auto.
Qed.

End Paths.

(** X13: [detect_paths] reads every image before it returns the generator:
    when all paths can be read it is [detect] on the images in the order
    of the paths; when one path cannot be read it raises at the call, and
    no generator is returned even for the paths before it. *)
Theorem detect_paths_reads_all_images_first :
  forall (ndarray CC : Type) (env : Imports ndarray CC)
         (self : LineDetector ndarray CC) (settings : Settings.t)
         (predictor : list (ImageData ndarray) -> Generator ndarray)
         (read_img : string -> option ndarray)
         (image_paths : list string),
    (forall images,
       Forall2 (fun path img => read_img path = Some img)
         image_paths images ->
       detect_paths env self settings predictor read_img image_paths
       = Some (detect env self settings predictor images))
    /\ (detect_paths env self settings predictor read_img image_paths = None
        <-> exists path, In path image_paths /\ read_img path = None).
Proof.
  intros ndarray CC env self settings predictor read_img image_paths.
  split.
  - intros images H. apply read_all_some in H. unfold detect_paths.
    rewrite H. reflexivity.
  - rewrite <- read_all_none. unfold detect_paths.
    destruct (read_all read_img image_paths); split; congruence.
Qed.

(** A list of two paths, the second of which does not exist: no
    generator. *)
Lemma detect_paths_reads_all_images_first_witness :
  detect_paths StandIn.env StandIn.self StandIn.settings StandIn.predictor
    standin_read_img ["page.png"; "missing.png"]%string
  = None.
Proof.
  apply (proj2 (proj2 (detect_paths_reads_all_images_first StandIn.env
                         StandIn.self StandIn.settings StandIn.predictor
                         standin_read_img
                         ["page.png"; "missing.png"]%string))).
  exists "missing.png"%string. split; [simpl; auto | reflexivity].
Defined.

(** ** The preparation of [detect_basic] *)

(** X14: for one image, [detect_basic] calls its image helpers in the order
    [enhance] (only if bins 1 to 7 of the histogram are not empty),
    [binarize], [vertical_runs], [calculate_horizontal_runs], each once and
    none after one has raised, before any stage is entered. *)
Theorem basic_preparation_order :
  forall (ndarray CC : Type) (env : Imports ndarray CC)
         (settings : Settings.t) (img : ndarray),
    (exists rest,
       basic_helpers env img
       = collaborators_of (trace (basic_image_data env settings img))
         ++ rest)
    /\ (forall d,
          outcome (basic_image_data env settings img) = Ok d ->
          collaborators_of (trace (basic_image_data env settings img))
          = basic_helpers env img)
    /\ stages_of (trace (basic_image_data env settings img)) = [].
Proof.
  intros ndarray CC env settings img.
  assert (L : logs collaborators_of (basic_image_data env settings img)
                (basic_helpers env img)).
  { unfold basic_image_data, basic_helpers, gray_to_binarize,
      binarized_image_data, runs_image_data. cbv zeta.
    apply collaborators_bind.
    - destruct (sum _ =? 0); simpl;
        [apply collaborators_ret | apply collaborators_use].
    - intros gray.
      apply (@collaborators_bind _ _ _ _ [Binarize]
               [VerticalRuns; HorizontalRuns]);
        [apply collaborators_use | intros binary].
      apply (@collaborators_bind _ _ _ _ [VerticalRuns] [HorizontalRuns]);
        [apply collaborators_use | intros runs].
      apply (@collaborators_bind _ _ _ _ [HorizontalRuns] []);
        [apply collaborators_use | intros horizontal].
      apply collaborators_ret. }
  destruct L as [P F]. split; [exact P | split].
  - exact F.
  - apply follows_nil_stages.
    unfold basic_image_data, gray_to_binarize, binarized_image_data,
      runs_image_data.
    cbv zeta.
    apply follows_nil_bind.
    + destruct (negb _); [apply follows_use | apply follows_ret].
    + intros gray.
      apply follows_nil_bind; [apply follows_use | intros binary].
      apply follows_nil_bind; [apply follows_use | intros runs].
      apply follows_nil_bind; [apply follows_use | intros horizontal].
      apply follows_ret.
Qed.

(** On the stand-in page with the helper set that puts the lines in bin 1,
    all four helpers are called. *)
Lemma basic_preparation_order_witness :
  collaborators_of
    (trace (basic_image_data picky_env StandIn.settings StandIn.page))
  = [Enhance; Binarize; VerticalRuns; HorizontalRuns].
Proof.
  apply (proj1 (proj2 (basic_preparation_order picky_env StandIn.settings
                         StandIn.page))
           (mkImageData StandIn.page 20 2 StandIn.page None)).
  reflexivity.
Defined.

(** ** [PCPredictor.predict] *)

(** X15: iterating over [PCPredictor.predict]: every sample handed to the
    loader has the image both as [binary] and as [image]; the k-th array
    yielded is the k-th prediction of the network, cropped and resized, so
    the number of arrays follows the predictions and not the images; and
    the only exception the generator raises is that of the library. *)
Theorem predictor_yields_the_cropped_predictions :
  forall (ndarray Dataset Prediction : Type)
         (lib : PageSegmentation ndarray Dataset Prediction)
         (predictor_height : Z) (images : list (ImageData ndarray)),
    (forall k a,
       nth_error
         (yielded (consume (PCPredictor_predict lib predictor_height images)))
         k = Some a ->
       exists data preds pred,
         load_data lib predictor_height
           (map (fun i => (image i, image i, height i)) images) = Some data
         /\ predictor_predict lib data = Some preds
         /\ nth_error preds k = Some pred
         /\ crop_and_resize lib pred = Some a)
    /\ (forall e,
          raised (consume (PCPredictor_predict lib predictor_height images))
          = Some e ->
          e = CollaboratorError Predict).
Proof.
  intros ndarray Dataset Prediction lib predictor_height images.
  unfold PCPredictor_predict.
  destruct (load_data lib predictor_height
              (map (fun i => (image i, image i, height i)) images))
    as [data |] eqn:Hload; simpl.
  - destruct (predictor_predict lib data) as [preds |] eqn:Hnet; simpl.
    + destruct (consume_items_map
                  (fun pred => use Predict (crop_and_resize lib pred)) preds)
        as [H1 [_ H3]].
      split.
      * intros k a Hk. destruct (H1 k a Hk) as [pred [Hp Ha]].
        exists data, preds, pred. apply outcome_use_ok in Ha.
        repeat split; assumption.
      * intros e He. destruct (H3 e He) as [pred [_ Hr]].
        destruct (crop_and_resize lib pred); [discriminate Hr |].
        injection Hr as <-. reflexivity.
    + split.
      * intros k a Hk. destruct k; discriminate Hk.
      * intros e He. injection He as <-. reflexivity.
  - split.
    + intros k a Hk. destruct k; discriminate Hk.
    + intros e He. injection He as <-. reflexivity.
Qed.

(** With the stand-in library and two pages, the second array yielded is
    the second prediction. *)
Lemma predictor_yields_the_cropped_predictions_witness :
  exists data preds pred,
    load_data standin_lib 20
      (map (fun i => (image i, image i, height i))
         [StandIn.page_data; five_line_data]) = Some data
    /\ predictor_predict standin_lib data = Some preds
    /\ nth_error preds 1 = Some pred
    /\ crop_and_resize standin_lib pred = Some five_line_page.
Proof.
  apply (proj1 (predictor_yields_the_cropped_predictions standin_lib 20
                  [StandIn.page_data; five_line_data])).
  reflexivity.
Defined.

(** ** Lines that pass the filter *)

Lemma long_line_two_points (l : Line) :
  long_line l -> (2 <= List.length l)%nat.
Proof.
  intros [w [Hw Hlt]].
  destruct l as [| p [| q l]]; simpl; [discriminate Hw | | lia].
  unfold span in Hw. simpl in Hw. injection Hw as <-. lia.
Qed.

(** X16: every line that passes the comprehension of line 122 has at least
    two points, its last point lies more than 50 columns to the right of
    its first one, and it is one of the lines given. *)
Theorem filtered_lines_have_two_points :
  forall (line_list kept : list Line),
    outcome (length_filter line_list) = Ok kept ->
    forall l,
      In l kept ->
      In l line_list
      /\ (2 <= List.length l)%nat
      /\ exists first last,
           first_item l = Some first /\ last_item l = Some last
           /\ column first + 50 < column last.
Proof.
  intros line_list kept H l Hl.
  apply length_filter_ok in H. destruct H as [Hlong Hincl].
  rewrite Forall_forall in Hlong. specialize (Hlong l Hl).
  split; [exact (Hincl l Hl) | split; [exact (long_line_two_points Hlong) |]].
  destruct Hlong as [w [Hw Hlt]].
  destruct (long_line_ends l Hw) as [f [e [Hf [He ->]]]].
  exists f, e. repeat split; auto. lia.
Qed.

(** The stand-in line of span 200 passes and has two points. *)
Lemma filtered_lines_have_two_points_witness :
  (2 <= List.length (StandIn.hline 10 0 200))%nat.
Proof.
  apply (@filtered_lines_have_two_points StandIn.page
           [StandIn.hline 10 0 200] eq_refl (StandIn.hline 10 0 200)).
  left. reflexivity.
Defined.

(** ** How often the normalizer runs *)

Lemma plan_normalizer_entries (s : Settings.t) :
  count_occ stage_eq_dec (stage_plan s) NormalizeLines
  = if (1 <? Settings.numLine s) && Settings.lineExtension s
    then if Settings.post_process s then 2%nat else 1%nat
    else 0%nat.
Proof.
  unfold stage_plan, system_stages, post_stages, smooth_stages, fit_stages.
  destruct (1 <? Settings.numLine s), (Settings.lineExtension s),
    (Settings.post_process s), (Settings.smooth_lines s =? 1),
    (Settings.smooth_lines s =? 2),
    (Qpositive (Settings.line_fit_distance s));
    reflexivity.
Qed.

(** X17: [normalize_lines_in_system] is entered only if [lineExtension] is
    on and [numLine] exceeds 1; a run that returns with both has entered it
    once, or twice when [post_process] is on as well, and otherwise not at
    all. *)
Theorem normalizer_needs_extension_and_several_lines :
  forall (ndarray CC : Type) (env : Imports ndarray CC)
         (self : LineDetector ndarray CC) (settings : Settings.t)
         (d : ImageData ndarray),
    (In NormalizeLines
       (stages_of (trace (detect_staff_lines env self settings d))) ->
     Settings.lineExtension settings = true /\ 1 < Settings.numLine settings)
    /\ (forall r,
          outcome (detect_staff_lines env self settings d) = Ok r ->
          count_occ stage_eq_dec
            (stages_of (trace (detect_staff_lines env self settings d)))
            NormalizeLines
          = if (1 <? Settings.numLine settings)
               && Settings.lineExtension settings
            then if Settings.post_process settings then 2%nat else 1%nat
            else 0%nat).
Proof.
  intros ndarray CC env self settings d. split.
  - intros H. apply entered_in_plan in H.
    apply (count_occ_In stage_eq_dec) in H.
    rewrite plan_normalizer_entries in H.
    destruct (1 <? Settings.numLine settings) eqn:Hn; simpl in H; [| lia].
    destruct (Settings.lineExtension settings); [| lia].
    apply Z.ltb_lt in Hn. auto.
  - intros r Hr. rewrite (returned_run_plan _ _ _ _ Hr).
    apply plan_normalizer_entries.
Qed.

(** With five-line systems, line extension and post-processing, the
    stand-in run enters the normalizer twice. *)
Lemma normalizer_needs_extension_and_several_lines_witness :
  count_occ stage_eq_dec
    (stages_of (trace (detect_staff_lines StandIn.env StandIn.self
                         full_settings StandIn.page_data)))
    NormalizeLines
  = 2%nat.
Proof.
  apply (proj2 (normalizer_needs_extension_and_several_lines StandIn.env
                  StandIn.self full_settings StandIn.page_data)
           [[StandIn.hline 10 0 200]]).
  reflexivity.
Defined.
